(** * Synthetic organisation data: generator, view builder and read API

    A shallow embedding of [data_generation/generate_org_data.py] and
    [api/org_api.py], and the properties of the specification proved
    about them.

    Conventions of the embedding.
    - A Python call that may raise returns a [result]; the exception is
      the one the interpreter or the library raises at that point.
    - The seeded [numpy.random.Generator] ([rng]), the process-wide
      [np.random] state and the clock are an explicit [World] threaded
      through the generator functions.  A random generator is the stream
      of variates it is going to deliver; every statement quantifies over
      all streams.
    - A finite binary64 value is the rational it denotes.  Comparison,
      [clip], [minimum], [maximum] and [round] to an integer are exact on
      such values, so ages and tenures are computed in [Q].  Operations
      whose result depends on binary rounding (products, means, rounding
      to two decimals, [exp]) are fields of the [Float64] interface and
      stay uninterpreted. *)

From Stdlib Require Import ZArith QArith Qround Qminmax Qabs Lia Ascii.
From Stdlib Require Import Sorting.Sorted Sorting.Permutation.
From stdpp Require Import base option list strings gmap.

Local Open Scope Z_scope.

(** ** Python results and exceptions *)

Inductive exn : Type :=
| KeyError (key : string)
| ValueError
| TypeError
| IndexError
| OverflowError
| ValidationError
| HTTPException (status_code : Z).

Inductive result (A : Type) : Type :=
| Ok (a : A)
| Raise (e : exn).
Arguments Ok {A} a.
Arguments Raise {A} e.

#[global] Instance result_ret : MRet result := fun A a => Ok a.
#[global] Instance result_bind : MBind result :=
  fun A B f m => match m with Ok a => f a | Raise e => Raise e end.
#[global] Instance result_fmap : FMap result :=
  fun A B f m => match m with Ok a => Ok (f a) | Raise e => Raise e end.

(** [xs[i]] on a Python list or numpy array with a non-negative index. *)
Definition getitem {A} (xs : list A) (i : nat) : result A :=
  match xs !! i with Some x => Ok x | None => Raise IndexError end.

(** ** Binary64 arithmetic that is not exact *)

Class Float64 : Type := {
  float : Type;
  float_eq_dec :: EqDecision float;
  (** the binary64 nearest to a rational: literals and [float(n)] *)
  of_Q : Q -> float;
  nan : float;
  fmul : float -> float -> float;
  (** [exp], as the log-normal sampler applies it *)
  fexp : Q -> float;
  (** [int(x)]: truncation, [None] on nan and infinities *)
  to_int : float -> option Z;
  (** [x == n] for an integer [n] *)
  feqb_Z : float -> Z -> bool;
  isnan : float -> bool;
  (** [ndarray.round(2)] and the builtin [round(x, 2)] *)
  np_round2 : float -> float;
  py_round2 : float -> float;
  (** [Series.mean()], [.min()], [.max()]: nan entries skipped, nan when
      nothing is left *)
  fmean : list float -> float;
  fmin : list float -> float;
  fmax : list float -> float;
}.

(** ** Dates

    A [datetime.date] is kept as its proleptic Gregorian ordinal, the
    representation [date.__add__] and the comparisons work on. *)

Definition date : Type := Z.

Definition MINYEAR : Z := 1.
Definition MAXYEAR : Z := 9999.
Definition _MAXORDINAL : Z := 3652059.

Definition _days_before_year (year : Z) : Z :=
  let y := year - 1 in y * 365 + y / 4 - y / 100 + y / 400.

(** [date(year, 1, 1)] *)
Definition date_jan1 (year : Z) : result date :=
  if bool_decide (MINYEAR <= year <= MAXYEAR)
  then Ok (_days_before_year year + 1)
  else Raise ValueError.

(** [d + timedelta(days=days)] *)
Definition date_add_days (d : date) (days : Z) : result date :=
  let o := d + days in
  if bool_decide (0 < o <= _MAXORDINAL) then Ok o else Raise OverflowError.

(** A [datetime.date] seen through its attributes [year], [month] and
    [day], for the code that replaces them. *)
Module Date.
Record t : Type := mk {
  year : Z;
  month : Z;
  day : Z;
}.
End Date.

Definition _is_leap (year : Z) : bool :=
  bool_decide (year mod 4 = 0)
  && (negb (bool_decide (year mod 100 = 0)) || bool_decide (year mod 400 = 0)).

Definition _days_in_month (year month : Z) : Z :=
  if bool_decide (month = 2) && _is_leap year then 29
  else default 0 ([31; 28; 31; 30; 31; 30; 31; 31; 30; 31; 30; 31]
                    !! Z.to_nat (month - 1)).

(** [d.replace(year=..., month=..., day=...)]: a new date with the given
    fields in place of those of [d], checked as the constructor checks
    its fields.  An integer that does not fit a C [int] fails with
    [OverflowError] before any check of the calendar. *)
Definition date_replace (d : Date.t) (year month day : option Z)
  : result Date.t :=
  let year := default (Date.year d) year in
  let month := default (Date.month d) month in
  let day := default (Date.day d) day in
  if negb (forallb (fun n => bool_decide (- 2 ^ 31 <= n < 2 ^ 31))
                   [year; month; day])
  then Raise OverflowError
  else if bool_decide (MINYEAR <= year <= MAXYEAR)
          && bool_decide (1 <= month <= 12)
          && bool_decide (1 <= day <= _days_in_month year month)
  then Ok (Date.mk year month day)
  else Raise ValueError.

(** generate_org_data.py: [safe_add_years] *)
Definition safe_add_years (d : Date.t) (years : Z) : result Date.t :=
  match date_replace d (Some (Date.year d + years)) None None with
  | Raise ValueError =>
      date_replace d (Some (Date.year d + years)) (Some 2) (Some 28)
  | r => r
  end.

(** ** Random sources *)

Record Generator : Type := { variate : nat -> Q }.

Definition draw (g : Generator) : Q * Generator :=
  (variate g 0%nat, {| variate := fun k => variate g (S k) |}).

Fixpoint draws (size : nat) (g : Generator) : list Q * Generator :=
  match size with
  | O => ([], g)
  | S size' =>
      let '(z, g1) := draw g in
      let '(zs, g2) := draws size' g1 in
      (z :: zs, g2)
  end.

(** The index a variate selects among [n] equally treated alternatives. *)
Definition choice_index (n : nat) (z : Q) : nat :=
  Z.to_nat (Qfloor (Qabs z) mod Z.of_nat n).

(** [Generator.normal(loc, scale, size)] *)
Definition rng_normal (loc scale : Q) (size : nat) (g : Generator)
  : list Q * Generator :=
  let '(zs, g') := draws size g in
  (map (fun z => loc + scale * z)%Q zs, g').

(** [Generator.exponential(scale, size)]: non-negative variates *)
Definition rng_exponential (scale : Q) (size : nat) (g : Generator)
  : list Q * Generator :=
  let '(zs, g') := draws size g in
  (map (fun z => scale * Qabs z)%Q zs, g').

(** [Generator.lognormal(mean, sigma, size)] *)
Definition rng_lognormal `{Float64} (mean sigma : Q) (size : nat)
    (g : Generator) : list float * Generator :=
  let '(zs, g') := draws size g in
  (map (fun z => fexp (mean + sigma * z)%Q) zs, g').

(** [Generator.choice(a)]: one element of a non-empty sequence. *)
Definition rng_choice1 {A} (a : list A) (g : Generator)
  : result (A * Generator) :=
  match a with
  | [] => Raise ValueError
  | _ =>
      let '(z, g') := draw g in
      x ← getitem a (choice_index (length a) z); Ok (x, g')
  end.

(** [Generator.choice(a, size=size)] *)
Fixpoint rng_choice {A} (a : list A) (size : nat) (g : Generator)
  : result (list A * Generator) :=
  match size with
  | O => Ok ([], g)
  | S size' =>
      '(x, g1) ← rng_choice1 a g;
      '(xs, g2) ← rng_choice a size' g1;
      Ok (x :: xs, g2)
  end.

(** [Generator.choice(a, size=size, p=p)]: [p] must have the length of
    [a] and hold no negative entry; only entries of positive probability
    are drawn. *)
Definition rng_choice_p {A} (a : list A) (size : nat) (p : list Q)
    (g : Generator) : result (list A * Generator) :=
  if bool_decide (length a = length p) then
    if forallb (fun q => Qle_bool 0 q) p then
      rng_choice
        (map fst (List.filter (fun xq => negb (Qle_bool (snd xq) 0)) (zip a p)))
        size g
    else Raise ValueError
  else Raise ValueError.

(** [np.random.randint(low, high)]: an integer of the half-open
    interval [[low, high)]. *)
Definition np_random_randint (low high : Z) (g : Generator)
  : result (Z * Generator) :=
  if bool_decide (low < high) then
    let '(z, g') := draw g in
    Ok (low + Qfloor (Qabs z) mod (high - low), g')
  else Raise ValueError.

(** The state the generator functions read and advance. *)
Record World : Type := {
  rng : Generator;          (* np.random.default_rng(RANDOM_SEED) *)
  np_random : Generator;    (* the global np.random state *)
  today_year : Z;           (* date.today().year *)
}.

Definition M (A : Type) : Type := World -> result (A * World).

#[global] Instance M_ret : MRet M := fun A a w => Ok (a, w).
#[global] Instance M_bind : MBind M :=
  fun A B f m w => match m w with Ok (a, w') => f a w' | Raise e => Raise e end.

Definition lift {A} (r : result A) : M A :=
  fun w => match r with Ok a => Ok (a, w) | Raise e => Raise e end.

(** Run a sampler on the seeded generator. *)
Definition with_rng {A} (f : Generator -> A * Generator) : M A :=
  fun w =>
    let '(a, g) := f (rng w) in
    Ok (a, {| rng := g; np_random := np_random w; today_year := today_year w |}).

Definition with_rng_r {A} (f : Generator -> result (A * Generator)) : M A :=
  fun w =>
    '(a, g) ← f (rng w);
    Ok (a, {| rng := g; np_random := np_random w; today_year := today_year w |}).

(** Run a sampler on the global [np.random] state. *)
Definition with_np_random {A} (f : Generator -> result (A * Generator)) : M A :=
  fun w =>
    '(a, g) ← f (np_random w);
    Ok (a, {| rng := rng w; np_random := g; today_year := today_year w |}).

Definition date_today_year : M Z := fun w => Ok (today_year w, w).

(** A [for] loop that appends one value per element. *)
Fixpoint for_each {A B} (f : A -> M B) (xs : list A) : M (list B) :=
  match xs with
  | [] => mret []
  | x :: xs' => y ← f x; ys ← for_each f xs'; mret (y :: ys)
  end.

(** ** Entities *)

Module Department.
Record t : Type := mk {
  department_id : Z;
  department_name : string;
  department_type : string;
  headcount_weight : Q;
}.
End Department.

Module JobPosition.
Record t : Type := mk {
  job_position_id : Z;
  department_id : Z;
  position_name : string;
  seniority_level : string;
}.
End JobPosition.

Module Employee.
Record t `{Float64} : Type := mk {
  employee_id : Z;
  first_name : string;
  last_name : string;
  department_id : Z;
  job_position_id : Z;
  seniority_level : string;
  birth_date : date;
  hire_date : date;
  age : Z;
  tenure_years : Z;
  salary : float;
}.
Arguments mk {_} _ _ _ _ _ _ _ _ _ _ _.
End Employee.

(** ** generate_org_data.py *)

Definition N_EMPLOYEES : nat := 600.

Definition generate_departments : list Department.t :=
  let departments :=
    [ ("Operations", "Core", 4 # 1);
      ("Commercial", "Core", 3 # 1);
      ("IT & Data", "Core", 25 # 10);
      ("Finance", "Corporate", 18 # 10);
      ("Human Resources", "Corporate", 12 # 10);
      ("Legal & Compliance", "Support", 7 # 10);
      ("Strategy & Projects", "Support", 8 # 10) ]%Q in
  imap (fun i '(name, dept_type, weight) =>
          Department.mk (Z.of_nat i + 1) name dept_type weight)
       departments.

Definition seniority_levels : list string :=
  ["Junior"; "SemiSenior"; "Senior"; "Lead"; "Manager"].

(** The two nested loops of [generate_job_positions]; the loop state is
    the pair of the list built so far and the running [job_position_id]. *)
Definition append_position (dept_id : Z) (dept_name : string)
    (state : list JobPosition.t * Z) (level : string)
  : list JobPosition.t * Z :=
  let '(job_positions, job_position_id) := state in
  let position_name := dept_name +:+ " " +:+ level in
  (job_positions ++
     [JobPosition.mk job_position_id dept_id position_name level],
   job_position_id + 1).

Definition append_department (state : list JobPosition.t * Z)
    (dept : Department.t) : list JobPosition.t * Z :=
  let dept_id := Department.department_id dept in
  let dept_name := Department.department_name dept in
  foldl (append_position dept_id dept_name) state seniority_levels.

Definition generate_job_positions (departments_df : list Department.t)
  : list JobPosition.t :=
  fst (foldl append_department ([], 1) departments_df).

(** [np.clip(x, lo, hi)] *)
Definition np_clip (x lo hi : Q) : Q := Qmin (Qmax x lo) hi.

(** [np.round]: to the nearest integer, halves to the even neighbour. *)
Definition np_round (x : Q) : Z :=
  let f := Qfloor x in
  match (x - inject_Z f ?= 1 # 2)%Q with
  | Lt => f
  | Gt => f + 1
  | Eq => if Z.even f then f else f + 1
  end.

Definition generate_age (size : nat) : M (list Z) :=
  ages ← with_rng (rng_normal 37 8 size);
  let ages := map (fun a => np_clip a 22 65) ages in
  mret (map np_round ages).

Definition generate_tenure_years (ages : list Z) : M (list Z) :=
  let size := length ages in
  raw ← with_rng (rng_exponential 3 size);
  let tenure := map (fun r => np_clip r 0 35) raw in
  let max_tenure := map (fun a => Z.max 0 (a - 21)) ages in
  let tenure := zip_with (fun t m => Qmin t (inject_Z m)) tenure max_tenure in
  mret (map np_round tenure).

(** The body of the loop of [generate_dates_from_age_and_tenure], given
    the two sampled days of the year. *)
Definition dates_of_days (today_year age tenure : Z)
    (birth_day_of_year hire_day_of_year : Z) : result (date * date) :=
  let birth_year := today_year - age in
  let hire_year := today_year - tenure in
  b0 ← date_jan1 birth_year;
  birth_date ← date_add_days b0 birth_day_of_year;
  h0 ← date_jan1 hire_year;
  hire_date ← date_add_days h0 hire_day_of_year;
  min_hire_date ← date_add_days birth_date (18 * 365);
  let hire_date :=
    if bool_decide (hire_date < min_hire_date) then min_hire_date
    else hire_date in
  Ok (birth_date, hire_date).

Definition generate_dates_from_age_and_tenure (ages tenure_years : list Z)
  : M (list date * list date) :=
  let size := length ages in
  today ← date_today_year;
  dates ← for_each
    (fun i =>
       age ← lift (getitem ages i);
       tenure ← lift (getitem tenure_years i);
       birth_day_of_year ← with_np_random (np_random_randint 1 365);
       hire_day_of_year ← with_np_random (np_random_randint 1 365);
       lift (dates_of_days today age tenure birth_day_of_year hire_day_of_year))
    (seq 0 size);
  mret (map fst dates, map snd dates).

Section Generation.
Context `{Float64}.

(** A Python [dict] built by successive assignments: the last one wins. *)
Definition dict_of {K V} `{Countable K} (items : list (K * V)) : gmap K V :=
  foldl (fun d kv => <[kv.1 := kv.2]> d) ∅ items.

Definition level_factor : gmap string Q :=
  dict_of [ ("Junior", 8 # 10); ("SemiSenior", 1 # 1); ("Senior", 13 # 10);
            ("Lead", 16 # 10); ("Manager", 2 # 1) ]%Q.

Definition dept_type_factor : gmap string Q :=
  dict_of [ ("Core", 110 # 100); ("Corporate", 1 # 1); ("Support", 95 # 100) ]%Q.

Definition generate_salary (levels : list string) (department_ids : list Z)
    (departments_df : list Department.t) : M (list float) :=
  let size := length levels in
  let dept_types : gmap Z string :=
    dict_of (map (fun d => (Department.department_id d,
                            Department.department_type d)) departments_df) in
  base ← with_rng (rng_lognormal (85 # 10) (5 # 10) size);
  for_each
    (fun i =>
       lvl ← lift (getitem levels i);
       dept_id ← lift (getitem department_ids i);
       b ← lift (getitem base i);
       let lf := default (1 # 1)%Q (level_factor !! lvl) in
       let dt := default (1 # 1)%Q
                   (dept_type_factor !! default "Corporate" (dept_types !! dept_id)) in
       mret (fmul (fmul b (of_Q lf)) (of_Q dt)))
    (seq 0 size).

(** [groupby(["department_id", "seniority_level"])["job_position_id"]
    .apply(list).to_dict()]: the ids of every group, in row order. *)
Definition grouped_positions_of (job_positions_df : list JobPosition.t)
  : gmap (Z * string) (list Z) :=
  foldl
    (fun d p =>
       let key := (JobPosition.department_id p, JobPosition.seniority_level p) in
       <[key := default [] (d !! key) ++ [JobPosition.job_position_id p]]> d)
    ∅ job_positions_df.

(** [weights / weights.sum()]; a zero sum leaves no valid probability. *)
Definition normalized (weights : list Q) : result (list Q) :=
  let total := foldr Qplus 0%Q weights in
  match weights with
  | [] => Ok []
  | _ => if Qeq_bool total 0 then Raise ValueError
         else Ok (map (fun w => w / total)%Q weights)
  end.

Definition first_names : list string :=
  ["Carlos"; "María"; "Ángela"; "José"; "Pedro"; "Jaime"; "Ana";
   "Juan"; "Mauricio"; "Diego"].

Definition last_names : list string :=
  ["Álvarez"; "Henao"; "Rodríguez"; "López"; "Hernández";
   "Pérez"; "Gómez"; "Sánchez"; "Ramírez"; "Torres"].

Definition seniority_probs : list Q :=
  [40 # 100; 30 # 100; 18 # 100; 7 # 100; 5 # 100]%Q.

(** The candidate positions of one employee: the exact (department,
    level) group, or every position of the department when that group is
    missing or empty. *)
Definition candidates_for (job_positions_df : list JobPosition.t)
    (grouped_positions : gmap (Z * string) (list Z))
    (dept_id : Z) (level : string) : list Z :=
  let key := (dept_id, level) in
  match grouped_positions !! key with
  | Some (c :: cs) => c :: cs
  | _ =>
      map JobPosition.job_position_id
        (filter (fun p => JobPosition.department_id p = dept_id)
                job_positions_df)
  end.

Definition generate_employees (departments_df : list Department.t)
    (job_positions_df : list JobPosition.t) (n_employees : nat)
  : M (list Employee.t) :=
  let weights := map Department.headcount_weight departments_df in
  dept_probs ← lift (normalized weights);
  let dept_ids := map Department.department_id departments_df in
  (* 1) department and level of every employee *)
  employee_department_ids ←
    with_rng_r (rng_choice_p dept_ids n_employees dept_probs);
  employee_seniority ←
    with_rng_r (rng_choice_p seniority_levels n_employees seniority_probs);
  (* 2) a position compatible with department and level *)
  let grouped_positions := grouped_positions_of job_positions_df in
  job_position_ids ←
    for_each
      (fun '(dept_id, level) =>
         let candidates :=
           candidates_for job_positions_df grouped_positions dept_id level in
         with_rng_r (rng_choice1 candidates))
      (zip employee_department_ids employee_seniority);
  (* 3) age, tenure and dates *)
  ages ← generate_age n_employees;
  tenure_years ← generate_tenure_years ages;
  '(birth_dates, hire_dates) ←
    generate_dates_from_age_and_tenure ages tenure_years;
  (* 4) salary *)
  salaries ←
    generate_salary employee_seniority employee_department_ids departments_df;
  (* 5) names *)
  employee_first_names ← with_rng_r (rng_choice first_names n_employees);
  employee_last_names ← with_rng_r (rng_choice last_names n_employees);
  for_each
    (fun i =>
       fn ← lift (getitem employee_first_names i);
       ln ← lift (getitem employee_last_names i);
       dept ← lift (getitem employee_department_ids i);
       pos ← lift (getitem job_position_ids i);
       lvl ← lift (getitem employee_seniority i);
       bd ← lift (getitem birth_dates i);
       hd ← lift (getitem hire_dates i);
       a ← lift (getitem ages i);
       t ← lift (getitem tenure_years i);
       s ← lift (getitem salaries i);
       mret (Employee.mk (Z.of_nat i + 1) fn ln dept pos lvl bd hd a t s))
    (seq 0 n_employees).

End Generation.

(** ** Data frames

    A frame is its column labels and its rows; a row holds one cell per
    column, in column order.  [CNull] is a missing value ([None], or the
    NaN pandas stores where a join finds no partner). *)

Class Parsing `{Float64} : Type := {
  (** [int(s)] and [float(s)] on a string, [None] when Python raises *)
  int_of_str : string -> option Z;
  float_of_str : string -> option float;
}.

Section Frames.
Context `{Float64}.

Inductive cell : Type :=
| CInt (z : Z)
| CFloat (x : float)
| CStr (s : string)
| CDate (d : date)
| CNull.

#[global] Instance cell_eq_dec : EqDecision cell.
Proof. solve_decision. Defined.

Record DataFrame : Type := {
  columns : list string;
  rows : list (list cell);
}.

Fixpoint index_of (c : string) (cols : list string) : option nat :=
  match cols with
  | [] => None
  | c' :: cols' =>
      if bool_decide (c' = c) then Some O else S <$> index_of c cols'
  end.

Definition cell_at (i : nat) (row : list cell) : cell :=
  default CNull (row !! i).

(** [row.get(c)] on a row of a frame with columns [cols] *)
Definition row_get (cols : list string) (row : list cell) (c : string)
  : option cell :=
  i ← index_of c cols; Some (cell_at i row).

(** [row[c]] *)
Definition row_getitem (cols : list string) (row : list cell) (c : string)
  : result cell :=
  match row_get cols row c with
  | Some v => Ok v
  | None => Raise (KeyError c)
  end.

(** [pd.DataFrame(records)] for a list of dicts with the keys [cols]:
    an empty list gives a frame without columns. *)
Definition frame_of_records {A} (cols : list string)
    (cells : A -> list cell) (records : list A) : DataFrame :=
  match records with
  | [] => {| columns := []; rows := [] |}
  | _ => {| columns := cols; rows := map cells records |}
  end.

Definition departments_frame (departments : list Department.t) : DataFrame :=
  frame_of_records
    ["department_id"; "department_name"; "department_type"; "headcount_weight"]
    (fun d => [ CInt (Department.department_id d);
                CStr (Department.department_name d);
                CStr (Department.department_type d);
                CFloat (of_Q (Department.headcount_weight d)) ])
    departments.

Definition job_positions_frame (job_positions : list JobPosition.t)
  : DataFrame :=
  frame_of_records
    ["job_position_id"; "department_id"; "position_name"; "seniority_level"]
    (fun p => [ CInt (JobPosition.job_position_id p);
                CInt (JobPosition.department_id p);
                CStr (JobPosition.position_name p);
                CStr (JobPosition.seniority_level p) ])
    job_positions.

Definition employees_frame (employees : list Employee.t) : DataFrame :=
  frame_of_records
    ["employee_id"; "first_name"; "last_name"; "department_id";
     "job_position_id"; "seniority_level"; "birth_date"; "hire_date";
     "age"; "tenure_years"; "salary"]
    (fun e => [ CInt (Employee.employee_id e);
                CStr (Employee.first_name e);
                CStr (Employee.last_name e);
                CInt (Employee.department_id e);
                CInt (Employee.job_position_id e);
                CStr (Employee.seniority_level e);
                CDate (Employee.birth_date e);
                CDate (Employee.hire_date e);
                CInt (Employee.age e);
                CInt (Employee.tenure_years e);
                CFloat (Employee.salary e) ])
    employees.

(** The rows of the right frame that a left row with key [k] joins. *)
Definition partners (ir : nat) (k : cell) (right_rows : list (list cell))
  : list (list cell) :=
  filter (fun r => cell_at ir r = k) right_rows.

(** The rows a left join produces for one left row: one per partner, or
    one padded with missing values when there is none. *)
Definition join_row (wl wr il ir : nat) (right_rows : list (list cell))
    (l : list cell) : list (list cell) :=
  let l := resize wl CNull l in
  match partners ir (cell_at il l) right_rows with
  | [] => [l ++ replicate (wr - 1) CNull]
  | ps => map (fun r => l ++ delete ir (resize wr CNull r)) ps
  end.

(** [left.merge(right, how="left", on=on, suffixes=("", rsuffix))]: the
    key column is kept once, a right column whose label the left frame
    also has gets [rsuffix]. *)
Definition merge_left (left right : DataFrame) (on rsuffix : string)
  : result DataFrame :=
  match index_of on (columns left), index_of on (columns right) with
  | Some il, Some ir =>
      let rename c :=
        if bool_decide (c ∈ columns left) then c +:+ rsuffix else c in
      Ok {| columns := columns left ++ map rename (delete ir (columns right));
            rows := concat (map (join_row (length (columns left))
                                          (length (columns right))
                                          il ir (rows right))
                                (rows left)) |}
  | _, _ => Raise (KeyError on)
  end.

(** [if col in df.columns: df[col] = f(df[col])], [f] acting cell-wise *)
Definition update_column (col : string) (f : cell -> result cell)
    (df : DataFrame) : result DataFrame :=
  match index_of col (columns df) with
  | None => Ok df
  | Some i =>
      rows' ← mapM (fun r => v ← f (cell_at i r);
                             Ok (<[i := v]> (resize (length (columns df)) CNull r)))
                   (rows df);
      Ok {| columns := columns df; rows := rows' |}
  end.

Context `{!Parsing}.

(** [Series.astype(int)] on one value *)
Definition astype_int (c : cell) : result cell :=
  match c with
  | CInt z => Ok (CInt z)
  | CFloat x =>
      match to_int x with Some z => Ok (CInt z) | None => Raise ValueError end
  | CStr s =>
      match int_of_str s with Some z => Ok (CInt z) | None => Raise ValueError end
  | CDate _ => Raise TypeError
  | CNull => Raise ValueError
  end.

(** [Series.astype(float).round(2)] on one value *)
Definition astype_float_round2 (c : cell) : result cell :=
  match c with
  | CInt z => Ok (CFloat (np_round2 (of_Q (inject_Z z))))
  | CFloat x => Ok (CFloat (np_round2 x))
  | CStr s =>
      match float_of_str s with
      | Some x => Ok (CFloat (np_round2 x))
      | None => Raise ValueError
      end
  | CDate _ => Raise TypeError
  | CNull => Ok (CFloat (np_round2 nan))
  end.

(** ** org_api.py: the view builder

    The three frames are the ones [_load_parquet_from_datalake] returns;
    reading them from storage is outside the embedding. *)
Definition _build_org_view (departments_df job_positions_df employees_df : DataFrame)
  : result DataFrame :=
  employees_positions ← merge_left employees_df job_positions_df
                                   "job_position_id" "_job";
  org_view ← merge_left employees_positions departments_df
                        "department_id" "_dept";
  org_view ← update_column "employee_id" astype_int org_view;
  org_view ← update_column "department_id" astype_int org_view;
  org_view ← update_column "job_position_id" astype_int org_view;
  org_view ← update_column "salary" astype_float_round2 org_view;
  update_column "tenure_years" astype_float_round2 org_view.

End Frames.

(** What the code relies on from [sort_values] with the default
    [kind="quicksort"], and from the ordering [groupby] gives the group
    labels (a label is the tuple of its key cells): the result is a
    rearrangement of the argument, and [sort_values] leaves it ordered
    by the key.  How equal keys are arranged is not part of it. *)
Class Sorting `{Float64} : Type := {
  sort_by : forall {A : Type}, (A -> Z) -> list A -> list A;
  sort_by_perm : forall A (key : A -> Z) (l : list A),
      Permutation (sort_by key l) l;
  sort_by_sorted : forall A (key : A -> Z) (l : list A),
      StronglySorted (fun a b => key a <= key b) (sort_by key l);
  sort_labels : forall {K : Type}, (K -> list cell) -> list K -> list K;
  sort_labels_perm : forall K (label : K -> list cell) (l : list K),
      Permutation (sort_labels label l) l;
}.

(** What pydantic does with a constructor argument declared
    [Optional[str]]: [None] and text are accepted as they are.  Whether
    another value (a number, a date, the NaN of an unmatched join) is
    refused with a [ValidationError] or turned into text depends on the
    pydantic version installed, which the repository does not fix; no
    other exception is raised. *)
Class Validation `{Float64} : Type := {
  optional_str : option cell -> result (option string);
  optional_str_None : optional_str None = Ok None;
  optional_str_text : forall s : string,
      optional_str (Some (CStr s)) = Ok (Some s);
  optional_str_error : forall (v : option cell) (e : exn),
      optional_str v = Raise e -> e = ValidationError;
}.

(** ** org_api.py: response models

    An [EmployeeItem] is built by [new_EmployeeItem] and a
    [DepartmentSummary] by [new_DepartmentSummary], which validate the
    optional text fields; their other arguments are Python integers and
    floats (or [None] for the age) by the time the constructor is
    called.  The label of a salary level is the group key it is built
    from. *)

Module EmployeeItem.
Record t `{Float64} : Type := mk {
  employee_id : Z;
  department_id : Z;
  department_name : option string;
  job_position_id : Z;
  job_title : option string;
  job_level : option string;
  salary : float;
  tenure_years : float;
  age : option Z;
}.
Arguments mk {_} _ _ _ _ _ _ _ _ _.
End EmployeeItem.

Module DepartmentSummary.
Record t : Type := mk {
  department_id : Z;
  department_name : option string;
  headcount : Z;
}.
End DepartmentSummary.

Module SalaryLevelSummary.
Record t `{Float64} : Type := mk {
  job_level : cell;
  avg_salary : float;
  min_salary : float;
  max_salary : float;
  count : Z;
}.
Arguments mk {_} _ _ _ _ _.
End SalaryLevelSummary.

Module SalarySummaryResponse.
Record t `{Float64} : Type := mk {
  overall_avg_salary : float;
  overall_min_salary : float;
  overall_max_salary : float;
  levels : list SalaryLevelSummary.t;
}.
Arguments mk {_} _ _ _ _.
End SalarySummaryResponse.

(** ** org_api.py: the endpoints, as functions of the view [ORG_VIEW] *)

Section Api.
Context `{Float64} `{!Parsing} `{!Sorting} `{!Validation}.

(** [int(v)] and [float(v)] on a value read from a row *)
Definition py_int (c : cell) : result Z :=
  match c with
  | CInt z => Ok z
  | CFloat x => match to_int x with Some z => Ok z | None => Raise ValueError end
  | CStr s => match int_of_str s with Some z => Ok z | None => Raise ValueError end
  | CDate _ => Raise TypeError
  | CNull => Raise TypeError
  end.

Definition py_float (c : cell) : result float :=
  match c with
  | CInt z => Ok (of_Q (inject_Z z))
  | CFloat x => Ok x
  | CStr s => match float_of_str s with Some x => Ok x | None => Raise ValueError end
  | CDate _ => Raise TypeError
  | CNull => Raise TypeError
  end.

(** The value a cell contributes to a numeric reduction of its column:
    a missing value counts as nan, text is refused. *)
Definition to_float64 (c : cell) : result float :=
  match c with
  | CInt z => Ok (of_Q (inject_Z z))
  | CFloat x => Ok x
  | CNull => Ok nan
  | CStr _ | CDate _ => Raise TypeError
  end.

(** [pd.isna(v)] *)
Definition isna (c : cell) : bool :=
  match c with
  | CNull => true
  | CFloat x => isnan x
  | _ => false
  end.

(** [series == n] and [series == s], element-wise *)
Definition eq_int (n : Z) (c : cell) : bool :=
  match c with
  | CInt z => bool_decide (z = n)
  | CFloat x => feqb_Z x n
  | _ => false
  end.

Definition eq_str (s : string) (c : cell) : bool :=
  match c with
  | CStr s' => bool_decide (s' = s)
  | _ => false
  end.

(** [if v is not None and col in df.columns: df = df[df[col] == v]] *)
Definition filter_if_present {V} (col : string) (v : option V)
    (test : V -> cell -> bool) (df : DataFrame) : DataFrame :=
  match v, index_of col (columns df) with
  | Some v, Some i =>
      {| columns := columns df;
         rows := List.filter (fun r => test v (cell_at i r)) (rows df) |}
  | _, _ => df
  end.

(** [df.sort_values(col)] on a column of integers, the dtype the view
    builder gives [employee_id]; other dtypes are not modelled and are
    reported as [TypeError]. *)
Definition sort_values (col : string) (df : DataFrame) : result DataFrame :=
  match index_of col (columns df) with
  | None => Raise (KeyError col)
  | Some i =>
      keyed ← mapM (fun r => match cell_at i r with
                             | CInt z => Ok (z, r)
                             | _ => Raise TypeError
                             end) (rows df);
      Ok {| columns := columns df; rows := map snd (sort_by fst keyed) |}
  end.

(** [df.iloc[offset : offset + limit]] *)
Definition iloc (offset limit : nat) (df : DataFrame) : DataFrame :=
  {| columns := columns df; rows := take limit (drop offset (rows df)) |}.

(** [EmployeeItem(employee_id=..., ...)]: the constructor call, with the
    validation of the fields declared [Optional[str]]. *)
Definition new_EmployeeItem (employee_id department_id : Z)
    (department_name : option cell) (job_position_id : Z)
    (job_title job_level : option cell) (salary tenure_years : float)
    (age : option Z) : result EmployeeItem.t :=
  department_name ← optional_str department_name;
  job_title ← optional_str job_title;
  job_level ← optional_str job_level;
  Ok (EmployeeItem.mk employee_id department_id department_name
        job_position_id job_title job_level salary tenure_years age).

(** The [EmployeeItem] built from one row: the arguments are evaluated
    in the order they are written, then the constructor is called. *)
Definition employee_item (cols : list string) (row : list cell)
  : result EmployeeItem.t :=
  employee_id ← row_getitem cols row "employee_id" ≫= py_int;
  department_id ← row_getitem cols row "department_id" ≫= py_int;
  let department_name := row_get cols row "department_name" in
  job_position_id ← row_getitem cols row "job_position_id" ≫= py_int;
  let job_title := row_get cols row "job_title" in
  let job_level := row_get cols row "job_level" in
  salary ← match row_get cols row "salary" with
           | Some v => py_round2 <$> py_float v
           | None => Ok (of_Q 0)
           end;
  tenure_years ← match row_get cols row "tenure_years" with
                 | Some v => py_round2 <$> py_float v
                 | None => Ok (of_Q 0)
                 end;
  age ← match row_get cols row "age" with
        | Some v => if isna v then Ok None else Some <$> py_int v
        | None => Ok None
        end;
  new_EmployeeItem employee_id department_id department_name
    job_position_id job_title job_level salary tenure_years age.

(** [DepartmentSummary(department_id=..., department_name=..., headcount=...)] *)
Definition new_DepartmentSummary (department_id : Z)
    (department_name : option cell) (headcount : Z)
  : result DepartmentSummary.t :=
  department_name ← optional_str department_name;
  Ok (DepartmentSummary.mk department_id department_name headcount).

Definition list_employees (ORG_VIEW : DataFrame)
    (department_id : option Z) (job_level : option string)
    (limit offset : nat) : result (list EmployeeItem.t) :=
  let df := ORG_VIEW in
  let df := filter_if_present "department_id" department_id eq_int df in
  let df := filter_if_present "job_level" job_level eq_str df in
  df ← sort_values "employee_id" df;
  let df := iloc offset limit df in
  mapM (employee_item (columns df)) (rows df).

Definition get_employee (ORG_VIEW : DataFrame) (employee_id : Z)
  : result EmployeeItem.t :=
  let df := ORG_VIEW in
  match index_of "employee_id" (columns df) with
  | None => Raise (HTTPException 500)
  | Some i =>
      let row := List.filter (fun r => eq_int employee_id (cell_at i r))
                             (rows df) in
      match row with
      | [] => Raise (HTTPException 404)
      | r :: _ => employee_item (columns df) r
      end
  end.

(** [df.groupby(keys)]: the labels of the groups, rows with a missing
    key left out, and the rows of every group. *)
Definition groupby {K} `{EqDecision K} (label : K -> list cell)
    (key : list cell -> option K) (rws : list (list cell))
  : list (K * list (list cell)) :=
  let labels := sort_labels label (remove_dups (omap key rws)) in
  map (fun k => (k, filter (fun r => key r = Some k) rws)) labels.

(** [sort_values(by, ascending=False)] as pandas computes it: reverse,
    sort ascending, reverse. *)
Definition sort_descending {A} (key : A -> Z) (l : list A) : list A :=
  reverse (sort_by key (reverse l)).

Definition list_departments (ORG_VIEW : DataFrame)
  : result (list DepartmentSummary.t) :=
  let df := ORG_VIEW in
  match index_of "department_id" (columns df),
        index_of "department_name" (columns df) with
  | Some i, Some j =>
      let key r :=
        let a := cell_at i r in
        let b := cell_at j r in
        if isna a || isna b then None else Some (a, b) in
      let headcount :=
        map (fun g => (g.1, Z.of_nat (length g.2))) (groupby (fun k => [k.1; k.2]) key (rows df)) in
      let headcount := sort_descending snd headcount in
      mapM (fun '((a, b), n) =>
              department_id ← py_int a;
              new_DepartmentSummary department_id (Some b) n)
           headcount
  | _, _ => Raise (HTTPException 500)
  end.

Definition salary_summary (ORG_VIEW : DataFrame)
  : result SalarySummaryResponse.t :=
  let df := ORG_VIEW in
  match index_of "salary" (columns df) with
  | None => Raise (HTTPException 500)
  | Some isal =>
      let key : list cell -> option cell :=
        match index_of "job_level" (columns df) with
        | Some ilvl =>
            fun r => let v := cell_at ilvl r in
                     if isna v then None else Some v
        | None => fun _ => Some (CStr "N/A")
        end in
      levels ←
        mapM (fun '(k, g) =>
                xs ← mapM (fun r => to_float64 (cell_at isal r)) g;
                Ok (SalaryLevelSummary.mk k
                      (np_round2 (fmean xs)) (np_round2 (fmin xs))
                      (np_round2 (fmax xs)) (Z.of_nat (length g))))
             (groupby (fun k => [k]) key (rows df));
      xs ← mapM (fun r => to_float64 (cell_at isal r)) (rows df);
      Ok (SalarySummaryResponse.mk
            (py_round2 (fmean xs)) (py_round2 (fmin xs)) (py_round2 (fmax xs))
            levels)
  end.

End Api.

(** ** An executable instance

    Exact rational arithmetic in place of binary64 ([None] is nan, [exp]
    is replaced by a positive rational stand-in), decimal integer
    literals for the string conversions, a stable insertion sort and the
    strict validation of optional texts.  It
    serves to run the definitions on concrete inputs; every general
    statement holds for all instances. *)

#[global] Instance Q_eq_dec : EqDecision Q.
Proof. solve_decision. Defined.

Definition Q_round2 (q : Q) : Q := Qred (np_round (q * 100) # 100).

Definition Q_present (xs : list (option Q)) : list Q := omap id xs.

Definition Q_reduce (f : Q -> Q -> Q) (xs : list Q) : option Q :=
  match xs with
  | [] => None
  | x :: xs' => Some (Qred (foldl f x xs'))
  end.

#[global] Instance exact_float : Float64 := {|
  float := option Q;
  of_Q q := Some (Qred q);
  nan := None;
  fmul x y := q1 ← x; q2 ← y; Some (Qred (q1 * q2));
  fexp q := Some (Qred (1 + q * q));
  to_int x := q ← x; Some (Z.quot (Qnum q) (Zpos (Qden q)));
  feqb_Z x n := match x with Some q => Qeq_bool q (inject_Z n) | None => false end;
  isnan x := match x with Some _ => false | None => true end;
  np_round2 x := Q_round2 <$> x;
  py_round2 x := Q_round2 <$> x;
  fmean xs :=
    match Q_present xs with
    | [] => None
    | qs => Some (Qred (foldr Qplus 0%Q qs / inject_Z (Z.of_nat (length qs))))
    end;
  fmin xs := Q_reduce Qmin (Q_present xs);
  fmax xs := Q_reduce Qmax (Q_present xs);
|}.

Definition digit_of (a : Ascii.ascii) : option Z :=
  let n := nat_of_ascii a in
  if bool_decide (48 <= n <= 57)%nat then Some (Z.of_nat n - 48) else None.

Fixpoint digits_value (acc : Z) (s : string) : option Z :=
  match s with
  | EmptyString => Some acc
  | String a s' => d ← digit_of a; digits_value (10 * acc + d) s'
  end.

Definition decimal_of_str (s : string) : option Z :=
  match s with
  | EmptyString => None
  | String "-" (String a s') => Z.opp <$> digits_value 0 (String a s')
  | String "+" (String a s') => digits_value 0 (String a s')
  | _ => digits_value 0 s
  end.

#[global] Instance decimal_parsing : Parsing := {|
  int_of_str := decimal_of_str;
  float_of_str s := (fun z => Some (inject_Z z)) <$> decimal_of_str s;
|}.

(** The validation as pydantic 2 runs it: a value that is neither [None]
    nor text is refused. *)
Definition strict_optional_str (v : option (@cell exact_float))
  : result (option string) :=
  match v with
  | None => Ok None
  | Some (CStr s) => Ok (Some s)
  | Some _ => Raise ValidationError
  end.

Lemma strict_optional_str_error (v : option (@cell exact_float)) (e : exn) :
  strict_optional_str v = Raise e -> e = ValidationError.
Proof. destruct v as [[z|x|s|d|]|]; cbn; congruence. Qed.

#[global] Instance strict_validation : @Validation exact_float := {|
  optional_str := strict_optional_str;
  optional_str_None := eq_refl;
  optional_str_text := fun s => eq_refl;
  optional_str_error := strict_optional_str_error;
|}.

Fixpoint insert_sorted {A} (le : A -> A -> bool) (x : A) (l : list A)
  : list A :=
  match l with
  | [] => [x]
  | y :: l' => if le x y then x :: l else y :: insert_sorted le x l'
  end.

Definition insertion_sort {A} (le : A -> A -> bool) (l : list A) : list A :=
  foldr (insert_sorted le) [] l.

Lemma insert_sorted_perm {A} (le : A -> A -> bool) (x : A) (l : list A) :
  Permutation (insert_sorted le x l) (x :: l).
Proof.
  induction l as [|y l IH]; cbn; [reflexivity|].
  destruct (le x y); [reflexivity|].
  rewrite IH. apply perm_swap.
Qed.

Lemma insertion_sort_perm {A} (le : A -> A -> bool) (l : list A) :
  Permutation (insertion_sort le l) l.
Proof.
  induction l as [|x l IH]; cbn; [reflexivity|].
  rewrite insert_sorted_perm. by constructor.
Qed.

Lemma insert_sorted_sorted {A} (key : A -> Z) (x : A) (l : list A) :
  StronglySorted (fun a b => key a <= key b) l ->
  StronglySorted (fun a b => key a <= key b)
    (insert_sorted (fun a b => key a <=? key b) x l).
Proof.
  induction 1 as [|y l Hsorted IH Hall]; cbn.
  - repeat constructor.
  - destruct (Z.leb_spec (key x) (key y)) as [Hle|Hgt].
    + constructor; [by constructor|].
      constructor; [exact Hle|].
      eapply Forall_impl; [exact Hall|]. cbn. intros; lia.
    + constructor; [exact IH|].
      eapply Permutation_Forall; [symmetry; apply insert_sorted_perm|].
      constructor; [lia | exact Hall].
Qed.

Lemma insertion_sort_sorted {A} (key : A -> Z) (l : list A) :
  StronglySorted (fun a b => key a <= key b)
    (insertion_sort (fun a b => key a <=? key b) l).
Proof.
  induction l as [|x l IH]; cbn; [constructor|].
  by apply insert_sorted_sorted.
Qed.

(** The order of group labels: integers and dates by value, text by code
    point, other combinations by kind. *)
Definition cell_rank (c : @cell exact_float) : Z :=
  match c with
  | CInt _ => 0 | CFloat _ => 1 | CStr _ => 2 | CDate _ => 3 | CNull => 4
  end.

Definition cell_leb (a b : @cell exact_float) : bool :=
  match a, b with
  | CInt x, CInt y => x <=? y
  | CDate x, CDate y => x <=? y
  | CStr s, CStr t => String.leb s t
  | CFloat (Some p), CFloat (Some q) => Qle_bool p q
  | _, _ => cell_rank a <=? cell_rank b
  end.

Fixpoint label_leb (a b : list (@cell exact_float)) : bool :=
  match a, b with
  | [], _ => true
  | _ :: _, [] => false
  | x :: a', y :: b' =>
      if bool_decide (x = y) then label_leb a' b' else cell_leb x y
  end.

#[global] Instance insertion_sorting : @Sorting exact_float := {|
  sort_by A key l := insertion_sort (fun a b => key a <=? key b) l;
  sort_by_perm A key l := insertion_sort_perm _ l;
  sort_by_sorted A key l := insertion_sort_sorted key l;
  sort_labels K label l :=
    insertion_sort (fun a b => label_leb (label a) (label b)) l;
  sort_labels_perm K label l := insertion_sort_perm _ l;
|}.

(** ** Definitions the statements refer to *)

(** The specification's cross product: for every department in turn, one
    position per seniority level in turn, numbered from [k]. *)
Fixpoint cross_product_from (k : Z) (departments : list Department.t)
  : list JobPosition.t :=
  match departments with
  | [] => []
  | d :: departments' =>
      imap (fun j level =>
              JobPosition.mk (k + Z.of_nat j) (Department.department_id d)
                (Department.department_name d +:+ " " +:+ level) level)
           seniority_levels
      ++ cross_product_from (k + 5) departments'
  end.


(** What one turn of the loop of [generate_dates_from_age_and_tenure]
    yields for the employee at index [i]. *)
Definition dates_of_employee (today : Z) (ages tenure_years : list Z)
    (i : nat) (b h : date) : Prop :=
  exists age tenure bd hd b0 h0,
    ages !! i = Some age
    /\ tenure_years !! i = Some tenure
    /\ 1 <= bd < 365 /\ 1 <= hd < 365
    /\ date_jan1 (today - age) = Ok b0
    /\ date_jan1 (today - tenure) = Ok h0
    /\ b = b0 + bd
    /\ h = (if bool_decide (h0 + hd < b + 18 * 365) then b + 18 * 365
            else h0 + hd).

(** A date that exists in the calendar. *)
Definition valid_date (d : Date.t) : Prop :=
  MINYEAR <= Date.year d <= MAXYEAR
  /\ 1 <= Date.month d <= 12
  /\ 1 <= Date.day d <= _days_in_month (Date.year d) (Date.month d).

(** A state of [np.random] whose next variates make the calls of
    [randint(1, 365)] deliver the given days, two for every employee. *)
Definition days_stream (days : list (Z * Z)) : Generator :=
  {| variate := fun k =>
       inject_Z (nth k (concat (map (fun d => [d.1 - 1; d.2 - 1]) days)) 0) |}.

(** ** Sample inputs on which the definitions are run *)

Definition is_ok {A} (r : result A) : bool :=
  match r with Ok _ => true | Raise _ => false end.

Definition sample_stream : Generator :=
  {| variate := fun k => (inject_Z ((7 * Z.of_nat k) mod 11 - 5) / 2)%Q |}.

Definition sample_world : World :=
  {| rng := sample_stream; np_random := sample_stream; today_year := 2026 |}.

(** One department with a single junior position: every other sampled
    level has no exact position and takes the fallback. *)
Definition sample_departments : list Department.t :=
  [Department.mk 1 "Ops" "Core" (4 # 1)].

Definition sample_positions : list JobPosition.t :=
  [JobPosition.mk 7 1 "Ops Junior" "Junior"].

Definition sample_run
  : result (list (@Employee.t exact_float) * World) :=
  generate_employees sample_departments sample_positions 3 sample_world.

Definition sample_employees : list (@Employee.t exact_float) :=
  match sample_run with Ok (es, _) => es | Raise _ => [] end.

Definition sample_world_after : World :=
  match sample_run with Ok (_, w) => w | Raise _ => sample_world end.

Definition sample_dates_run : result ((list date * list date) * World) :=
  generate_dates_from_age_and_tenure [30; 22] [5; 10] sample_world.

Definition sample_dates : list date * list date :=
  match sample_dates_run with Ok (ds, _) => ds | Raise _ => ([], []) end.

Definition sample_dates_world : World :=
  match sample_dates_run with Ok (_, w) => w | Raise _ => sample_world end.

(** ** Columns of a frame *)

Section Columns.
Context `{Float64}.

(** The values of a column, row by row; empty when the frame has no
    such column. *)
Definition column_values (col : string) (df : DataFrame) : list cell :=
  match index_of col (columns df) with
  | Some i => map (cell_at i) (rows df)
  | None => []
  end.

(** The column is a key: no value occurs in two rows. *)
Definition unique_key (col : string) (df : DataFrame) : Prop :=
  NoDup (column_values col df).

End Columns.

Definition sample_view_run : result (@DataFrame exact_float) :=
  _build_org_view (departments_frame sample_departments)
    (job_positions_frame sample_positions)
    (employees_frame sample_employees).

Definition sample_view : @DataFrame exact_float :=
  match sample_view_run with
  | Ok v => v
  | Raise _ => {| columns := []; rows := [] |}
  end.

(** A view built from an employee table without [employee_id], and one
    built from a table whose second employee has a text where the age
    belongs and whose third has no age. *)
Definition keyless_view_run : result (@DataFrame exact_float) :=
  _build_org_view (departments_frame sample_departments)
    (job_positions_frame sample_positions)
    {| columns := ["job_position_id"; "department_id"];
       rows := [[CInt 7; CInt 1]] |}.

Definition odd_ages_view_run : result (@DataFrame exact_float) :=
  _build_org_view (departments_frame sample_departments)
    (job_positions_frame sample_positions)
    {| columns := ["employee_id"; "job_position_id"; "department_id"; "age"];
       rows := [[CInt 1; CInt 7; CInt 1; CInt 40];
                [CInt 2; CInt 7; CInt 1; CStr "n/a"];
                [CInt 3; CInt 7; CInt 1; CNull]] |}.

Definition error_of {A} (r : result A) : option exn :=
  match r with Ok _ => None | Raise e => Some e end.

(** ** The rows of a built view and the rows an employee listing keeps *)

Section Typed.
Context `{Float64} `{!Parsing} `{!Validation}.

Definition is_int (c : cell) : bool :=
  match c with CInt _ => true | _ => false end.

Definition is_float (c : cell) : bool :=
  match c with CFloat _ => true | _ => false end.

Definition int_of_cell (c : cell) : Z :=
  match c with CInt z => z | _ => 0 end.

Definition float_of_cell (c : cell) : float :=
  match c with
  | CFloat x => x
  | CInt z => of_Q (inject_Z z)
  | _ => nan
  end.

(** A predicate holds of an optional column when the column is absent. *)
Definition if_present (P : cell -> bool) (o : option cell) : bool :=
  match o with Some v => P v | None => true end.

(** A row as the casts of [_build_org_view] leave it in a view with an
    [employee_id] column: the three ids are integers, salary and tenure
    are floats where the view has them. *)
Definition typed_row (cols : list string) (r : list cell) : bool :=
  is_int (default CNull (row_get cols r "employee_id"))
  && is_int (default CNull (row_get cols r "department_id"))
  && is_int (default CNull (row_get cols r "job_position_id"))
  && if_present is_float (row_get cols r "salary")
  && if_present is_float (row_get cols r "tenure_years").

(** What is left to go wrong when [employee_item] builds the record of
    such a row: the age, when there is one, must convert to an integer,
    and the three optional texts must pass the validation. *)
Definition record_ok (cols : list string) (r : list cell) : bool :=
  match row_get cols r "age" with
  | Some v => isna v || is_ok (py_int v)
  | None => true
  end
  && is_ok (optional_str (row_get cols r "department_name"))
  && is_ok (optional_str (row_get cols r "job_title"))
  && is_ok (optional_str (row_get cols r "job_level")).

Definition employee_id_of (cols : list string) (r : list cell) : Z :=
  int_of_cell (default CNull (row_get cols r "employee_id")).

(** The rows [list_employees] keeps: a filter applies when it is
    requested and the view has its column. *)
Definition survives (cols : list string) (department_id : option Z)
    (job_level : option string) (r : list cell) : bool :=
  match department_id, index_of "department_id" cols with
  | Some n, Some i => eq_int n (cell_at i r)
  | _, _ => true
  end
  && match job_level, index_of "job_level" cols with
     | Some l, Some i => eq_str l (cell_at i r)
     | _, _ => true
     end.

(** The group a row belongs to in [list_departments]: its department id
    and name, no group when either is missing or the view lacks one of
    the two columns. *)
Definition department_of (cols : list string) (r : list cell)
  : option (cell * cell) :=
  match index_of "department_id" cols, index_of "department_name" cols with
  | Some i, Some j =>
      if isna (cell_at i r) || isna (cell_at j r) then None
      else Some (cell_at i r, cell_at j r)
  | _, _ => None
  end.

Definition sumZ (l : list Z) : Z := foldr Z.add 0 l.

(** The group a row belongs to in [salary_summary]: its [job_level], no
    group when that is missing, and "N/A" for every row when the view
    has no such column. *)
Definition job_level_of (cols : list string) (r : list cell) : option cell :=
  match index_of "job_level" cols with
  | Some i => if isna (cell_at i r) then None else Some (cell_at i r)
  | None => Some (CStr "N/A")
  end.

Definition salaries_of (cols : list string) (rws : list (list cell))
  : list float :=
  map (fun r => float_of_cell (default CNull (row_get cols r "salary"))) rws.

(** The columns of the view built from the three generated tables. *)
Definition view_columns : list string :=
  ["employee_id"; "first_name"; "last_name"; "department_id";
   "job_position_id"; "seniority_level"; "birth_date"; "hire_date";
   "age"; "tenure_years"; "salary";
   "department_id_job"; "position_name"; "seniority_level_job";
   "department_name"; "department_type"; "headcount_weight"].

(** The cells an employee row keeps at its own positions through the
    joins and casts: integer ids and age, numeric tenure, float salary. *)
Definition employee_cells (r : list cell) : bool :=
  is_int (cell_at 0 r) && is_int (cell_at 3 r) && is_int (cell_at 4 r)
  && is_int (cell_at 8 r)
  && (is_int (cell_at 9 r) || is_float (cell_at 9 r))
  && is_float (cell_at 10 r).

(** The summary [salary_summary] reports for the group labelled [k]. *)
Definition level_summary (cols : list string) (rws : list (list cell))
    (k : cell) : SalaryLevelSummary.t :=
  let g := filter (fun r => job_level_of cols r = Some k) rws in
  SalaryLevelSummary.mk k
    (np_round2 (fmean (salaries_of cols g)))
    (np_round2 (fmin (salaries_of cols g)))
    (np_round2 (fmax (salaries_of cols g)))
    (Z.of_nat (length g)).

End Typed.

(** A view without a [job_level] column. *)
Definition plain_view : @DataFrame exact_float :=
  {| columns := ["employee_id"; "department_id"; "job_position_id"];
     rows := [[CInt 2; CInt 10; CInt 5]; [CInt 1; CInt 20; CInt 6]] |}.

(** A run of the three factories as [main] chains them. *)
Definition factory_run
  : result (list (@Employee.t exact_float) * World) :=
  generate_employees generate_departments
    (generate_job_positions generate_departments) 2 sample_world.

Definition factory_employees : list (@Employee.t exact_float) :=
  match factory_run with Ok (es, _) => es | Raise _ => [] end.

Definition factory_world_after : World :=
  match factory_run with Ok (_, w) => w | Raise _ => sample_world end.

(** * Properties *)

(** ** C7: the job positions are the cross product of departments and levels *)

Lemma append_department_spec (acc : list JobPosition.t) (k : Z)
    (d : Department.t) :
  append_department (acc, k) d =
    (acc ++ imap (fun j level =>
                    JobPosition.mk (k + Z.of_nat j) (Department.department_id d)
                      (Department.department_name d +:+ " " +:+ level) level)
                 seniority_levels,
     k + 5).
Proof.
  unfold append_department, seniority_levels. cbn.
  rewrite <- !app_assoc. cbn. rewrite Z.add_0_r, <- !Z.add_assoc.
  reflexivity.
Qed.

Lemma generate_job_positions_loop (ds : list Department.t)
    (acc : list JobPosition.t) (k : Z) :
  foldl append_department (acc, k) ds
  = (acc ++ cross_product_from k ds, k + 5 * Z.of_nat (length ds)).
Proof.
  revert acc k. induction ds as [|d ds IH]; intros acc k.
  - cbn. rewrite app_nil_r. f_equal. lia.
  - cbn [foldl]. rewrite append_department_spec, IH.
    cbn [cross_product_from length]. rewrite <- app_assoc.
    f_equal. lia.
Qed.

Lemma generate_job_positions_cross_product (ds : list Department.t) :
  generate_job_positions ds = cross_product_from 1 ds.
Proof.
  unfold generate_job_positions. rewrite generate_job_positions_loop.
  reflexivity.
Qed.

Lemma cross_product_from_length (k : Z) (ds : list Department.t) :
  length (cross_product_from k ds) = (5 * length ds)%nat.
Proof.
  revert k. induction ds as [|d ds IH]; intros k; [reflexivity|].
  cbn [cross_product_from]. rewrite length_app, IH. cbn. lia.
Qed.

Lemma cross_product_from_lookup (k : Z) (ds : list Department.t)
    (i j : nat) (d : Department.t) (level : string) :
  ds !! i = Some d ->
  seniority_levels !! j = Some level ->
  cross_product_from k ds !! (5 * i + j)%nat =
    Some (JobPosition.mk (k + Z.of_nat (5 * i + j))
            (Department.department_id d)
            (Department.department_name d +:+ " " +:+ level) level).
Proof.
  revert k i. induction ds as [|d0 ds IH]; intros k i Hi Hj; [done|].
  assert (Hlt : (j < 5)%nat) by (apply lookup_lt_Some in Hj; exact Hj).
  cbn [cross_product_from]. destruct i as [|i].
  - injection Hi as ->. rewrite lookup_app_l by (cbn; lia).
    replace (5 * 0 + j)%nat with j by lia.
    rewrite list_lookup_imap, Hj. reflexivity.
  - cbn in Hi. rewrite lookup_app_r by (cbn; lia).
    replace (5 * S i + j - length (imap
      (fun j level => JobPosition.mk (k + Z.of_nat j) (Department.department_id d0)
         (Department.department_name d0 +:+ " " +:+ level) level) seniority_levels))%nat
      with (5 * i + j)%nat by (cbn; lia).
    rewrite (IH (k + 5) i Hi Hj). do 2 f_equal. lia.
Qed.

(** C7. [generate_job_positions] returns the cross product of the
    departments with the five seniority levels, departments first and
    levels second, numbered consecutively from 1, each position named
    after its department and level; a single department "Ops" with id 1
    gives the five positions "Ops Junior" to "Ops Manager". *)
Theorem generate_job_positions_spec :
  (forall departments : list Department.t,
     generate_job_positions departments = cross_product_from 1 departments
     /\ length (generate_job_positions departments)
        = (length departments * length seniority_levels)%nat
     /\ forall (i j : nat) (d : Department.t) (level : string),
          departments !! i = Some d ->
          seniority_levels !! j = Some level ->
          generate_job_positions departments !! (5 * i + j)%nat =
            Some (JobPosition.mk (Z.of_nat (5 * i + j) + 1)
                    (Department.department_id d)
                    (Department.department_name d +:+ " " +:+ level) level))
  /\ generate_job_positions [Department.mk 1 "Ops" "Core" (4 # 1)] =
       [ JobPosition.mk 1 1 "Ops Junior" "Junior";
         JobPosition.mk 2 1 "Ops SemiSenior" "SemiSenior";
         JobPosition.mk 3 1 "Ops Senior" "Senior";
         JobPosition.mk 4 1 "Ops Lead" "Lead";
         JobPosition.mk 5 1 "Ops Manager" "Manager" ].
Proof.
  split; [|reflexivity].
  intros ds. rewrite generate_job_positions_cross_product.
  split; [reflexivity|]. split.
  - rewrite cross_product_from_length. cbn. lia.
  - intros i j d level Hi Hj.
    rewrite (cross_product_from_lookup 1 ds i j d level Hi Hj).
    do 2 f_equal. lia.
Qed.

(** ** Reasoning about results and the generator monad *)

Lemma bind_result_Ok {A B} (m : result A) (f : A -> result B) (b : B) :
  m ≫= f = Ok b <-> exists a, m = Ok a /\ f a = Ok b.
Proof.
  destruct m as [a|e]; cbn; split.
  - intros Hf. exists a. auto.
  - intros (a' & Ha & Hf). injection Ha as ->. exact Hf.
  - discriminate.
  - intros (a' & Ha & _). discriminate.
Qed.

Lemma fmap_result_Ok {A B} (m : result A) (f : A -> B) (b : B) :
  f <$> m = Ok b <-> exists a, m = Ok a /\ b = f a.
Proof.
  destruct m as [a|e]; cbn; split.
  - intros [= <-]. eauto.
  - intros (a' & [= ->] & ->). reflexivity.
  - discriminate.
  - intros (a' & Ha & _). discriminate.
Qed.

Lemma bind_M_Ok {A B} (m : M A) (f : A -> M B) (w w' : World) (b : B) :
  (m ≫= f) w = Ok (b, w') <->
  exists a w1, m w = Ok (a, w1) /\ f a w1 = Ok (b, w').
Proof.
  unfold mbind, M_bind. destruct (m w) as [[a w1]|e]; split.
  - intros Hf. exists a, w1. auto.
  - intros (a' & w1' & [= -> ->] & Hf). exact Hf.
  - discriminate.
  - intros (a' & w1' & Ha & _). discriminate.
Qed.

Lemma ret_M_Ok {A} (a b : A) (w w' : World) :
  (mret a : M A) w = Ok (b, w') <-> b = a /\ w' = w.
Proof.
  unfold mret, M_ret. split.
  - intros [= -> ->]. auto.
  - intros [-> ->]. reflexivity.
Qed.

Lemma lift_Ok {A} (r : result A) (w w' : World) (a : A) :
  lift r w = Ok (a, w') <-> r = Ok a /\ w' = w.
Proof.
  unfold lift. destruct r as [a0|e]; split.
  - intros [= -> ->]. auto.
  - intros [[= ->] ->]. reflexivity.
  - discriminate.
  - intros [? _]. discriminate.
Qed.

Lemma with_rng_Ok {A} (f : Generator -> A * Generator) (w w' : World) (a : A) :
  with_rng f w = Ok (a, w') ->
  a = (f (rng w)).1 /\ today_year w' = today_year w.
Proof.
  unfold with_rng. destruct (f (rng w)) as [a0 g]. intros [= <- <-]. auto.
Qed.

Lemma with_rng_r_Ok {A} (f : Generator -> result (A * Generator))
    (w w' : World) (a : A) :
  with_rng_r f w = Ok (a, w') ->
  (exists g, f (rng w) = Ok (a, g)) /\ today_year w' = today_year w.
Proof.
  unfold with_rng_r. destruct (f (rng w)) as [[a0 g]|e]; cbn; [|discriminate].
  intros [= <- <-]. eauto.
Qed.

Lemma with_np_random_Ok {A} (f : Generator -> result (A * Generator))
    (w w' : World) (a : A) :
  with_np_random f w = Ok (a, w') ->
  (exists g, f (np_random w) = Ok (a, g)) /\ today_year w' = today_year w.
Proof.
  unfold with_np_random. destruct (f (np_random w)) as [[a0 g]|e]; cbn;
    [|discriminate].
  intros [= <- <-]. eauto.
Qed.

Lemma getitem_Ok {A} (xs : list A) (i : nat) (x : A) :
  getitem xs i = Ok x <-> xs !! i = Some x.
Proof.
  unfold getitem. destruct (xs !! i); split; congruence.
Qed.

(** A loop relates every element to the value appended for it. *)
Lemma for_each_Ok {A B} (f : A -> M B) (xs : list A) (ys : list B)
    (w w' : World) :
  for_each f xs w = Ok (ys, w') ->
  Forall2 (fun x y => exists w1 w2, f x w1 = Ok (y, w2)) xs ys.
Proof.
  revert ys w. induction xs as [|x xs IH]; intros ys w Hrun.
  - apply ret_M_Ok in Hrun as [-> _]. constructor.
  - cbn [for_each] in Hrun.
    apply bind_M_Ok in Hrun as (y & w1 & Hy & Hrun).
    apply bind_M_Ok in Hrun as (ys' & w2 & Hys & Hrun).
    apply ret_M_Ok in Hrun as [-> ->].
    constructor; eauto.
Qed.

(** Decompose a successful run of a monadic program into its steps. *)
Ltac run_step H :=
  first
    [ apply bind_M_Ok in H as (? & ? & ? & H)
    | apply ret_M_Ok in H as [? ?]
    | apply lift_Ok in H as [? ?] ].

Lemma draws_length (size : nat) (g : Generator) :
  length (draws size g).1 = size.
Proof.
  revert g. induction size as [|n IH]; intros g; [reflexivity|].
  cbn [draws]. destruct (draw g) as [z g1].
  specialize (IH g1). destruct (draws n g1) as [zs g2]. cbn in *. lia.
Qed.

Lemma rng_normal_length (loc scale : Q) (size : nat) (g : Generator) :
  length (rng_normal loc scale size g).1 = size.
Proof.
  unfold rng_normal. pose proof (draws_length size g) as Hlen.
  destruct (draws size g) as [zs g']. cbn in *. by rewrite length_map.
Qed.

Lemma rng_exponential_length (scale : Q) (size : nat) (g : Generator) :
  length (rng_exponential scale size g).1 = size.
Proof.
  unfold rng_exponential. pose proof (draws_length size g) as Hlen.
  destruct (draws size g) as [zs g']. cbn in *. by rewrite length_map.
Qed.

Lemma rng_choice1_elem {A} (a : list A) (g g' : Generator) (x : A) :
  rng_choice1 a g = Ok (x, g') -> x ∈ a.
Proof.
  unfold rng_choice1. destruct a as [|a0 a]; [discriminate|].
  destruct (draw g) as [z g1]. intros Hx.
  apply bind_result_Ok in Hx as (y & Hy & [= <- <-]).
  apply getitem_Ok in Hy. eapply list_elem_of_lookup_2, Hy.
Qed.

Lemma rng_choice_spec {A} (a : list A) (size : nat) (g g' : Generator)
    (xs : list A) :
  rng_choice a size g = Ok (xs, g') ->
  length xs = size /\ Forall (fun x => x ∈ a) xs.
Proof.
  revert g xs. induction size as [|n IH]; intros g xs Hrun.
  - injection Hrun as <- <-. auto.
  - cbn [rng_choice] in Hrun.
    apply bind_result_Ok in Hrun as ([x g1] & Hx & Hrun).
    apply bind_result_Ok in Hrun as ([xs' g2] & Hxs & [= <- <-]).
    apply IH in Hxs as [Hlen Hall]. apply rng_choice1_elem in Hx.
    split; [cbn; lia | constructor; assumption].
Qed.

Lemma rng_choice_p_spec {A} (a : list A) (size : nat) (p : list Q)
    (g g' : Generator) (xs : list A) :
  rng_choice_p a size p g = Ok (xs, g') ->
  length xs = size /\ Forall (fun x => x ∈ a) xs.
Proof.
  unfold rng_choice_p. case_bool_decide; [|discriminate].
  destruct (forallb _ p); [|discriminate].
  intros Hrun. apply rng_choice_spec in Hrun as [Hlen Hall].
  split; [exact Hlen|].
  eapply Forall_impl; [exact Hall|]. cbn. intros x Hx.
  apply list_elem_of_fmap in Hx as ([x' q] & -> & Hin).
  apply list_elem_of_In, filter_In in Hin as [Hin _].
  apply list_elem_of_In in Hin. apply elem_of_zip_l in Hin. exact Hin.
Qed.

(** ** Ages and tenures *)

Lemma np_round_floor (x : Q) :
  np_round x = Qfloor x \/ np_round x = Qfloor x + 1.
Proof.
  unfold np_round. destruct (_ ?= _)%Q; [destruct (Z.even _)| |]; auto.
Qed.

Lemma np_round_bounds (a b : Z) (x : Q) :
  (inject_Z a <= x)%Q -> (x <= inject_Z b)%Q -> a <= np_round x <= b.
Proof.
  intros Ha Hb.
  assert (Hfa : a <= Qfloor x).
  { rewrite <- (Qfloor_Z a). apply Qfloor_resp_le, Ha. }
  assert (Hfb : Qfloor x <= b).
  { rewrite <- (Qfloor_Z b). apply Qfloor_resp_le, Hb. }
  split; [destruct (np_round_floor x) as [-> | ->]; lia|].
  destruct (Z.eq_dec (Qfloor x) b) as [Heq|Hne];
    [|destruct (np_round_floor x) as [-> | ->]; lia].
  assert (Hlt : (x - inject_Z (Qfloor x) < 1 # 2)%Q).
  { rewrite Heq. apply Qle_lt_trans with (y := 0%Q); [|reflexivity].
    apply (Qplus_le_l _ _ (inject_Z b)). ring_simplify. exact Hb. }
  assert (Hc : (x - inject_Z (Qfloor x) ?= 1 # 2)%Q = Lt)
    by (apply Qlt_alt, Hlt).
  unfold np_round. rewrite Hc. lia.
Qed.

Lemma np_clip_bounds (x lo hi : Q) :
  (lo <= hi)%Q -> (lo <= np_clip x lo hi)%Q /\ (np_clip x lo hi <= hi)%Q.
Proof.
  intros Hle. unfold np_clip. split.
  - apply Q.min_glb; [apply Q.le_max_r | exact Hle].
  - apply Q.le_min_r.
Qed.

Lemma generate_age_spec (size : nat) (w : World) :
  exists ages w',
    generate_age size w = Ok (ages, w')
    /\ length ages = size
    /\ Forall (fun a => 22 <= a <= 65) ages.
Proof.
  unfold generate_age, mbind, M_bind, with_rng.
  pose proof (rng_normal_length 37 8 size (rng w)) as Hlen.
  destruct (rng_normal 37 8 size (rng w)) as [raw g]. cbn in Hlen.
  eexists _, _. split; [reflexivity|]. split.
  - by rewrite !length_map.
  - rewrite <- list_fmap_compose. apply Forall_fmap, Forall_true.
    intros z. cbn.
    destruct (np_clip_bounds z 22 65) as [Hlo Hhi]; [discriminate|].
    apply (np_round_bounds 22 65); assumption.
Qed.

Lemma generate_tenure_years_spec (ages : list Z) (w : World) :
  exists tenure w',
    generate_tenure_years ages w = Ok (tenure, w')
    /\ Forall2 (fun a t => 0 <= t <= Z.max 0 (a - 21) /\ t <= 35) ages tenure.
Proof.
  unfold generate_tenure_years, mbind, M_bind, with_rng.
  pose proof (rng_exponential_length 3 (length ages) (rng w)) as Hlen.
  destruct (rng_exponential 3 (length ages) (rng w)) as [raw g]. cbn in Hlen.
  eexists _, _. split; [reflexivity|].
  clear w g. revert raw Hlen.
  induction ages as [|a ages IH]; intros raw Hlen.
  - destruct raw; [constructor | discriminate].
  - destruct raw as [|r raw]; [discriminate|]. cbn in Hlen.
    cbn. constructor; [|apply IH; lia].
    destruct (np_clip_bounds r 0 35) as [Hlo Hhi]; [discriminate|].
    assert (H0 : (inject_Z 0 <= Qmin (np_clip r 0 35) (inject_Z (Z.max 0 (a - 21))))%Q).
    { apply Q.min_glb; [exact Hlo|].
      rewrite <- Zle_Qle. lia. }
    split.
    + apply np_round_bounds; [exact H0 | apply Q.le_min_r].
    + apply (np_round_bounds 0 35); [exact H0|].
      eapply Qle_trans; [apply Q.le_min_l | exact Hhi].
Qed.

(** ** Birth and hire dates *)

Lemma date_add_days_Ok (d days o : Z) :
  date_add_days d days = Ok o -> o = d + days.
Proof.
  unfold date_add_days. case_bool_decide; [|discriminate]. by intros [= <-].
Qed.

Lemma np_random_randint_Ok (low high : Z) (g g' : Generator) (v : Z) :
  np_random_randint low high g = Ok (v, g') -> low <= v < high.
Proof.
  unfold np_random_randint. case_bool_decide as Hlt; [|discriminate].
  destruct (draw g) as [z g1]. intros [= <- <-].
  pose proof (Z.mod_pos_bound (Qfloor (Qabs z)) (high - low)). lia.
Qed.

Lemma np_random_randint_returns (low high : Z) (g : Generator) :
  low < high ->
  exists v g', np_random_randint low high g = Ok (v, g').
Proof.
  intros Hlt. unfold np_random_randint. rewrite bool_decide_eq_true_2 by exact Hlt.
  destruct (draw g) as [z g1]. eauto.
Qed.

(** Every integer of the half-open interval is delivered by some stream. *)
Lemma np_random_randint_reaches (low high v : Z) :
  low <= v < high ->
  exists g g', np_random_randint low high g = Ok (v, g').
Proof.
  intros Hv. exists {| variate := fun _ => inject_Z (v - low) |}.
  unfold np_random_randint. rewrite bool_decide_eq_true_2 by lia.
  cbn [draw variate]. eexists. do 2 f_equal.
  assert (Habs : Qabs (inject_Z (v - low)) = inject_Z (v - low)).
  { unfold Qabs, inject_Z. f_equal. apply Z.abs_eq. lia. }
  rewrite Habs, Qfloor_Z, Z.mod_small by lia. lia.
Qed.

Lemma dates_of_days_Ok (today age tenure bd hd : Z) (b h : date) :
  dates_of_days today age tenure bd hd = Ok (b, h) ->
  exists b0 h0,
    date_jan1 (today - age) = Ok b0
    /\ date_jan1 (today - tenure) = Ok h0
    /\ b = b0 + bd
    /\ h = (if bool_decide (h0 + hd < b + 18 * 365) then b + 18 * 365
            else h0 + hd).
Proof.
  unfold dates_of_days. intros Hrun.
  apply bind_result_Ok in Hrun as (b0 & Hb0 & Hrun).
  apply bind_result_Ok in Hrun as (b1 & Hb1 & Hrun).
  apply bind_result_Ok in Hrun as (h0 & Hh0 & Hrun).
  apply bind_result_Ok in Hrun as (h1 & Hh1 & Hrun).
  apply bind_result_Ok in Hrun as (m & Hm & Hrun).
  injection Hrun as <- <-.
  apply date_add_days_Ok in Hb1 as ->.
  apply date_add_days_Ok in Hh1 as ->.
  apply date_add_days_Ok in Hm as ->.
  exists b0, h0. auto.
Qed.

Lemma generate_dates_Ok (ages tenure_years : list Z) (w w' : World)
    (birth_dates hire_dates : list date) :
  generate_dates_from_age_and_tenure ages tenure_years w
    = Ok ((birth_dates, hire_dates), w') ->
  length birth_dates = length ages
  /\ length hire_dates = length ages
  /\ forall (i : nat) (b h : date),
       birth_dates !! i = Some b -> hire_dates !! i = Some h ->
       dates_of_employee (today_year w) ages tenure_years i b h.
Proof.
  unfold generate_dates_from_age_and_tenure. intros Hrun.
  apply bind_M_Ok in Hrun as (today & w1 & Htoday & Hrun).
  injection Htoday as <- <-.
  apply bind_M_Ok in Hrun as (dates & w2 & Hdates & Hrun).
  apply ret_M_Ok in Hrun as [[= -> ->] ->].
  apply for_each_Ok in Hdates.
  pose proof (Forall2_length _ _ _ Hdates) as Hlen. rewrite length_seq in Hlen.
  rewrite !length_map. repeat split; try congruence.
  intros i b h Hb Hh.
  rewrite list_lookup_fmap in Hb, Hh.
  destruct (dates !! i) as [[b' h']|] eqn:Hi; [|discriminate].
  cbn in Hb, Hh. injection Hb as ->. injection Hh as ->.
  assert (Hseq : seq 0 (length ages) !! i = Some i).
  { apply lookup_seq. split; [reflexivity|].
    apply lookup_lt_Some in Hi. lia. }
  destruct (Forall2_lookup_lr _ _ _ _ _ _ Hdates Hseq Hi) as (wa & wb & Hbody).
  apply bind_M_Ok in Hbody as (age & wc & Hage & Hbody).
  apply lift_Ok in Hage as [Hage ->]. apply getitem_Ok in Hage.
  apply bind_M_Ok in Hbody as (tenure & wd & Hten & Hbody).
  apply lift_Ok in Hten as [Hten ->]. apply getitem_Ok in Hten.
  apply bind_M_Ok in Hbody as (bd & we & Hbd & Hbody).
  apply with_np_random_Ok in Hbd as [[g1 Hbd] _].
  apply np_random_randint_Ok in Hbd.
  apply bind_M_Ok in Hbody as (hd & wf & Hhd & Hbody).
  apply with_np_random_Ok in Hhd as [[g2 Hhd] _].
  apply np_random_randint_Ok in Hhd.
  apply lift_Ok in Hbody as [Hbody _].
  apply dates_of_days_Ok in Hbody as (b0 & h0 & Hb0 & Hh0 & -> & ->).
  exists age, tenure, bd, hd, b0, h0. auto 10.
Qed.

(** ** Every day from 1 to 364 can be drawn *)

Lemma np_random_randint_day (g : Generator) (d : Z) :
  1 <= d <= 364 ->
  variate g 0%nat = inject_Z (d - 1) ->
  np_random_randint 1 365 g
  = Ok (d, {| variate := fun k => variate g (S k) |}).
Proof.
  intros Hd Hg. unfold np_random_randint, draw.
  rewrite bool_decide_eq_true_2 by lia. rewrite Hg.
  assert (Habs : Qabs (inject_Z (d - 1)) = inject_Z (d - 1)).
  { unfold Qabs, inject_Z. f_equal. apply Z.abs_eq. lia. }
  rewrite Habs, Qfloor_Z, Z.mod_small by lia.
  do 2 f_equal. lia.
Qed.

Lemma date_jan1_Ok (year : Z) (d : date) :
  date_jan1 year = Ok d ->
  MINYEAR <= year <= MAXYEAR /\ d = _days_before_year year + 1.
Proof.
  unfold date_jan1. case_bool_decide; [|discriminate]. by intros [= <-].
Qed.

(** Within the years [date] supports, with room for the 18 years added
    to the birth date, the loop body raises nothing. *)
Lemma dates_of_days_returns (today age tenure bd hd : Z) (b0 h0 : date) :
  date_jan1 (today - age) = Ok b0 ->
  date_jan1 (today - tenure) = Ok h0 ->
  today - age + 19 <= MAXYEAR ->
  1 <= bd <= 364 -> 1 <= hd <= 364 ->
  dates_of_days today age tenure bd hd
  = Ok (b0 + bd, Z.max (h0 + hd) (b0 + bd + 18 * 365)).
Proof.
  intros Hb0 Hh0 Hroom Hbd Hhd. unfold dates_of_days.
  rewrite Hb0, Hh0. cbn [mbind result_bind].
  apply date_jan1_Ok in Hb0 as [Hby ->].
  apply date_jan1_Ok in Hh0 as [Hhy ->].
  unfold MINYEAR, MAXYEAR in *.
  assert (Hb : 0 < _days_before_year (today - age) + 1
               /\ _days_before_year (today - age) + 1 + 364 + 18 * 365
                  <= _MAXORDINAL).
  { unfold _days_before_year, _MAXORDINAL. cbv zeta.
    Z.div_mod_to_equations. lia. }
  assert (Hh : 0 < _days_before_year (today - tenure) + 1
               /\ _days_before_year (today - tenure) + 1 + 364 <= _MAXORDINAL).
  { unfold _days_before_year, _MAXORDINAL. cbv zeta.
    Z.div_mod_to_equations. lia. }
  unfold date_add_days.
  rewrite !bool_decide_eq_true_2 by lia. cbn [mbind result_bind].
  rewrite bool_decide_eq_true_2 by lia. cbn [mbind result_bind].
  f_equal. f_equal. case_bool_decide; lia.
Qed.

Lemma days_stream_cons (d : Z * Z) (days : list (Z * Z)) (k : nat) :
  variate (days_stream (d :: days)) (S (S k)) = variate (days_stream days) k.
Proof. reflexivity. Qed.

(** The loop of [generate_dates_from_age_and_tenure], run on a state of
    [np.random] that delivers [days]. *)
Lemma dates_loop_reaches (today : Z) (ages tenure_years : list Z)
    (r : Generator) (idx : list nat) (days : list (Z * Z)) :
  Forall2
    (fun i d =>
       exists age tenure b0 h0,
         ages !! i = Some age /\ tenure_years !! i = Some tenure
         /\ date_jan1 (today - age) = Ok b0
         /\ date_jan1 (today - tenure) = Ok h0
         /\ today - age + 19 <= MAXYEAR
         /\ 1 <= d.1 <= 364 /\ 1 <= d.2 <= 364)
    idx days ->
  forall g : Generator,
    (forall k, variate g k = variate (days_stream days) k) ->
    exists dates w1,
      for_each
        (fun i =>
           age ← lift (getitem ages i);
           tenure ← lift (getitem tenure_years i);
           birth_day_of_year ← with_np_random (np_random_randint 1 365);
           hire_day_of_year ← with_np_random (np_random_randint 1 365);
           lift (dates_of_days today age tenure
                   birth_day_of_year hire_day_of_year))
        idx {| rng := r; np_random := g; today_year := today |}
      = Ok (dates, w1)
      /\ Forall2
           (fun id bh =>
              exists age tenure b0 h0,
                ages !! id.1 = Some age /\ tenure_years !! id.1 = Some tenure
                /\ date_jan1 (today - age) = Ok b0
                /\ date_jan1 (today - tenure) = Ok h0
                /\ bh = (b0 + id.2.1,
                         Z.max (h0 + id.2.2) (b0 + id.2.1 + 18 * 365)))
           (zip idx days) dates.
Proof.
  induction 1 as [|i d idx days Hd _ IH]; intros g Hg.
  - exists [], {| rng := r; np_random := g; today_year := today |}.
    split; [reflexivity | constructor].
  - destruct Hd as (age & tenure & b0 & h0 & Hage & Hten & Hb0 & Hh0 & Hroom
                    & Hbd & Hhd).
    set (g1 := {| variate := fun k => variate g (S k) |}).
    set (g2 := {| variate := fun k => variate g1 (S k) |}).
    destruct (IH g2) as (dates & w1 & Hrun & Hall).
    { intros k. cbn. rewrite Hg. apply days_stream_cons. }
    exists ((b0 + d.1, Z.max (h0 + d.2) (b0 + d.1 + 18 * 365)) :: dates), w1.
    split.
    + cbn [for_each]. unfold mbind at 1, M_bind at 1.
      unfold mbind at 1, M_bind at 1. unfold lift at 1, getitem at 1.
      rewrite Hage.
      unfold mbind at 1, M_bind at 1. unfold lift at 1, getitem at 1.
      rewrite Hten.
      unfold mbind at 1, M_bind at 1. unfold with_np_random at 1.
      cbn [np_random rng today_year].
      rewrite (np_random_randint_day g d.1 Hbd)
        by (rewrite Hg; cbn; f_equal; lia).
      cbn [mbind result_bind].
      unfold mbind at 1, M_bind at 1. unfold with_np_random at 1.
      cbn [np_random rng today_year]. fold g1.
      rewrite (np_random_randint_day g1 d.2 Hhd)
        by (cbn; rewrite Hg; cbn; f_equal; lia).
      cbn [mbind result_bind]. fold g2.
      rewrite (dates_of_days_returns today age tenure d.1 d.2 b0 h0)
        by assumption.
      unfold lift at 1.
      unfold mbind at 1, M_bind at 1. rewrite Hrun. reflexivity.
    + constructor; [|exact Hall].
      exists age, tenure, b0, h0. cbn. auto.
Qed.

(** ** Employees *)

Section EmployeeFacts.
Context `{Float64}.

(** The dictionary of groups holds, under every key, the ids of the
    positions with that key in row order. *)
Lemma grouped_positions_loop (ps : list JobPosition.t)
    (d0 : gmap (Z * string) (list Z)) (k : Z * string) :
  default []
    (foldl
       (fun d p =>
          let key := (JobPosition.department_id p, JobPosition.seniority_level p) in
          <[key := default [] (d !! key) ++ [JobPosition.job_position_id p]]> d)
       d0 ps !! k)
  = default [] (d0 !! k)
    ++ map JobPosition.job_position_id
         (filter (fun p => (JobPosition.department_id p,
                            JobPosition.seniority_level p) = k) ps).
Proof.
  revert d0. induction ps as [|p ps IH]; intros d0.
  - cbn. by rewrite app_nil_r.
  - cbn [foldl]. rewrite IH.
    destruct (decide ((JobPosition.department_id p,
                       JobPosition.seniority_level p) = k)) as [Heq|Hne].
    + rewrite filter_cons_True by exact Heq. subst k.
      rewrite lookup_insert_eq. cbn. by rewrite <- app_assoc.
    + rewrite filter_cons_False by exact Hne.
      by rewrite lookup_insert_ne by exact Hne.
Qed.

Lemma grouped_positions_of_lookup (ps : list JobPosition.t) (k : Z * string) :
  default [] (grouped_positions_of ps !! k)
  = map JobPosition.job_position_id
      (filter (fun p => (JobPosition.department_id p,
                         JobPosition.seniority_level p) = k) ps).
Proof.
  unfold grouped_positions_of. rewrite grouped_positions_loop.
  by rewrite lookup_empty.
Qed.

(** Every candidate, from the exact group or from the fallback, is the
    id of a position of the sampled department. *)
Lemma candidates_for_department (ps : list JobPosition.t) (dept_id : Z)
    (level : string) (id : Z) :
  id ∈ candidates_for ps (grouped_positions_of ps) dept_id level ->
  exists p, p ∈ ps
            /\ JobPosition.job_position_id p = id
            /\ JobPosition.department_id p = dept_id.
Proof.
  unfold candidates_for.
  pose proof (grouped_positions_of_lookup ps (dept_id, level)) as Hgroup.
  destruct (grouped_positions_of ps !! (dept_id, level)) as [[|c cs]|];
    cbn in Hgroup.
  2: { rewrite Hgroup. intros Hin.
       apply list_elem_of_fmap in Hin as (p & -> & Hp).
       apply list_elem_of_filter in Hp as [[= Hd _] Hp]. eauto. }
  all: intros Hin; apply list_elem_of_fmap in Hin as (p & -> & Hp);
    apply list_elem_of_filter in Hp as [Hd Hp]; eauto.
Qed.

(** The fallback branch: without an exact group the candidates are all
    positions of the department. *)
Lemma candidates_for_fallback (ps : list JobPosition.t) (dept_id : Z)
    (level : string) :
  filter (fun p => (JobPosition.department_id p,
                    JobPosition.seniority_level p) = (dept_id, level)) ps = [] ->
  candidates_for ps (grouped_positions_of ps) dept_id level
  = map JobPosition.job_position_id
      (filter (fun p => JobPosition.department_id p = dept_id) ps).
Proof.
  intros Hnone. unfold candidates_for.
  pose proof (grouped_positions_of_lookup ps (dept_id, level)) as Hgroup.
  rewrite Hnone in Hgroup.
  destruct (grouped_positions_of ps !! (dept_id, level)) as [[|c cs]|];
    [reflexivity | discriminate | reflexivity].
Qed.

Lemma generate_age_Ok (size : nat) (w w' : World) (ages : list Z) :
  generate_age size w = Ok (ages, w') ->
  length ages = size /\ Forall (fun a => 22 <= a <= 65) ages.
Proof.
  destruct (generate_age_spec size w) as (ages' & w1 & Hrun & Hlen & Hall).
  rewrite Hrun. intros [= <- <-]. auto.
Qed.

Lemma generate_tenure_years_Ok (ages tenure : list Z) (w w' : World) :
  generate_tenure_years ages w = Ok (tenure, w') ->
  Forall2 (fun a t => 0 <= t <= Z.max 0 (a - 21) /\ t <= 35) ages tenure.
Proof.
  destruct (generate_tenure_years_spec ages w) as (t' & w1 & Hrun & Hall).
  rewrite Hrun. intros [= <- <-]. exact Hall.
Qed.

(** What [generate_employees] guarantees of the employee at index [i]. *)
Lemma generate_employees_Ok (departments_df : list Department.t)
    (job_positions_df : list JobPosition.t) (n_employees : nat)
    (w w' : World) (employees : list Employee.t) :
  generate_employees departments_df job_positions_df n_employees w
    = Ok (employees, w') ->
  length employees = n_employees
  /\ forall (i : nat) (e : Employee.t),
       employees !! i = Some e ->
       Employee.employee_id e = Z.of_nat i + 1
       /\ Employee.department_id e ∈ map Department.department_id departments_df
       /\ Employee.seniority_level e ∈ seniority_levels
       /\ Employee.job_position_id e ∈
            candidates_for job_positions_df (grouped_positions_of job_positions_df)
              (Employee.department_id e) (Employee.seniority_level e)
       /\ 22 <= Employee.age e <= 65
       /\ 0 <= Employee.tenure_years e <= Z.max 0 (Employee.age e - 21)
       /\ Employee.tenure_years e <= 35
       /\ exists today ages tenure_years,
            dates_of_employee today ages tenure_years i
              (Employee.birth_date e) (Employee.hire_date e).
Proof.
  unfold generate_employees. intros Hrun.
  apply bind_M_Ok in Hrun as (dept_probs & w1 & _ & Hrun).
  apply bind_M_Ok in Hrun as (dept_ids & w2 & Hdept & Hrun).
  apply with_rng_r_Ok in Hdept as [[g1 Hdept] _].
  apply rng_choice_p_spec in Hdept as [Hdept_len Hdept].
  apply bind_M_Ok in Hrun as (levels & w3 & Hlevels & Hrun).
  apply with_rng_r_Ok in Hlevels as [[g2 Hlevels] _].
  apply rng_choice_p_spec in Hlevels as [Hlevels_len Hlevels].
  apply bind_M_Ok in Hrun as (pos_ids & w4 & Hpos & Hrun).
  apply for_each_Ok in Hpos.
  apply bind_M_Ok in Hrun as (ages & w5 & Hages & Hrun).
  apply generate_age_Ok in Hages as [Hages_len Hages].
  apply bind_M_Ok in Hrun as (tenure & w6 & Htenure & Hrun).
  apply generate_tenure_years_Ok in Htenure.
  apply bind_M_Ok in Hrun as ([births hires] & w7 & Hdates & Hrun).
  apply generate_dates_Ok in Hdates as (_ & _ & Hdates).
  apply bind_M_Ok in Hrun as (salaries & w8 & _ & Hrun).
  apply bind_M_Ok in Hrun as (fns & w9 & _ & Hrun).
  apply bind_M_Ok in Hrun as (lns & w10 & _ & Hrun).
  apply for_each_Ok in Hrun.
  pose proof (Forall2_length _ _ _ Hrun) as Hlen. rewrite length_seq in Hlen.
  split; [congruence|].
  intros i e He.
  assert (Hseq : seq 0 n_employees !! i = Some i).
  { apply lookup_seq. split; [reflexivity|].
    apply lookup_lt_Some in He. lia. }
  destruct (Forall2_lookup_lr _ _ _ _ _ _ Hrun Hseq He) as (wa & wb & Hbody).
  repeat match type of Hbody with
         | (lift (getitem _ _) ≫= _) _ = Ok _ =>
             let x := fresh "x" in let Hx := fresh "Hx" in
             apply bind_M_Ok in Hbody as (x & ? & Hx & Hbody);
             apply lift_Ok in Hx as [Hx ->]; apply getitem_Ok in Hx
         end.
  apply ret_M_Ok in Hbody as [[= ->] _]. cbn.
  rename Hx1 into Hd, Hx2 into Hp, Hx3 into Hl, Hx4 into Hb, Hx5 into Hh,
         Hx6 into Ha, Hx7 into Ht.
  split; [reflexivity|].
  split; [exact (Forall_lookup_1 _ _ _ _ Hdept Hd)|].
  split; [exact (Forall_lookup_1 _ _ _ _ Hlevels Hl)|].
  split.
  { assert (Hzip : zip dept_ids levels !! i = Some (x1, x3)).
    { rewrite lookup_zip_with, Hd. cbn. rewrite Hl. reflexivity. }
    destruct (Forall2_lookup_lr _ _ _ _ _ _ Hpos Hzip Hp) as (wc & wd & Hc).
    apply with_rng_r_Ok in Hc as [[g3 Hc] _].
    eapply rng_choice1_elem, Hc. }
  split; [exact (Forall_lookup_1 _ _ _ _ Hages Ha)|].
  pose proof (Forall2_lookup_lr _ _ _ _ _ _ Htenure Ha Ht) as [Ht1 Ht2].
  split; [exact Ht1|]. split; [exact Ht2|].
  eauto.
Qed.

End EmployeeFacts.

(** ** C1, C2, C6, C9: the generated employees *)

Lemma NoDup_fmap_eq {A B} (f : A -> B) (l : list A) (x y : A) :
  NoDup (map f l) -> x ∈ l -> y ∈ l -> f x = f y -> x = y.
Proof.
  induction l as [|a l IH]; intros Hnd Hx Hy Hf; [by apply elem_of_nil in Hx|].
  cbn in Hnd. apply NoDup_cons in Hnd as [Hnotin Hnd].
  apply elem_of_cons in Hx as [-> | Hx], Hy as [-> | Hy]; auto.
  - exfalso. apply Hnotin. rewrite Hf. apply list_elem_of_fmap. eauto.
  - exfalso. apply Hnotin. rewrite <- Hf. apply list_elem_of_fmap. eauto.
Qed.

(** C1. Every employee [generate_employees] produces, whether its
    position came from the exact (department, level) group or from the
    fallback, references a position of its own department: some row of
    the positions table carries the employee's [job_position_id] and
    [department_id], and where position ids are unique it is the one row
    the id refers to. *)
Theorem employee_position_in_own_department `{Float64}
    (departments_df : list Department.t)
    (job_positions_df : list JobPosition.t) (n_employees : nat)
    (w w' : World) (employees : list Employee.t) :
  generate_employees departments_df job_positions_df n_employees w
    = Ok (employees, w') ->
  Forall
    (fun e =>
       (exists p, p ∈ job_positions_df
                  /\ JobPosition.job_position_id p = Employee.job_position_id e
                  /\ JobPosition.department_id p = Employee.department_id e)
       /\ (NoDup (map JobPosition.job_position_id job_positions_df) ->
           forall p, p ∈ job_positions_df ->
                     JobPosition.job_position_id p = Employee.job_position_id e ->
                     JobPosition.department_id p = Employee.department_id e))
    employees.
Proof.
  intros Hrun. apply generate_employees_Ok in Hrun as [_ Hall].
  apply Forall_lookup_2. intros i e He.
  destruct (Hall i e He) as (_ & _ & _ & Hcand & _).
  apply candidates_for_department in Hcand as (p & Hp & Hid & Hdept).
  split; [eauto|].
  intros Hnodup q Hq Hqid.
  assert (q = p) as ->; [|exact Hdept].
  eapply (NoDup_fmap_eq JobPosition.job_position_id); eauto. congruence.
Qed.

Lemma sample_run_Ok : sample_run = Ok (sample_employees, sample_world_after).
Proof.
  assert (Hok : is_ok sample_run = true) by (vm_compute; reflexivity).
  unfold sample_employees, sample_world_after.
  destruct sample_run as [[es w]|e]; [reflexivity | discriminate].
Qed.

Lemma employee_position_in_own_department_witness :
  Forall
    (fun e =>
       (exists p, p ∈ sample_positions
                  /\ JobPosition.job_position_id p = Employee.job_position_id e
                  /\ JobPosition.department_id p = Employee.department_id e)
       /\ (NoDup (map JobPosition.job_position_id sample_positions) ->
           forall p, p ∈ sample_positions ->
                     JobPosition.job_position_id p = Employee.job_position_id e ->
                     JobPosition.department_id p = Employee.department_id e))
    sample_employees.
Proof.
  apply (employee_position_in_own_department sample_departments
           sample_positions 3 sample_world sample_world_after).
  exact sample_run_Ok.
Defined.

(** The sample run takes both branches: the second employee is sampled
    as "Junior" and gets the exact position; the other two are sampled
    levels without a position and get one by the fallback. *)
Example sample_run_fallback :
  map (fun e => (Employee.seniority_level e, Employee.job_position_id e,
                 Employee.department_id e)) sample_employees
  = [("Senior", 7, 1); ("Junior", 7, 1); ("SemiSenior", 7, 1)].
Proof. vm_compute. reflexivity. Qed.

(** C2. Every generated employee has an age between 22 and 65 and a
    tenure between 0 and its age minus 21 (and of at most 35 years). *)
Theorem employee_age_and_tenure_bounds `{Float64}
    (departments_df : list Department.t)
    (job_positions_df : list JobPosition.t) (n_employees : nat)
    (w w' : World) (employees : list Employee.t) :
  generate_employees departments_df job_positions_df n_employees w
    = Ok (employees, w') ->
  Forall
    (fun e =>
       22 <= Employee.age e <= 65
       /\ 0 <= Employee.tenure_years e <= Employee.age e - 21
       /\ Employee.tenure_years e <= 35)
    employees.
Proof.
  intros Hrun. apply generate_employees_Ok in Hrun as [_ Hall].
  apply Forall_lookup_2. intros i e He.
  destruct (Hall i e He) as (_ & _ & _ & _ & Hage & Hten & H35 & _).
  repeat split; lia.
Qed.

Lemma employee_age_and_tenure_bounds_witness :
  Forall
    (fun e =>
       22 <= Employee.age e <= 65
       /\ 0 <= Employee.tenure_years e <= Employee.age e - 21
       /\ Employee.tenure_years e <= 35)
    sample_employees.
Proof.
  apply (employee_age_and_tenure_bounds sample_departments
           sample_positions 3 sample_world sample_world_after).
  exact sample_run_Ok.
Defined.

(** C6. For every employee [generate_dates_from_age_and_tenure] returns
    a hire date at least 18 * 365 days after the birth date: the hire
    date is the sampled one, or exactly birth date + 18 * 365 days when
    the sampled one falls before that minimum. *)
Theorem hire_date_after_minimum_working_age
    (ages tenure_years : list Z) (w w' : World)
    (birth_dates hire_dates : list date) :
  generate_dates_from_age_and_tenure ages tenure_years w
    = Ok ((birth_dates, hire_dates), w') ->
  length birth_dates = length ages
  /\ length hire_dates = length ages
  /\ forall (i : nat) (b h : date),
       birth_dates !! i = Some b -> hire_dates !! i = Some h ->
       b + 18 * 365 <= h
       /\ exists tenure hire_jan1 hire_day_of_year,
            tenure_years !! i = Some tenure
            /\ date_jan1 (today_year w - tenure) = Ok hire_jan1
            /\ 1 <= hire_day_of_year < 365
            /\ let sampled := hire_jan1 + hire_day_of_year in
               (sampled < b + 18 * 365 -> h = b + 18 * 365)
               /\ (b + 18 * 365 <= sampled -> h = sampled).
Proof.
  intros Hrun. apply generate_dates_Ok in Hrun as (Hb & Hh & Hall).
  split; [exact Hb|]. split; [exact Hh|].
  intros i b h Hbi Hhi.
  destruct (Hall i b h Hbi Hhi)
    as (age & tenure & bd & hd & b0 & h0 & _ & Ht & _ & Hhd & _ & Hh0 & _ & ->).
  split; [case_bool_decide; lia|].
  exists tenure, h0, hd. repeat split; try assumption; try lia.
  - intros Hlt. by rewrite bool_decide_eq_true_2.
  - intros Hge. rewrite bool_decide_eq_false_2; [reflexivity | lia].
Qed.

Lemma sample_dates_run_Ok :
  sample_dates_run = Ok (sample_dates, sample_dates_world).
Proof.
  assert (Hok : is_ok sample_dates_run = true) by (vm_compute; reflexivity).
  unfold sample_dates, sample_dates_world.
  destruct sample_dates_run as [[ds w]|e]; [reflexivity | discriminate].
Qed.

Lemma hire_date_after_minimum_working_age_witness :
  length sample_dates.1 = 2%nat
  /\ length sample_dates.2 = 2%nat
  /\ forall (i : nat) (b h : date),
       sample_dates.1 !! i = Some b -> sample_dates.2 !! i = Some h ->
       b + 18 * 365 <= h
       /\ exists tenure hire_jan1 hire_day_of_year,
            [5; 10] !! i = Some tenure
            /\ date_jan1 (2026 - tenure) = Ok hire_jan1
            /\ 1 <= hire_day_of_year < 365
            /\ let sampled := hire_jan1 + hire_day_of_year in
               (sampled < b + 18 * 365 -> h = b + 18 * 365)
               /\ (b + 18 * 365 <= sampled -> h = sampled).
Proof.
  apply (hire_date_after_minimum_working_age [30; 22] [5; 10]
           sample_world sample_dates_world sample_dates.1 sample_dates.2).
  exact sample_dates_run_Ok.
Defined.

(** In the sample the second employee, aged 22 with a tenure of 10, is
    sampled a hire date before the minimum and gets the minimum. *)
Example sample_dates_clamped :
  sample_dates = ([728662; 731583], [737793; 731583 + 18 * 365]).
Proof. vm_compute. reflexivity. Qed.

(** C9 (amended). [generate_dates_from_age_and_tenure] takes the birth
    and the hire day of the year of every employee from the integers 1
    to 364, the range of [np.random.randint(1, 365)]: the birth date is
    1 January of the birth year plus such a day, the hire date 1 January
    of the hire year plus such a day (or the minimum, 18 * 365 days
    after the birth date, when that is later).  Every one of the 364
    days is a possible outcome: whatever days between 1 and 364 are
    chosen for the employees, some state of [np.random] makes the
    function deliver exactly them (the birth years leaving room for the
    18 years added). *)
Theorem day_of_year_between_1_and_364
    (ages tenure_years : list Z) (w w' : World)
    (birth_dates hire_dates : list date) :
  generate_dates_from_age_and_tenure ages tenure_years w
    = Ok ((birth_dates, hire_dates), w') ->
  (forall (i : nat) (b h : date),
     birth_dates !! i = Some b -> hire_dates !! i = Some h ->
     exists age tenure birth_day_of_year hire_day_of_year birth_jan1 hire_jan1,
       ages !! i = Some age /\ tenure_years !! i = Some tenure
       /\ date_jan1 (today_year w - age) = Ok birth_jan1
       /\ date_jan1 (today_year w - tenure) = Ok hire_jan1
       /\ 1 <= birth_day_of_year <= 364
       /\ 1 <= hire_day_of_year <= 364
       /\ b = birth_jan1 + birth_day_of_year
       /\ h = Z.max (hire_jan1 + hire_day_of_year) (b + 18 * 365))
  /\ (Forall (fun age => today_year w - age + 19 <= MAXYEAR) ages ->
      forall days : list (Z * Z),
        length days = length ages ->
        Forall (fun d => 1 <= d.1 <= 364 /\ 1 <= d.2 <= 364) days ->
        exists (g : Generator) (w1 : World) (bs hs : list date),
          generate_dates_from_age_and_tenure ages tenure_years
            {| rng := rng w; np_random := g; today_year := today_year w |}
          = Ok ((bs, hs), w1)
          /\ forall (i : nat) (d : Z * Z),
               days !! i = Some d ->
               exists age tenure birth_jan1 hire_jan1,
                 ages !! i = Some age /\ tenure_years !! i = Some tenure
                 /\ date_jan1 (today_year w - age) = Ok birth_jan1
                 /\ date_jan1 (today_year w - tenure) = Ok hire_jan1
                 /\ bs !! i = Some (birth_jan1 + d.1)
                 /\ hs !! i = Some (Z.max (hire_jan1 + d.2)
                                          (birth_jan1 + d.1 + 18 * 365))).
Proof.
  intros Hrun. apply generate_dates_Ok in Hrun as (Hblen & Hhlen & Hall).
  split.
  - intros i b h Hb Hh.
    destruct (Hall i b h Hb Hh)
      as (age & tenure & bd & hd & b0 & h0 & Hage & Hten & Hbd & Hhd & Hb0
          & Hh0 & -> & ->).
    exists age, tenure, bd, hd, b0, h0.
    repeat split; try assumption; try lia.
    case_bool_decide; lia.
  - intros Hroom days Hlen Hdays.
    destruct (dates_loop_reaches (today_year w) ages tenure_years (rng w)
                (seq 0 (length ages)) days) with (g := days_stream days)
      as (dates & w1 & Hloop & Hdates).
    { apply Forall2_same_length_lookup_2.
      - by rewrite length_seq.
      - intros i j d Hj Hd. apply lookup_seq in Hj as [-> Hi]. cbn.
        destruct (lookup_lt_is_Some_2 birth_dates i) as [b Hb]; [lia|].
        destruct (lookup_lt_is_Some_2 hire_dates i) as [h Hh]; [lia|].
        destruct (Hall i b h Hb Hh)
          as (age & tenure & bd & hd & b0 & h0 & Hage & Hten & _ & _ & Hb0
              & Hh0 & _).
        exists age, tenure, b0, h0.
        pose proof (Forall_lookup_1 _ _ _ _ Hroom Hage) as Hr.
        pose proof (Forall_lookup_1 _ _ _ _ Hdays Hd) as Hdd. cbn in Hr, Hdd.
        repeat split; try assumption; lia. }
    { reflexivity. }
    exists (days_stream days), w1, (map fst dates), (map snd dates).
    split.
    + unfold generate_dates_from_age_and_tenure.
      unfold mbind at 1, M_bind at 1. unfold date_today_year at 1.
      cbn [today_year].
      unfold mbind at 1, M_bind at 1. rewrite Hloop. reflexivity.
    + intros i d Hd.
      assert (Hzip : zip (seq 0 (length ages)) days !! i = Some (i, d)).
      { apply lookup_zip_with_Some. exists i, d. split; [reflexivity|].
        split; [|exact Hd]. apply lookup_seq. split; [reflexivity|].
        apply lookup_lt_Some in Hd. lia. }
      destruct (Forall2_lookup_l _ _ _ _ _ Hdates Hzip)
        as (bh & Hbh & age & tenure & b0 & h0 & Hage & Hten & Hb0 & Hh0 & ->).
      exists age, tenure, b0, h0. cbn [fst snd] in *.
      change (map fst dates) with (fst <$> dates).
      change (map snd dates) with (snd <$> dates).
      rewrite !list_lookup_fmap.
      pose proof (f_equal (fmap fst) Hbh) as Hfst.
      pose proof (f_equal (fmap snd) Hbh) as Hsnd.
      repeat split; assumption.
Qed.

Lemma day_of_year_between_1_and_364_witness :
  (forall (i : nat) (b h : date),
     sample_dates.1 !! i = Some b -> sample_dates.2 !! i = Some h ->
     exists age tenure birth_day_of_year hire_day_of_year birth_jan1 hire_jan1,
       [30; 22] !! i = Some age /\ [5; 10] !! i = Some tenure
       /\ date_jan1 (today_year sample_world - age) = Ok birth_jan1
       /\ date_jan1 (today_year sample_world - tenure) = Ok hire_jan1
       /\ 1 <= birth_day_of_year <= 364
       /\ 1 <= hire_day_of_year <= 364
       /\ b = birth_jan1 + birth_day_of_year
       /\ h = Z.max (hire_jan1 + hire_day_of_year) (b + 18 * 365))
  /\ (Forall (fun age => today_year sample_world - age + 19 <= MAXYEAR)
             [30; 22] ->
      forall days : list (Z * Z),
        length days = length [30; 22] ->
        Forall (fun d => 1 <= d.1 <= 364 /\ 1 <= d.2 <= 364) days ->
        exists (g : Generator) (w1 : World) (bs hs : list date),
          generate_dates_from_age_and_tenure [30; 22] [5; 10]
            {| rng := rng sample_world; np_random := g;
               today_year := today_year sample_world |}
          = Ok ((bs, hs), w1)
          /\ forall (i : nat) (d : Z * Z),
               days !! i = Some d ->
               exists age tenure birth_jan1 hire_jan1,
                 [30; 22] !! i = Some age /\ [5; 10] !! i = Some tenure
                 /\ date_jan1 (today_year sample_world - age) = Ok birth_jan1
                 /\ date_jan1 (today_year sample_world - tenure)
                    = Ok hire_jan1
                 /\ bs !! i = Some (birth_jan1 + d.1)
                 /\ hs !! i = Some (Z.max (hire_jan1 + d.2)
                                          (birth_jan1 + d.1 + 18 * 365))).
Proof.
  apply (day_of_year_between_1_and_364 [30; 22] [5; 10]
           sample_world sample_dates_world sample_dates.1 sample_dates.2).
  exact sample_dates_run_Ok.
Defined.

(** C9 as stated fails: day 365 is never drawn.  For an employee aged
    30 with a tenure of 5, no state of the random sources and no current
    year makes the birth date 1 January of the birth year plus 365
    days. *)
Lemma day_of_year_365_is_never_drawn :
  ~ exists (w w' : World) (b h : date),
      generate_dates_from_age_and_tenure [30] [5] w = Ok (([b], [h]), w')
      /\ date_jan1 (today_year w - 30) = Ok (b - 365).
Proof.
  intros (w & w' & b & h & Hrun & Hjan).
  apply generate_dates_Ok in Hrun as (_ & _ & Hall).
  destruct (Hall 0%nat b h eq_refl eq_refl)
    as (age & tenure & bd & hd & b0 & h0 & Hage & _ & Hbd & _ & Hb0 & _
        & Hb & _).
  injection Hage as <-. rewrite Hjan in Hb0. injection Hb0 as <-. lia.
Qed.

(** The days 364 and 1 are drawn, for one, by the state of [np.random]
    that [days_stream] builds for them. *)
Example day_of_year_364_is_drawn :
  (fun r => (r.1.1, r.1.2))
    <$> generate_dates_from_age_and_tenure [30] [5]
          {| rng := sample_stream; np_random := days_stream [(364, 1)];
             today_year := 2026 |}
  = Ok ([728659 + 364], [737791 + 1]).
Proof. vm_compute. reflexivity. Qed.

(** ** Frames and the view builder *)

Lemma mapM_result_Ok {A B} (f : A -> result B) (l : list A) (l' : list B) :
  mapM f l = Ok l' <-> Forall2 (fun x y => f x = Ok y) l l'.
Proof.
  revert l'. induction l as [|x l IH]; intros l'; cbn.
  - split.
    + intros [= <-]. constructor.
    + intros Hall. apply Forall2_nil_inv_l in Hall as ->. reflexivity.
  - split.
    + intros Hrun. apply bind_result_Ok in Hrun as (y & Hy & Hrun).
      apply bind_result_Ok in Hrun as (ys & Hys & [= <-]).
      constructor; [exact Hy | by apply IH].
    + intros Hall. apply Forall2_cons_inv_l in Hall as (y & ys & Hy & Hys & ->).
      rewrite Hy. cbn. apply IH in Hys. rewrite Hys. reflexivity.
Qed.

Lemma mapM_result_length {A B} (f : A -> result B) (l : list A) (l' : list B) :
  mapM f l = Ok l' -> length l' = length l.
Proof.
  intros Hrun. apply mapM_result_Ok, Forall2_length in Hrun. congruence.
Qed.

Lemma filter_none {A} (P : A -> Prop) `{forall x, Decision (P x)} (l : list A) :
  (forall x, x ∈ l -> ~ P x) -> filter P l = [].
Proof.
  induction l as [|x l IH]; intros Hnone; [reflexivity|].
  rewrite filter_cons_False by (apply Hnone; left).
  apply IH. intros y Hy. apply Hnone. by right.
Qed.

Lemma bind_result_Raise {A B} (m : result A) (f : A -> result B) (e : exn) :
  m ≫= f = Raise e -> m = Raise e \/ exists a, m = Ok a /\ f a = Raise e.
Proof.
  destruct m as [a|e']; cbn; [eauto|]. intros [= ->]. by left.
Qed.

Lemma mapM_result_Raise {A B} (f : A -> result B) (l : list A) (e : exn) :
  mapM f l = Raise e -> exists x, x ∈ l /\ f x = Raise e.
Proof.
  induction l as [|x l IH]; cbn; [discriminate|]. intros Hrun.
  apply bind_result_Raise in Hrun as [Hx | (y & _ & Hrun)].
  - exists x. split; [left | exact Hx].
  - apply bind_result_Raise in Hrun as [Hl | (ys & _ & Hrun)];
      [|discriminate].
    destruct (IH Hl) as (x' & Hx' & Hf). exists x'. split; [by right | exact Hf].
Qed.

Section FrameFacts.
Context `{Float64}.

Lemma index_of_lt (c : string) (cols : list string) (i : nat) :
  index_of c cols = Some i -> (i < length cols)%nat.
Proof.
  revert i. induction cols as [|c' cols IH]; intros i; cbn; [discriminate|].
  case_bool_decide.
  - intros [= <-]. lia.
  - destruct (index_of c cols) as [j|]; cbn; [|discriminate].
    intros [= <-]. specialize (IH j eq_refl). lia.
Qed.

Lemma index_of_Some_elem (c : string) (cols : list string) (i : nat) :
  index_of c cols = Some i -> cols !! i = Some c.
Proof.
  revert i. induction cols as [|c' cols IH]; intros i; cbn; [discriminate|].
  case_bool_decide as Hc.
  - intros [= <-]. cbn. by rewrite Hc.
  - destruct (index_of c cols) as [j|]; cbn; [|discriminate].
    intros [= <-]. cbn. by apply IH.
Qed.

Lemma index_of_None (c : string) (cols : list string) :
  index_of c cols = None <-> c ∉ cols.
Proof.
  induction cols as [|c' cols IH]; cbn.
  - split; [intros _; apply not_elem_of_nil | reflexivity].
  - case_bool_decide as Hc.
    + split; [discriminate|]. intros Hnot. exfalso. apply Hnot. subst. left.
    + rewrite not_elem_of_cons, <- IH.
      destruct (index_of c cols); cbn; split.
      * discriminate.
      * intros [_ ?]. discriminate.
      * intros _. split; [congruence | reflexivity].
      * reflexivity.
Qed.

(** A key that is unique on the right finds at most one partner. *)
Lemma partners_unique (ir : nat) (k : cell) (right_rows : list (list cell)) :
  NoDup (map (cell_at ir) right_rows) ->
  (length (partners ir k right_rows) <= 1)%nat.
Proof.
  unfold partners. induction right_rows as [|r rs IH]; [cbn; lia|].
  intros Hnd. cbn [map] in Hnd. apply NoDup_cons in Hnd as [Hnotin Hnd].
  rewrite filter_cons. destruct (decide _) as [Hk|Hk]; [|by apply IH].
  cbn [length]. assert (Hnone : filter (fun r0 => cell_at ir r0 = k) rs = []);
    [|rewrite Hnone; cbn; lia].
  apply filter_none. intros r' Hr' Hk'.
  apply Hnotin. rewrite Hk, <- Hk'. apply list_elem_of_fmap. eauto.
Qed.

Lemma join_row_length (wl wr il ir : nat) (right_rows : list (list cell))
    (l : list cell) :
  length (join_row wl wr il ir right_rows l)
  = Nat.max 1 (length (partners ir (cell_at il (resize wl CNull l)) right_rows)).
Proof.
  unfold join_row.
  destruct (partners _ _ _) as [|p ps]; cbn; [reflexivity|].
  by rewrite length_map.
Qed.

(** A left join on a key that is unique in the right frame keeps the
    number of rows of the left frame. *)
Lemma merge_left_row_count (left right df : DataFrame) (on rsuffix : string) :
  merge_left left right on rsuffix = Ok df ->
  unique_key on right ->
  length (rows df) = length (rows left).
Proof.
  unfold merge_left, unique_key, column_values.
  destruct (index_of on (columns left)) as [il|]; [|discriminate].
  destruct (index_of on (columns right)) as [ir|]; [|discriminate].
  intros [= <-] Hnd. cbn.
  induction (rows left) as [|l ls IH]; cbn; [reflexivity|].
  rewrite length_app, IH, join_row_length.
  pose proof (partners_unique ir
    (cell_at il (resize (length (columns left)) CNull l)) (rows right) Hnd).
  lia.
Qed.

Lemma merge_left_columns (left right df : DataFrame) (on rsuffix : string) :
  merge_left left right on rsuffix = Ok df ->
  exists il ir,
    index_of on (columns left) = Some il
    /\ index_of on (columns right) = Some ir
    /\ columns df =
         columns left ++
         map (fun c => if bool_decide (c ∈ columns left) then c +:+ rsuffix else c)
             (delete ir (columns right)).
Proof.
  unfold merge_left.
  destruct (index_of on (columns left)) as [il|]; [|discriminate].
  destruct (index_of on (columns right)) as [ir|]; [|discriminate].
  intros [= <-]. eauto.
Qed.

Lemma update_column_Ok (col : string) (f : cell -> result cell)
    (df df' : DataFrame) :
  update_column col f df = Ok df' ->
  columns df' = columns df
  /\ length (rows df') = length (rows df).
Proof.
  unfold update_column. destruct (index_of col (columns df)) as [i|].
  - intros Hrun. apply bind_result_Ok in Hrun as (rows' & Hrows & [= <-]).
    apply mapM_result_length in Hrows. auto.
  - intros [= <-]. auto.
Qed.

Context `{!Parsing}.

Lemma build_org_view_row_count
    (departments_df job_positions_df employees_df org_view : DataFrame) :
  _build_org_view departments_df job_positions_df employees_df = Ok org_view ->
  unique_key "job_position_id" job_positions_df ->
  unique_key "department_id" departments_df ->
  length (rows org_view) = length (rows employees_df).
Proof.
  unfold _build_org_view. intros Hrun Hpos Hdept.
  apply bind_result_Ok in Hrun as (v1 & Hv1 & Hrun).
  apply bind_result_Ok in Hrun as (v2 & Hv2 & Hrun).
  apply bind_result_Ok in Hrun as (v3 & Hv3 & Hrun).
  apply bind_result_Ok in Hrun as (v4 & Hv4 & Hrun).
  apply bind_result_Ok in Hrun as (v5 & Hv5 & Hrun).
  apply bind_result_Ok in Hrun as (v6 & Hv6 & Hrun).
  apply update_column_Ok in Hrun as [_ ->].
  apply update_column_Ok in Hv6 as [_ ->].
  apply update_column_Ok in Hv5 as [_ ->].
  apply update_column_Ok in Hv4 as [_ ->].
  apply update_column_Ok in Hv3 as [_ ->].
  rewrite (merge_left_row_count _ _ _ _ _ Hv2 Hdept).
  exact (merge_left_row_count _ _ _ _ _ Hv1 Hpos).
Qed.

(** C3. With [job_position_id] a unique key of the positions table and
    [department_id] a unique key of the departments table, the view the
    two left joins build has exactly as many rows as the employees
    table. *)
Theorem org_view_row_count
    (departments_df job_positions_df employees_df org_view : DataFrame) :
  _build_org_view departments_df job_positions_df employees_df = Ok org_view ->
  unique_key "job_position_id" job_positions_df ->
  unique_key "department_id" departments_df ->
  length (rows org_view) = length (rows employees_df).
Proof. apply build_org_view_row_count. Qed.

End FrameFacts.

Lemma sample_view_run_Ok : sample_view_run = Ok sample_view.
Proof.
  assert (Hok : is_ok sample_view_run = true) by (vm_compute; reflexivity).
  unfold sample_view.
  destruct sample_view_run as [v|e]; [reflexivity | discriminate].
Qed.

Lemma org_view_row_count_witness :
  length (rows sample_view) = length (rows (employees_frame sample_employees)).
Proof.
  apply (org_view_row_count (departments_frame sample_departments)
           (job_positions_frame sample_positions)
           (employees_frame sample_employees) sample_view).
  - exact sample_view_run_Ok.
  - unfold unique_key. apply (bool_decide_unpack _). vm_compute. exact I.
  - unfold unique_key. apply (bool_decide_unpack _). vm_compute. exact I.
Defined.

(** ** Cells through joins and casts *)

Section CellFacts.
Context `{Float64}.

Lemma cell_at_resize (n i : nat) (r : list cell) :
  (i < n)%nat -> cell_at i (resize n CNull r) = cell_at i r.
Proof.
  intros Hi. unfold cell_at.
  destruct (decide (i < length r)%nat) as [Hlt|Hge].
  - by rewrite lookup_resize.
  - rewrite lookup_resize_new by lia.
    rewrite (lookup_ge_None_2 r i) by lia. reflexivity.
Qed.

Lemma cell_at_app_l (i : nat) (l1 l2 : list cell) :
  (i < length l1)%nat -> cell_at i (l1 ++ l2) = cell_at i l1.
Proof. intros Hi. unfold cell_at. by rewrite lookup_app_l. Qed.

Lemma cell_at_insert_eq (i : nat) (v : cell) (l : list cell) :
  (i < length l)%nat -> cell_at i (<[i := v]> l) = v.
Proof. intros Hi. unfold cell_at. by rewrite list_lookup_insert_eq. Qed.

Lemma cell_at_insert_ne (i j : nat) (v : cell) (l : list cell) :
  i <> j -> cell_at i (<[j := v]> l) = cell_at i l.
Proof. intros Hne. unfold cell_at. by rewrite list_lookup_insert_ne. Qed.

Lemma index_of_app_l (c : string) (cols more : list string) (i : nat) :
  index_of c cols = Some i -> index_of c (cols ++ more) = Some i.
Proof.
  revert i. induction cols as [|c' cols IH]; intros i; cbn; [discriminate|].
  case_bool_decide; [done|].
  destruct (index_of c cols) as [j|]; cbn; [|discriminate].
  intros [= <-]. by rewrite (IH j eq_refl).
Qed.

Lemma index_of_inj (c c' : string) (cols : list string) (i : nat) :
  index_of c cols = Some i -> index_of c' cols = Some i -> c = c'.
Proof.
  intros Hc Hc'. apply index_of_Some_elem in Hc, Hc'. congruence.
Qed.

(** Every row of a join starts with a row of the left frame. *)
Lemma join_row_prefix (wl wr il ir : nat) (right_rows : list (list cell))
    (l r : list cell) :
  r ∈ join_row wl wr il ir right_rows l ->
  exists tail, r = resize wl CNull l ++ tail.
Proof.
  unfold join_row. destruct (partners _ _ _) as [|p ps].
  - intros Hr. apply list_elem_of_singleton in Hr. eauto.
  - intros Hr. apply list_elem_of_fmap in Hr as (q & -> & _). eauto.
Qed.

Lemma merge_left_rows (left right df : DataFrame) (on rsuffix : string) :
  merge_left left right on rsuffix = Ok df ->
  forall r, r ∈ rows df ->
    exists l, l ∈ rows left
              /\ forall i, (i < length (columns left))%nat ->
                           cell_at i r = cell_at i l.
Proof.
  unfold merge_left.
  destruct (index_of on (columns left)) as [il|]; [|discriminate].
  destruct (index_of on (columns right)) as [ir|]; [|discriminate].
  intros [= <-] r. cbn.
  induction (rows left) as [|l ls IH]; cbn; [by intros ?%elem_of_nil|].
  intros Hr. apply elem_of_app in Hr as [Hr|Hr].
  - apply join_row_prefix in Hr as [tail ->].
    exists l. split; [left|]. intros i Hi.
    rewrite cell_at_app_l by (rewrite length_resize; exact Hi).
    by apply cell_at_resize.
  - destruct (IH Hr) as (l' & Hl' & Hcells). exists l'. split; [by right | done].
Qed.

Lemma merge_left_returns (left right : DataFrame) (on rsuffix : string) :
  on ∈ columns left -> on ∈ columns right ->
  exists df, merge_left left right on rsuffix = Ok df.
Proof.
  intros Hl Hr. unfold merge_left.
  destruct (index_of on (columns left)) as [il|] eqn:Hil;
    [|by apply index_of_None in Hil].
  destruct (index_of on (columns right)) as [ir|] eqn:Hir;
    [|by apply index_of_None in Hir].
  eauto.
Qed.

(** A property of a left column survives the join. *)
Lemma merge_left_keeps (P : cell -> Prop) (left right df : DataFrame)
    (on rsuffix : string) (i : nat) :
  merge_left left right on rsuffix = Ok df ->
  (i < length (columns left))%nat ->
  Forall (fun r => P (cell_at i r)) (rows left) ->
  Forall (fun r => P (cell_at i r)) (rows df).
Proof.
  intros Hmerge Hi Hall. apply Forall_forall. intros r Hr.
  destruct (merge_left_rows _ _ _ _ _ Hmerge r Hr) as (l & Hl & Hcells).
  rewrite (Hcells i Hi). by apply (proj1 (Forall_forall _ _) Hall).
Qed.

Lemma update_column_rows (col : string) (f : cell -> result cell)
    (df df' : DataFrame) (j : nat) :
  update_column col f df = Ok df' ->
  index_of col (columns df) = Some j ->
  Forall2 (fun r r' => exists v, f (cell_at j r) = Ok v
                                 /\ r' = <[j := v]> (resize (length (columns df)) CNull r))
          (rows df) (rows df').
Proof.
  unfold update_column. intros Hrun Hj. rewrite Hj in Hrun.
  apply bind_result_Ok in Hrun as (rows' & Hrows & [= <-]). cbn.
  apply mapM_result_Ok in Hrows.
  eapply Forall2_impl; [exact Hrows|]. cbn. intros r r' Hr.
  apply bind_result_Ok in Hr as (v & Hv & [= <-]). eauto.
Qed.

(** A cast leaves the other columns as they are. *)
Lemma update_column_keeps (P : cell -> Prop) (col : string)
    (f : cell -> result cell) (df df' : DataFrame) (i : nat) :
  update_column col f df = Ok df' ->
  index_of col (columns df) <> Some i ->
  (i < length (columns df))%nat ->
  Forall (fun r => P (cell_at i r)) (rows df) ->
  Forall (fun r => P (cell_at i r)) (rows df').
Proof.
  intros Hrun Hne Hi Hall.
  destruct (index_of col (columns df)) as [j|] eqn:Hj.
  - pose proof (update_column_rows _ _ _ _ _ Hrun Hj) as Hrows.
    apply Forall_lookup_2. intros k r' Hr'.
    destruct (Forall2_lookup_r _ _ _ _ _ Hrows Hr') as (r & Hr & v & _ & ->).
    rewrite cell_at_insert_ne by congruence.
    rewrite cell_at_resize by exact Hi.
    exact (Forall_lookup_1 _ _ _ _ Hall Hr).
  - unfold update_column in Hrun. rewrite Hj in Hrun.
    injection Hrun as <-. exact Hall.
Qed.

(** A cast gives its column what every result of the cast has. *)
Lemma update_column_sets (P : cell -> Prop) (col : string)
    (f : cell -> result cell) (df df' : DataFrame) (i : nat) :
  update_column col f df = Ok df' ->
  index_of col (columns df) = Some i ->
  (forall c v, f c = Ok v -> P v) ->
  Forall (fun r => P (cell_at i r)) (rows df').
Proof.
  intros Hrun Hi HP.
  pose proof (update_column_rows _ _ _ _ _ Hrun Hi) as Hrows.
  apply Forall_lookup_2. intros k r' Hr'.
  destruct (Forall2_lookup_r _ _ _ _ _ Hrows Hr') as (r & Hr & v & Hv & ->).
  rewrite cell_at_insert_eq.
  - eapply HP, Hv.
  - rewrite length_resize. eapply index_of_lt, Hi.
Qed.

Lemma update_column_returns (col : string) (f : cell -> result cell)
    (df : DataFrame) :
  (forall i, index_of col (columns df) = Some i ->
             Forall (fun r => exists v, f (cell_at i r) = Ok v) (rows df)) ->
  exists df', update_column col f df = Ok df'.
Proof.
  intros Hall. unfold update_column.
  destruct (index_of col (columns df)) as [i|]; [|eauto].
  specialize (Hall i eq_refl).
  assert (Hrows : exists rows',
    mapM (fun r => v ← f (cell_at i r);
                   Ok (<[i := v]> (resize (length (columns df)) CNull r)))
         (rows df) = Ok rows').
  { induction Hall as [|r rs (v & Hv) _ (rows' & IH)]; cbn; [eauto|].
    rewrite Hv. cbn. rewrite IH. cbn. eauto. }
  destruct Hrows as (rows' & ->). cbn. eauto.
Qed.

End CellFacts.

(** ** What the view builder guarantees *)

Section BuildFacts.
Context `{Float64} `{!Parsing}.

Lemma astype_int_is_int (c v : cell) :
  astype_int c = Ok v -> is_int v = true.
Proof.
  destruct c as [z|x|s|d|]; cbn; try discriminate.
  - by intros [= <-].
  - destruct (to_int x); [by intros [= <-] | discriminate].
  - destruct (int_of_str s); [by intros [= <-] | discriminate].
Qed.

Lemma astype_float_round2_is_float (c v : cell) :
  astype_float_round2 c = Ok v -> is_float v = true.
Proof.
  destruct c as [z|x|s|d|]; cbn; try discriminate; try by intros [= <-].
  destruct (float_of_str s); [by intros [= <-] | discriminate].
Qed.

Lemma update_column_keeps_named (P : cell -> Prop) (col c : string)
    (f : cell -> result cell) (df df' : DataFrame) (i : nat) :
  update_column col f df = Ok df' ->
  col <> c ->
  index_of c (columns df) = Some i ->
  Forall (fun r => P (cell_at i r)) (rows df) ->
  Forall (fun r => P (cell_at i r)) (rows df').
Proof.
  intros Hrun Hne Hi. eapply update_column_keeps; [exact Hrun| |].
  - intros Hcol. apply Hne. eapply index_of_inj; eassumption.
  - eapply index_of_lt, Hi.
Qed.

(** The stages of [_build_org_view]. *)
Lemma build_org_view_stages
    (departments_df job_positions_df employees_df org_view : DataFrame) :
  _build_org_view departments_df job_positions_df employees_df = Ok org_view ->
  exists v1 v2 v3 v4 v5 v6,
    merge_left employees_df job_positions_df "job_position_id" "_job" = Ok v1
    /\ merge_left v1 departments_df "department_id" "_dept" = Ok v2
    /\ update_column "employee_id" astype_int v2 = Ok v3
    /\ update_column "department_id" astype_int v3 = Ok v4
    /\ update_column "job_position_id" astype_int v4 = Ok v5
    /\ update_column "salary" astype_float_round2 v5 = Ok v6
    /\ update_column "tenure_years" astype_float_round2 v6 = Ok org_view
    /\ columns v3 = columns v2 /\ columns v4 = columns v2
    /\ columns v5 = columns v2 /\ columns v6 = columns v2
    /\ columns org_view = columns v2.
Proof.
  unfold _build_org_view. intros Hrun.
  apply bind_result_Ok in Hrun as (v1 & Hv1 & Hrun).
  apply bind_result_Ok in Hrun as (v2 & Hv2 & Hrun).
  apply bind_result_Ok in Hrun as (v3 & Hv3 & Hrun).
  apply bind_result_Ok in Hrun as (v4 & Hv4 & Hrun).
  apply bind_result_Ok in Hrun as (v5 & Hv5 & Hrun).
  apply bind_result_Ok in Hrun as (v6 & Hv6 & Hrun).
  exists v1, v2, v3, v4, v5, v6.
  pose proof (update_column_Ok _ _ _ _ Hv3) as [Hc3 _].
  pose proof (update_column_Ok _ _ _ _ Hv4) as [Hc4 _].
  pose proof (update_column_Ok _ _ _ _ Hv5) as [Hc5 _].
  pose proof (update_column_Ok _ _ _ _ Hv6) as [Hc6 _].
  pose proof (update_column_Ok _ _ _ _ Hrun) as [Hc7 _].
  repeat split; try assumption; congruence.
Qed.

(** The casts: in the built view the three id columns hold integers and
    the salary and tenure columns hold floats, wherever the view has
    these columns. *)
Lemma build_org_view_casts
    (departments_df job_positions_df employees_df org_view : DataFrame) :
  _build_org_view departments_df job_positions_df employees_df = Ok org_view ->
  forall i,
    ((index_of "employee_id" (columns org_view) = Some i
      \/ index_of "department_id" (columns org_view) = Some i
      \/ index_of "job_position_id" (columns org_view) = Some i) ->
     Forall (fun r => is_int (cell_at i r) = true) (rows org_view))
    /\ ((index_of "salary" (columns org_view) = Some i
         \/ index_of "tenure_years" (columns org_view) = Some i) ->
        Forall (fun r => is_float (cell_at i r) = true) (rows org_view)).
Proof.
  intros Hrun.
  destruct (build_org_view_stages _ _ _ _ Hrun)
    as (v1 & v2 & v3 & v4 & v5 & v6 & _ & _ & Hv3 & Hv4 & Hv5 & Hv6 & Hv7
        & Hc3 & Hc4 & Hc5 & Hc6 & Hc7).
  intros i. rewrite Hc7. split.
  - intros [Hi | [Hi | Hi]].
    + eapply (update_column_keeps_named (fun c => is_int c = true) "tenure_years" "employee_id");
        [exact Hv7 | done | by rewrite Hc6 |].
      eapply (update_column_keeps_named (fun c => is_int c = true) "salary" "employee_id");
        [exact Hv6 | done | by rewrite Hc5 |].
      eapply (update_column_keeps_named (fun c => is_int c = true) "job_position_id" "employee_id");
        [exact Hv5 | done | by rewrite Hc4 |].
      eapply (update_column_keeps_named (fun c => is_int c = true) "department_id" "employee_id");
        [exact Hv4 | done | by rewrite Hc3 |].
      eapply (update_column_sets (fun c => is_int c = true));
        [exact Hv3 | exact Hi | apply astype_int_is_int].
    + eapply (update_column_keeps_named (fun c => is_int c = true) "tenure_years" "department_id");
        [exact Hv7 | done | by rewrite Hc6 |].
      eapply (update_column_keeps_named (fun c => is_int c = true) "salary" "department_id");
        [exact Hv6 | done | by rewrite Hc5 |].
      eapply (update_column_keeps_named (fun c => is_int c = true) "job_position_id" "department_id");
        [exact Hv5 | done | by rewrite Hc4 |].
      eapply (update_column_sets (fun c => is_int c = true));
        [exact Hv4 | by rewrite Hc3 | apply astype_int_is_int].
    + eapply (update_column_keeps_named (fun c => is_int c = true) "tenure_years" "job_position_id");
        [exact Hv7 | done | by rewrite Hc6 |].
      eapply (update_column_keeps_named (fun c => is_int c = true) "salary" "job_position_id");
        [exact Hv6 | done | by rewrite Hc5 |].
      eapply (update_column_sets (fun c => is_int c = true));
        [exact Hv5 | by rewrite Hc4 | apply astype_int_is_int].
  - intros [Hi | Hi].
    + eapply (update_column_keeps_named (fun c => is_float c = true) "tenure_years" "salary");
        [exact Hv7 | done | by rewrite Hc6 |].
      eapply (update_column_sets (fun c => is_float c = true));
        [exact Hv6 | by rewrite Hc5 | apply astype_float_round2_is_float].
    + eapply (update_column_sets (fun c => is_float c = true));
        [exact Hv7 | by rewrite Hc6 | apply astype_float_round2_is_float].
Qed.

(** A column of the employees table that no cast touches reaches the
    view as it is. *)
Lemma build_org_view_keeps (P : cell -> Prop) (c : string) (i : nat)
    (departments_df job_positions_df employees_df org_view : DataFrame) :
  _build_org_view departments_df job_positions_df employees_df = Ok org_view ->
  c ∉ ["employee_id"; "department_id"; "job_position_id"; "salary";
       "tenure_years"] ->
  index_of c (columns employees_df) = Some i ->
  Forall (fun r => P (cell_at i r)) (rows employees_df) ->
  index_of c (columns org_view) = Some i
  /\ Forall (fun r => P (cell_at i r)) (rows org_view).
Proof.
  intros Hrun Hc Hi Hall.
  destruct (build_org_view_stages _ _ _ _ Hrun)
    as (v1 & v2 & v3 & v4 & v5 & v6 & Hv1 & Hv2 & Hv3 & Hv4 & Hv5 & Hv6 & Hv7
        & Hc3 & Hc4 & Hc5 & Hc6 & Hc7).
  destruct (merge_left_columns _ _ _ _ _ Hv1) as (? & ? & _ & _ & Hcols1).
  destruct (merge_left_columns _ _ _ _ _ Hv2) as (? & ? & _ & _ & Hcols2).
  assert (Hi1 : index_of c (columns v1) = Some i)
    by (rewrite Hcols1; by apply index_of_app_l).
  assert (Hi2 : index_of c (columns v2) = Some i)
    by (rewrite Hcols2; by apply index_of_app_l).
  split; [by rewrite Hc7|].
  repeat (apply not_elem_of_cons in Hc as [? Hc]).
  eapply (update_column_keeps_named P "tenure_years" c);
    [exact Hv7 | done | by rewrite Hc6 |].
  eapply (update_column_keeps_named P "salary" c);
    [exact Hv6 | done | by rewrite Hc5 |].
  eapply (update_column_keeps_named P "job_position_id" c);
    [exact Hv5 | done | by rewrite Hc4 |].
  eapply (update_column_keeps_named P "department_id" c);
    [exact Hv4 | done | by rewrite Hc3 |].
  eapply (update_column_keeps_named P "employee_id" c);
    [exact Hv3 | done | exact Hi2 |].
  eapply (merge_left_keeps P); [exact Hv2 | eapply index_of_lt, Hi1 |].
  eapply (merge_left_keeps P); [exact Hv1 | eapply index_of_lt, Hi | exact Hall].
Qed.

End BuildFacts.

(** ** C4: listing employees *)

Lemma filter_filter_andb {A} (f g : A -> bool) (l : list A) :
  List.filter g (List.filter f l) = List.filter (fun x => f x && g x) l.
Proof.
  induction l as [|x l IH]; [reflexivity|]. cbn.
  destruct (f x); cbn; [destruct (g x)|]; by rewrite IH.
Qed.

Lemma mapM_result_map {A B} (f : A -> result B) (g : A -> B) (l : list A) :
  Forall (fun x => f x = Ok (g x)) l -> mapM f l = Ok (map g l).
Proof.
  induction 1 as [|x l Hx _ IH]; [reflexivity|].
  cbn. rewrite Hx. cbn. rewrite IH. reflexivity.
Qed.

Lemma mapM_result_returns {A B} (f : A -> result B) (l : list A) :
  Forall (fun x => exists y, f x = Ok y) l -> exists l', mapM f l = Ok l'.
Proof.
  induction 1 as [|x l (y & Hy) _ (l' & IH)]; [by eexists|].
  cbn. rewrite Hy. cbn. rewrite IH. by eexists.
Qed.




Lemma StronglySorted_map_snd {A} (key : A -> Z) (l : list (Z * A)) :
  StronglySorted (fun a b => fst a <= fst b) l ->
  Forall (fun p => fst p = key (snd p)) l ->
  StronglySorted (fun a b => key a <= key b) (map snd l).
Proof.
  induction 1 as [|p l _ IH Hall]; intros Hkeys; cbn; constructor.
  - apply IH. by apply Forall_cons in Hkeys as [_ ?].
  - apply Forall_cons in Hkeys as [Hp Hkeys].
    apply Forall_fmap, Forall_forall. intros q Hq. cbn.
    rewrite <- Hp, <- (proj1 (Forall_forall _ _) Hkeys q Hq).
    exact (proj1 (Forall_forall _ _) Hall q Hq).
Qed.

Lemma mapM_result_is_ok {A B} (f : A -> result B) (l : list A) :
  (exists ys, mapM f l = Ok ys) <-> Forall (fun x => exists y, f x = Ok y) l.
Proof.
  split.
  - intros (ys & Hrun). apply mapM_result_Ok in Hrun.
    induction Hrun; constructor; eauto.
  - apply mapM_result_returns.
Qed.

Lemma StronglySorted_impl {A} (R R' : A -> A -> Prop) (l : list A) :
  (forall a b, R a b -> R' a b) ->
  StronglySorted R l -> StronglySorted R' l.
Proof.
  intros Himpl. induction 1 as [|x l _ IH Hall]; constructor; [exact IH|].
  eapply Forall_impl; [exact Hall|]. cbn. auto.
Qed.


Section ListEmployees.
Context `{Float64} `{!Parsing} `{!Sorting} `{!Validation}.

Lemma filter_if_present_spec {V} (col : string) (v : option V)
    (test : V -> cell -> bool) (df : DataFrame) :
  columns (filter_if_present col v test df) = columns df
  /\ rows (filter_if_present col v test df)
     = List.filter
         (fun r => match v, index_of col (columns df) with
                   | Some x, Some i => test x (cell_at i r)
                   | _, _ => true
                   end)
         (rows df).
Proof.
  unfold filter_if_present.
  destruct v as [x|], (index_of col (columns df)) as [i|]; cbn;
    split; try reflexivity; by rewrite filter_true.
Qed.

Lemma filtered_view (view : DataFrame) (department_id : option Z)
    (job_level : option string) :
  let df := filter_if_present "job_level" job_level eq_str
              (filter_if_present "department_id" department_id eq_int view) in
  columns df = columns view
  /\ rows df
     = List.filter (survives (columns view) department_id job_level) (rows view).
Proof.
  cbn.
  destruct (filter_if_present_spec "department_id" department_id eq_int view)
    as [Hc1 Hr1].
  destruct (filter_if_present_spec "job_level" job_level eq_str
              (filter_if_present "department_id" department_id eq_int view))
    as [Hc2 Hr2].
  rewrite Hc2, Hc1. split; [reflexivity|].
  rewrite Hr2, Hr1, Hc1, filter_filter_andb. reflexivity.
Qed.

Lemma sort_values_Ok (col : string) (df : DataFrame) (i : nat) :
  index_of col (columns df) = Some i ->
  Forall (fun r => is_int (cell_at i r) = true) (rows df) ->
  exists sorted,
    sort_values col df = Ok {| columns := columns df; rows := sorted |}
    /\ Permutation sorted (rows df)
    /\ StronglySorted
         (fun a b => int_of_cell (cell_at i a) <= int_of_cell (cell_at i b))
         sorted.
Proof.
  intros Hi Hint. unfold sort_values. rewrite Hi.
  set (keyed := map (fun r => (int_of_cell (cell_at i r), r)) (rows df)).
  rewrite (mapM_result_map _ (fun r => (int_of_cell (cell_at i r), r))).
  2: { eapply Forall_impl; [exact Hint|]. cbn. intros r Hr.
       destruct (cell_at i r); try discriminate. reflexivity. }
  cbn. fold keyed. eexists. split; [reflexivity|].
  assert (Hsnd : map snd keyed = rows df).
  { unfold keyed. rewrite map_map. cbn. apply map_id. }
  split.
  - etransitivity; [apply Permutation_map, sort_by_perm|].
    by rewrite Hsnd.
  - apply StronglySorted_map_snd; [apply sort_by_sorted|].
    eapply Permutation_Forall; [symmetry; apply sort_by_perm|].
    unfold keyed. apply Forall_fmap, Forall_true. reflexivity.
Qed.


(** The fields of a record that was built. *)
Lemma employee_item_fields (cols : list string) (r : list cell)
    (item : EmployeeItem.t) :
  employee_item cols r = Ok item ->
  (row_get cols r "employee_id" ≫= (fun v => Some (py_int v))
   = Some (Ok (EmployeeItem.employee_id item)))
  /\ (row_get cols r "department_id" ≫= (fun v => Some (py_int v))
      = Some (Ok (EmployeeItem.department_id item)))
  /\ optional_str (row_get cols r "department_name")
     = Ok (EmployeeItem.department_name item)
  /\ optional_str (row_get cols r "job_title")
     = Ok (EmployeeItem.job_title item)
  /\ optional_str (row_get cols r "job_level")
     = Ok (EmployeeItem.job_level item).
Proof.
  unfold employee_item, new_EmployeeItem, row_getitem. intros Hrun.
  apply bind_result_Ok in Hrun as (x1 & Hx1 & Hrun).
  apply bind_result_Ok in Hrun as (x2 & Hx2 & Hrun).
  apply bind_result_Ok in Hrun as (x3 & _ & Hrun).
  apply bind_result_Ok in Hrun as (x4 & _ & Hrun).
  apply bind_result_Ok in Hrun as (x5 & _ & Hrun).
  apply bind_result_Ok in Hrun as (x6 & _ & Hrun).
  apply bind_result_Ok in Hrun as (n1 & Hn1 & Hrun).
  apply bind_result_Ok in Hrun as (n2 & Hn2 & Hrun).
  apply bind_result_Ok in Hrun as (n3 & Hn3 & Hrun).
  injection Hrun as <-. cbn.
  destruct (row_get cols r "employee_id") as [v1|]; [|discriminate].
  destruct (row_get cols r "department_id") as [v2|]; [|discriminate].
  cbn in *. rewrite Hx1, Hx2. auto.
Qed.

(** On a row of a built view a record is built exactly when the age
    converts and the optional texts pass the validation. *)
Lemma employee_item_typed (cols : list string) (r : list cell) :
  typed_row cols r = true ->
  (exists item, employee_item cols r = Ok item) <-> record_ok cols r = true.
Proof.
  unfold typed_row, record_ok, employee_item, new_EmployeeItem, row_getitem.
  intros Htyped. rewrite !andb_true_iff in Htyped.
  destruct Htyped as ((((Ht1 & Ht2) & Ht3) & Ht4) & Ht5).
  destruct (row_get cols r "employee_id") as [[z1| | | |]|]; try discriminate.
  destruct (row_get cols r "department_id") as [[z2| | | |]|]; try discriminate.
  destruct (row_get cols r "job_position_id") as [[z3| | | |]|]; try discriminate.
  destruct (row_get cols r "salary") as [[|x1| | |]|]; try discriminate;
    destruct (row_get cols r "tenure_years") as [[|x2| | |]|]; try discriminate;
    (destruct (row_get cols r "age") as [v|];
       [destruct (isna v); [|destruct (py_int v)]|]);
    destruct (optional_str (row_get cols r "department_name"));
    destruct (optional_str (row_get cols r "job_title"));
    destruct (optional_str (row_get cols r "job_level"));
    cbn;
    (split; [intros (item & Hitem); (reflexivity || discriminate)
            | intros Hok; (discriminate || eauto)]).
Qed.

(** What a record of a row of a built view holds. *)
Lemma employee_item_ids (cols : list string) (r : list cell)
    (item : EmployeeItem.t) :
  typed_row cols r = true ->
  employee_item cols r = Ok item ->
  EmployeeItem.employee_id item = employee_id_of cols r
  /\ EmployeeItem.department_id item
     = int_of_cell (default CNull (row_get cols r "department_id")).
Proof.
  intros Htyped Hitem.
  apply employee_item_fields in Hitem as (Hid & Hdept & _).
  unfold typed_row in Htyped. rewrite !andb_true_iff in Htyped.
  destruct Htyped as ((((Ht1 & Ht2) & _) & _) & _).
  unfold employee_id_of.
  destruct (row_get cols r "employee_id") as [[z1| | | |]|]; try discriminate.
  destruct (row_get cols r "department_id") as [[z2| | | |]|]; try discriminate.
  cbn in *. split; congruence.
Qed.

(** On a view whose rows are typed, the response is the records of the
    window of the sorted survivors. *)
Lemma list_employees_sorted (view : DataFrame)
    (department_id : option Z) (job_level : option string)
    (limit offset : nat) :
  "employee_id" ∈ columns view ->
  Forall (fun r => typed_row (columns view) r = true) (rows view) ->
  exists sorted,
    Permutation sorted
      (List.filter (survives (columns view) department_id job_level)
                   (rows view))
    /\ StronglySorted
         (fun a b => employee_id_of (columns view) a
                     <= employee_id_of (columns view) b) sorted
    /\ list_employees view department_id job_level limit offset
       = mapM (employee_item (columns view)) (take limit (drop offset sorted)).
Proof.
  intros Hcol Hrows.
  destruct (index_of "employee_id" (columns view)) as [ie|] eqn:Hie;
    [|by apply index_of_None in Hie].
  set (cols := columns view) in *.
  set (survivors := List.filter (survives cols department_id job_level)
                                (rows view)).
  destruct (filtered_view view department_id job_level) as [Hcols Hsurv].
  fold cols in Hcols, Hsurv. fold survivors in Hsurv.
  assert (Hkey : forall r, employee_id_of cols r = int_of_cell (cell_at ie r)).
  { intros r. unfold employee_id_of, row_get. by rewrite Hie. }
  assert (Hsurv_typed : Forall (fun r => typed_row cols r = true) survivors).
  { apply Forall_forall. intros r Hr.
    apply list_elem_of_In, filter_In in Hr as [Hr _].
    apply (proj1 (Forall_forall _ _) Hrows), list_elem_of_In, Hr. }
  destruct (sort_values_Ok "employee_id"
              (filter_if_present "job_level" job_level eq_str
                 (filter_if_present "department_id" department_id eq_int view))
              ie) as (sorted & Hsort & Hperm & Hsorted).
  { by rewrite Hcols. }
  { rewrite Hsurv. eapply Forall_impl; [exact Hsurv_typed|]. cbn.
    intros r Hr. unfold typed_row in Hr. rewrite !andb_true_iff in Hr.
    destruct Hr as ((((Hid & _) & _) & _) & _).
    unfold row_get in Hid. rewrite Hie in Hid. exact Hid. }
  rewrite Hcols in Hsort. rewrite Hsurv in Hperm.
  exists sorted. split; [exact Hperm|]. split.
  - eapply StronglySorted_impl; [|exact Hsorted]. cbn. intros a b.
    by rewrite !Hkey.
  - unfold list_employees. rewrite Hsort. reflexivity.
Qed.

End ListEmployees.

Section ListEmployeesSpec.
Context `{Float64} `{!Parsing} `{!Sorting} `{!Validation}.

(** A built view has the two join keys among its columns. *)
Lemma built_view_keys
    (departments_df job_positions_df employees_df org_view : DataFrame) :
  _build_org_view departments_df job_positions_df employees_df = Ok org_view ->
  "job_position_id" ∈ columns org_view /\ "department_id" ∈ columns org_view.
Proof.
  intros Hbuild.
  destruct (build_org_view_stages _ _ _ _ Hbuild)
    as (v1 & v2 & v3 & v4 & v5 & v6 & Hv1 & Hv2 & _ & _ & _ & _ & _
        & _ & _ & _ & _ & Hcols).
  destruct (merge_left_columns _ _ _ _ _ Hv1) as (il1 & ir1 & Hil1 & _ & Hc1).
  destruct (merge_left_columns _ _ _ _ _ Hv2) as (il2 & ir2 & Hil2 & _ & Hc2).
  rewrite Hcols, Hc2. split.
  - apply elem_of_app. left. rewrite Hc1. apply elem_of_app. left.
    eapply list_elem_of_lookup_2, index_of_Some_elem, Hil1.
  - apply elem_of_app. left.
    eapply list_elem_of_lookup_2, index_of_Some_elem, Hil2.
Qed.

(** The rows of a built view with an [employee_id] column are typed. *)
Lemma built_view_typed
    (departments_df job_positions_df employees_df org_view : DataFrame) :
  _build_org_view departments_df job_positions_df employees_df = Ok org_view ->
  "employee_id" ∈ columns org_view ->
  Forall (fun r => typed_row (columns org_view) r = true) (rows org_view).
Proof.
  intros Hbuild Hid.
  destruct (built_view_keys _ _ _ _ Hbuild) as [Hpos Hdept].
  destruct (index_of "employee_id" (columns org_view)) as [i1|] eqn:Hi1;
    [|by apply index_of_None in Hi1].
  destruct (index_of "department_id" (columns org_view)) as [i2|] eqn:Hi2;
    [|by apply index_of_None in Hi2].
  destruct (index_of "job_position_id" (columns org_view)) as [i3|] eqn:Hi3;
    [|by apply index_of_None in Hi3].
  pose proof (build_org_view_casts _ _ _ _ Hbuild) as Hcasts.
  pose proof (proj1 (Hcasts i1) (or_introl Hi1)) as Hc1.
  pose proof (proj1 (Hcasts i2) (or_intror (or_introl Hi2))) as Hc2.
  pose proof (proj1 (Hcasts i3) (or_intror (or_intror Hi3))) as Hc3.
  apply Forall_forall. intros r Hr.
  pose proof (proj1 (Forall_forall _ _) Hc1 r Hr) as Hr1.
  pose proof (proj1 (Forall_forall _ _) Hc2 r Hr) as Hr2.
  pose proof (proj1 (Forall_forall _ _) Hc3 r Hr) as Hr3.
  unfold typed_row, row_get. rewrite Hi1, Hi2, Hi3. cbn.
  rewrite Hr1, Hr2, Hr3. cbn.
  apply andb_true_iff. split.
  - destruct (index_of "salary" (columns org_view)) as [i4|] eqn:Hi4;
      [|reflexivity].
    cbn. exact (proj1 (Forall_forall _ _)
                  (proj2 (Hcasts i4) (or_introl eq_refl)) r Hr).
  - destruct (index_of "tenure_years" (columns org_view)) as [i5|] eqn:Hi5;
      [|reflexivity].
    cbn. exact (proj1 (Forall_forall _ _)
                  (proj2 (Hcasts i5) (or_intror eq_refl)) r Hr).
Qed.



End ListEmployeesSpec.



(** A missing age is no obstacle: of the same view the first record is
    returned when the window stops before the text, and the third,
    without an age, when it starts after it. *)
Example list_employees_missing_age :
  (map (fun item => (EmployeeItem.employee_id item, EmployeeItem.age item))
     <$> (odd_ages_view_run
          ≫= fun view => list_employees view None None 1 0)
   = Ok [(1, Some 40)])
  /\ (map (fun item => (EmployeeItem.employee_id item, EmployeeItem.age item))
        <$> (odd_ages_view_run
             ≫= fun view => list_employees view None None 100 2)
      = Ok [(3, None)]).
Proof. split; vm_compute; reflexivity. Qed.

(** ** C5: the salary summary *)

Section SalarySummary.
Context `{Float64} `{!Parsing} `{!Sorting}.

Lemma salary_cells_Ok (isal : nat) (g : list (list cell)) :
  Forall (fun r => is_float (cell_at isal r) = true) g ->
  mapM (fun r => to_float64 (cell_at isal r)) g
  = Ok (map (fun r => float_of_cell (cell_at isal r)) g).
Proof.
  intros Hg. apply mapM_result_map.
  eapply Forall_impl; [exact Hg|]. cbn. intros r Hr.
  destruct (cell_at isal r); try discriminate. reflexivity.
Qed.




Lemma salary_summary_Ok (view : DataFrame) (isal : nat) :
  index_of "salary" (columns view) = Some isal ->
  Forall (fun r => is_float (cell_at isal r) = true) (rows view) ->
  salary_summary view
  = Ok (SalarySummaryResponse.mk
          (py_round2 (fmean (salaries_of (columns view) (rows view))))
          (py_round2 (fmin (salaries_of (columns view) (rows view))))
          (py_round2 (fmax (salaries_of (columns view) (rows view))))
          (map (level_summary (columns view) (rows view))
               (sort_labels (fun k => [k])
                  (remove_dups (omap (job_level_of (columns view))
                                     (rows view)))))).
Proof.
  intros Hisal Hfloat.
  unfold salary_summary, level_summary, salaries_of, job_level_of, row_get,
    groupby.
  rewrite Hisal. cbn [mbind option_bind default].
  destruct (index_of "job_level" (columns view)) as [ilvl|].
  all: rewrite (salary_cells_Ok isal (rows view) Hfloat).
  all: rewrite (mapM_result_map _
    (fun kg : cell * list (list cell) =>
       SalaryLevelSummary.mk kg.1
         (np_round2 (fmean (map (fun r => float_of_cell (cell_at isal r)) kg.2)))
         (np_round2 (fmin (map (fun r => float_of_cell (cell_at isal r)) kg.2)))
         (np_round2 (fmax (map (fun r => float_of_cell (cell_at isal r)) kg.2)))
         (Z.of_nat (length kg.2)))).
  all: try (cbn; rewrite map_map; reflexivity).
  all: apply Forall_fmap, Forall_true; intros k; cbn.
  all: rewrite salary_cells_Ok; [reflexivity|].
  all: apply Forall_forall; intros r Hr;
    apply list_elem_of_filter in Hr as [_ Hr];
    exact (proj1 (Forall_forall _ _) Hfloat r Hr).
Qed.

End SalarySummary.

Section SalarySummarySpec.
Context `{Float64} `{!Parsing} `{!Sorting}.


End SalarySummarySpec.


(** The two outcomes on concrete views: without a [salary] column the
    500 error, with the column and no rows an empty response. *)
Example salary_summary_missing_column :
  salary_summary plain_view = Raise (HTTPException 500).
Proof. reflexivity. Qed.

Example salary_summary_no_rows :
  salary_summary
    ({| columns := ["employee_id"; "salary"]; rows := [] |}
       : @DataFrame exact_float)
  = Ok (SalarySummaryResponse.mk None None None []).
Proof. reflexivity. Qed.

(** ** C10: the view built from the generated tables *)

Section FactoryView.
Context `{Float64} `{!Parsing} `{!Sorting}.

Lemma bind_Ok {A B} (a : A) (f : A -> result B) : Ok a ≫= f = f a.
Proof. reflexivity. Qed.

(** A cast succeeds and keeps a row invariant when it does row by row. *)
Lemma update_column_inv (Inv : list cell -> Prop) (col : string)
    (f : cell -> result cell) (df : DataFrame) (j : nat) :
  index_of col (columns df) = Some j ->
  Forall Inv (rows df) ->
  (forall r, Inv r ->
     exists v, f (cell_at j r) = Ok v
               /\ Inv (<[j := v]> (resize (length (columns df)) CNull r))) ->
  exists df', update_column col f df = Ok df'
              /\ columns df' = columns df
              /\ Forall Inv (rows df').
Proof.
  intros Hj Hall Hstep.
  destruct (update_column_returns col f df) as (df' & Hrun).
  { intros i Hi. assert (i = j) as -> by congruence.
    eapply Forall_impl; [exact Hall|]. cbn. intros r Hr.
    destruct (Hstep r Hr) as (v & Hv & _). eauto. }
  exists df'. split; [exact Hrun|].
  split; [by apply update_column_Ok in Hrun as [? _]|].
  pose proof (update_column_rows _ _ _ _ _ Hrun Hj) as Hrows.
  apply Forall_lookup_2. intros k r' Hr'.
  destruct (Forall2_lookup_r _ _ _ _ _ Hrows Hr') as (r & Hr & v & Hv & ->).
  destruct (Hstep r (Forall_lookup_1 _ _ _ _ Hall Hr)) as (v' & Hv' & Hinv).
  congruence.
Qed.

(** A join keeps a row invariant that only reads left columns. *)
Lemma merge_left_inv (Inv : list cell -> Prop) (left right df : DataFrame)
    (on rsuffix : string) :
  merge_left left right on rsuffix = Ok df ->
  (forall l r, (forall i, (i < length (columns left))%nat ->
                          cell_at i r = cell_at i l) -> Inv l -> Inv r) ->
  Forall Inv (rows left) -> Forall Inv (rows df).
Proof.
  intros Hmerge Hlocal Hall. apply Forall_forall. intros r Hr.
  destruct (merge_left_rows _ _ _ _ _ Hmerge r Hr) as (l & Hl & Hcells).
  eapply Hlocal; [exact Hcells|].
  exact (proj1 (Forall_forall _ _) Hall l Hl).
Qed.

Lemma employee_cells_local (n : nat) (l r : list cell) :
  (11 <= n)%nat ->
  (forall i, (i < n)%nat -> cell_at i r = cell_at i l) ->
  employee_cells l = true -> employee_cells r = true.
Proof.
  intros Hn Hcells. unfold employee_cells.
  by rewrite !Hcells by lia.
Qed.

Lemma employee_cells_cast_int (j : nat) (r : list cell) :
  j ∈ [0; 3; 4]%nat ->
  employee_cells r = true ->
  exists v, astype_int (cell_at j r) = Ok v
            /\ employee_cells (<[j := v]> (resize 17 CNull r)) = true.
Proof.
  intros Hj Hr. unfold employee_cells in Hr. rewrite !andb_true_iff in Hr.
  destruct Hr as (((((Hc0 & Hc3) & Hc4) & Hc8) & Hc9) & Hc10).
  assert (Hint : is_int (cell_at j r) = true).
  { repeat (apply elem_of_cons in Hj as [-> | Hj]; [assumption|]).
    by apply elem_of_nil in Hj. }
  destruct (cell_at j r) as [z| | | |] eqn:Hcj; try discriminate.
  exists (CInt z). split; [reflexivity|].
  assert (Hsame : forall i, (i < 17)%nat ->
            cell_at i (<[j := CInt z]> (resize 17 CNull r)) = cell_at i r).
  { intros i Hi. destruct (decide (i = j)) as [-> | Hne].
    - rewrite cell_at_insert_eq, Hcj; [reflexivity|]. by rewrite length_resize.
    - rewrite cell_at_insert_ne by exact Hne. by apply cell_at_resize. }
  unfold employee_cells. rewrite !Hsame by lia.
  by rewrite Hc0, Hc3, Hc4, Hc8, Hc9, Hc10.
Qed.

Lemma employee_cells_cast_float (j : nat) (r : list cell) :
  j ∈ [9; 10]%nat ->
  employee_cells r = true ->
  exists v, astype_float_round2 (cell_at j r) = Ok v
            /\ employee_cells (<[j := v]> (resize 17 CNull r)) = true.
Proof.
  intros Hj Hr. unfold employee_cells in Hr. rewrite !andb_true_iff in Hr.
  destruct Hr as (((((Hc0 & Hc3) & Hc4) & Hc8) & Hc9) & Hc10).
  assert (Hnum : is_int (cell_at j r) || is_float (cell_at j r) = true).
  { repeat (apply elem_of_cons in Hj as [-> | Hj]);
      [assumption | by rewrite Hc10, orb_true_r | by apply elem_of_nil in Hj]. }
  assert (Hcast : exists x, astype_float_round2 (cell_at j r) = Ok (CFloat x)).
  { destruct (cell_at j r); try discriminate; cbn; eauto. }
  destruct Hcast as (x & Hcast). exists (CFloat x). split; [exact Hcast|].
  assert (Hother : forall i, (i < 17)%nat -> i <> j ->
            cell_at i (<[j := CFloat x]> (resize 17 CNull r)) = cell_at i r).
  { intros i Hi Hne. rewrite cell_at_insert_ne by exact Hne.
    by apply cell_at_resize. }
  assert (Hat : cell_at j (<[j := CFloat x]> (resize 17 CNull r)) = CFloat x).
  { apply cell_at_insert_eq. rewrite length_resize.
    repeat (apply elem_of_cons in Hj as [-> | Hj]); try lia.
    by apply elem_of_nil in Hj. }
  unfold employee_cells.
  repeat (apply elem_of_cons in Hj as [-> | Hj]);
    [| | by apply elem_of_nil in Hj].
  - rewrite Hat, !Hother by lia. by rewrite Hc0, Hc3, Hc4, Hc8, Hc10.
  - rewrite Hat, !Hother by lia. by rewrite Hc0, Hc3, Hc4, Hc8, Hc9.
Qed.

Lemma employees_frame_cells (employees : list Employee.t) :
  Forall (fun r => employee_cells r = true) (rows (employees_frame employees)).
Proof.
  destruct employees as [|e es]; [constructor|].
  unfold employees_frame, frame_of_records. cbn [rows].
  apply Forall_fmap, Forall_true. intros e'. reflexivity.
Qed.

(** The three generated tables always build a view; its columns are the
    employee columns, then the position and department columns that are
    not join keys, a position column that an employee column shadows
    getting the suffix "_job". *)
Lemma build_factory_view (departments : list Department.t)
    (job_positions : list JobPosition.t) (employees : list Employee.t) :
  departments <> [] -> job_positions <> [] -> employees <> [] ->
  exists org_view,
    _build_org_view (departments_frame departments)
      (job_positions_frame job_positions) (employees_frame employees)
    = Ok org_view
    /\ columns org_view = view_columns
    /\ Forall (fun r => employee_cells r = true) (rows org_view).
Proof.
  intros Hd Hp He.
  destruct departments as [|d ds]; [done|].
  destruct job_positions as [|p ps]; [done|].
  destruct employees as [|e es]; [done|].
  set (ddf := departments_frame (d :: ds)).
  set (pdf := job_positions_frame (p :: ps)).
  set (edf := employees_frame (e :: es)).
  assert (Hdc : columns ddf
    = ["department_id"; "department_name"; "department_type";
       "headcount_weight"]) by reflexivity.
  assert (Hpc : columns pdf
    = ["job_position_id"; "department_id"; "position_name";
       "seniority_level"]) by reflexivity.
  assert (Hec : columns edf
    = ["employee_id"; "first_name"; "last_name"; "department_id";
       "job_position_id"; "seniority_level"; "birth_date"; "hire_date";
       "age"; "tenure_years"; "salary"]) by reflexivity.
  pose proof (employees_frame_cells (e :: es)) as Hcells0. fold edf in Hcells0.
  destruct (merge_left_returns edf pdf "job_position_id" "_job") as [v1 Hv1].
  { rewrite Hec. repeat constructor. }
  { rewrite Hpc. repeat constructor. }
  destruct (merge_left_columns _ _ _ _ _ Hv1) as (il1 & ir1 & Hil1 & Hir1 & Hc1).
  rewrite Hec in Hil1. rewrite Hpc in Hir1. rewrite Hec, Hpc in Hc1.
  vm_compute in Hil1, Hir1. injection Hil1 as <-. injection Hir1 as <-.
  assert (Hc1' : columns v1 =
    ["employee_id"; "first_name"; "last_name"; "department_id";
     "job_position_id"; "seniority_level"; "birth_date"; "hire_date";
     "age"; "tenure_years"; "salary";
     "department_id_job"; "position_name"; "seniority_level_job"])
    by (rewrite Hc1; vm_compute; reflexivity).
  clear Hc1.
  assert (Hcells1 : Forall (fun r => employee_cells r = true) (rows v1)).
  { eapply (merge_left_inv (fun r => employee_cells r = true));
      [exact Hv1 | | exact Hcells0].
    intros l r Hlr. apply (employee_cells_local (length (columns edf)));
      [rewrite Hec; cbn; lia | exact Hlr]. }
  destruct (merge_left_returns v1 ddf "department_id" "_dept") as [v2 Hv2].
  { rewrite Hc1'. repeat constructor. }
  { rewrite Hdc. repeat constructor. }
  destruct (merge_left_columns _ _ _ _ _ Hv2) as (il2 & ir2 & Hil2 & Hir2 & Hc2).
  rewrite Hc1' in Hil2. rewrite Hdc in Hir2. rewrite Hc1', Hdc in Hc2.
  vm_compute in Hil2, Hir2. injection Hil2 as <-. injection Hir2 as <-.
  assert (Hc2' : columns v2 = view_columns)
    by (rewrite Hc2; vm_compute; reflexivity).
  clear Hc2.
  assert (Hcells2 : Forall (fun r => employee_cells r = true) (rows v2)).
  { eapply (merge_left_inv (fun r => employee_cells r = true));
      [exact Hv2 | | exact Hcells1].
    intros l r Hlr. apply (employee_cells_local (length (columns v1)));
      [rewrite Hc1'; cbn; lia | exact Hlr]. }
  assert (Hlen : length view_columns = 17%nat) by reflexivity.
  destruct (update_column_inv (fun r => employee_cells r = true)
              "employee_id" astype_int v2 0) as (v3 & Hv3 & Hc3 & Hcells3);
    [by rewrite Hc2' | exact Hcells2 | |].
  { intros r Hr. rewrite Hc2', Hlen.
    apply employee_cells_cast_int; [repeat constructor | exact Hr]. }
  rewrite Hc2' in Hc3.
  destruct (update_column_inv (fun r => employee_cells r = true)
              "department_id" astype_int v3 3) as (v4 & Hv4 & Hc4 & Hcells4);
    [by rewrite Hc3 | exact Hcells3 | |].
  { intros r Hr. rewrite Hc3, Hlen.
    apply employee_cells_cast_int; [repeat constructor | exact Hr]. }
  rewrite Hc3 in Hc4.
  destruct (update_column_inv (fun r => employee_cells r = true)
              "job_position_id" astype_int v4 4) as (v5 & Hv5 & Hc5 & Hcells5);
    [by rewrite Hc4 | exact Hcells4 | |].
  { intros r Hr. rewrite Hc4, Hlen.
    apply employee_cells_cast_int; [repeat constructor | exact Hr]. }
  rewrite Hc4 in Hc5.
  destruct (update_column_inv (fun r => employee_cells r = true)
              "salary" astype_float_round2 v5 10) as (v6 & Hv6 & Hc6 & Hcells6);
    [by rewrite Hc5 | exact Hcells5 | |].
  { intros r Hr. rewrite Hc5, Hlen.
    apply employee_cells_cast_float; [repeat constructor | exact Hr]. }
  rewrite Hc5 in Hc6.
  destruct (update_column_inv (fun r => employee_cells r = true)
              "tenure_years" astype_float_round2 v6 9) as (v7 & Hv7 & Hc7 & Hcells7);
    [by rewrite Hc6 | exact Hcells6 | |].
  { intros r Hr. rewrite Hc6, Hlen.
    apply employee_cells_cast_float; [repeat constructor | exact Hr]. }
  rewrite Hc6 in Hc7.
  exists v7. split; [|split; assumption].
  unfold _build_org_view. fold ddf pdf edf.
  rewrite Hv1, bind_Ok, Hv2, bind_Ok, Hv3, bind_Ok, Hv4, bind_Ok, Hv5,
    bind_Ok, Hv6, bind_Ok. exact Hv7.
Qed.

(** The rows a join makes of one left row. *)
Lemma merge_left_join (left right df : DataFrame) (on rsuffix : string)
    (il ir : nat) :
  merge_left left right on rsuffix = Ok df ->
  index_of on (columns left) = Some il ->
  index_of on (columns right) = Some ir ->
  forall r, r ∈ rows df ->
    exists l, l ∈ rows left
              /\ r ∈ join_row (length (columns left)) (length (columns right))
                              il ir (rows right) l.
Proof.
  unfold merge_left. intros Hmerge Hil Hir. rewrite Hil, Hir in Hmerge.
  injection Hmerge as <-. cbn. intros r Hr.
  apply list_elem_of_In, in_concat in Hr as (rs & Hrs & Hr).
  apply in_map_iff in Hrs as (l & <- & Hl).
  exists l. split; by apply list_elem_of_In.
Qed.

(** In the view built from generated tables every employee of a listed
    department has the name of that department, a text. *)
Lemma factory_view_department_name (departments : list Department.t)
    (job_positions : list JobPosition.t) (employees : list Employee.t)
    (org_view : DataFrame) :
  _build_org_view (departments_frame departments)
    (job_positions_frame job_positions) (employees_frame employees)
  = Ok org_view ->
  Forall (fun e => Employee.department_id e
                   ∈ map Department.department_id departments) employees ->
  columns org_view = view_columns ->
  Forall (fun r => exists s, cell_at 14 r = CStr s) (rows org_view).
Proof.
  intros Hbuild Hdepts Hcols.
  destruct (build_org_view_stages _ _ _ _ Hbuild)
    as (v1 & v2 & v3 & v4 & v5 & v6 & Hv1 & Hv2 & Hv3 & Hv4 & Hv5 & Hv6 & Hv7
        & Hc3 & Hc4 & Hc5 & Hc6 & Hc7).
  rewrite Hcols in Hc7. rewrite <- Hc7 in Hc3, Hc4, Hc5, Hc6.
  destruct employees as [|e es].
  { unfold merge_left in Hv1. cbn in Hv1. discriminate. }
  destruct departments as [|d ds].
  { apply Forall_inv in Hdepts. by apply elem_of_nil in Hdepts. }
  set (edf := employees_frame (e :: es)) in *.
  set (ddf := departments_frame (d :: ds)) in *.
  assert (Hec : columns edf
    = ["employee_id"; "first_name"; "last_name"; "department_id";
       "job_position_id"; "seniority_level"; "birth_date"; "hire_date";
       "age"; "tenure_years"; "salary"]) by reflexivity.
  assert (Hdc : columns ddf
    = ["department_id"; "department_name"; "department_type";
       "headcount_weight"]) by reflexivity.
  (* the first join keeps the department of the employee *)
  assert (Hrows1 : Forall (fun r => exists e', e' ∈ e :: es
                     /\ cell_at 3 r = CInt (Employee.department_id e'))
                          (rows v1)).
  { apply Forall_forall. intros r Hr.
    destruct (merge_left_rows _ _ _ _ _ Hv1 r Hr) as (l & Hl & Hcells).
    unfold edf, employees_frame, frame_of_records in Hl. cbn [rows] in Hl.
    apply list_elem_of_fmap in Hl as (e' & -> & He').
    exists e'. split; [exact He'|].
    rewrite Hcells by (rewrite Hec; cbn; lia). reflexivity. }
  (* the second join finds the department *)
  destruct (merge_left_columns _ _ _ _ _ Hv2) as (il2 & ir2 & Hil2 & Hir2 & Hc2).
  assert (Hlen1 : length (columns v1) = 14%nat).
  { apply (f_equal length) in Hc2. rewrite <- Hc7, length_app, length_map in Hc2.
    rewrite length_delete in Hc2
      by (apply lookup_lt_is_Some_2, (index_of_lt _ _ _ Hir2)).
    rewrite Hdc in Hc2. cbn in Hc2. lia. }
  assert (Hil2' : il2 = 3%nat).
  { pose proof (index_of_app_l _ _
       (map (fun c => if bool_decide (c ∈ columns v1)
                      then c +:+ "_dept" else c)
            (delete ir2 (columns ddf))) _ Hil2) as Hi.
    rewrite <- Hc2, <- Hc7 in Hi. vm_compute in Hi. congruence. }
  assert (Hir2' : ir2 = 0%nat).
  { rewrite Hdc in Hir2. vm_compute in Hir2. congruence. }
  subst il2 ir2.
  assert (Hrows2 : Forall (fun r => exists s, cell_at 14 r = CStr s) (rows v2)).
  { apply Forall_forall. intros r Hr.
    destruct (merge_left_join _ _ _ _ _ _ _ Hv2 Hil2 Hir2 r Hr)
      as (l & Hl & Hjoin).
    destruct (proj1 (Forall_forall _ _) Hrows1 l Hl) as (e' & He' & Hdept).
    pose proof (proj1 (Forall_forall _ _) Hdepts e' He') as Hin.
    apply list_elem_of_fmap in Hin as (d' & Hd' & Hin).
    rewrite Hlen1, Hdc in Hjoin. cbn [length] in Hjoin.
    unfold join_row in Hjoin.
    rewrite cell_at_resize, Hdept in Hjoin by lia.
    set (row_of := fun d0 : Department.t =>
           [ CInt (Department.department_id d0);
             CStr (Department.department_name d0);
             CStr (Department.department_type d0);
             CFloat (of_Q (Department.headcount_weight d0)) ]).
    assert (Hddf : rows ddf = map row_of (d :: ds)) by reflexivity.
    assert (Hpartner : row_of d' ∈ partners 0 (CInt (Employee.department_id e'))
                                     (rows ddf)).
    { unfold partners. apply list_elem_of_filter. split.
      - cbn. by rewrite Hd'.
      - rewrite Hddf. apply list_elem_of_fmap. eauto. }
    destruct (partners 0 (CInt (Employee.department_id e')) (rows ddf))
      as [|p ps] eqn:Hps; [by apply elem_of_nil in Hpartner|].
    apply list_elem_of_fmap in Hjoin as (q & -> & Hq).
    assert (Hq' : q ∈ rows ddf).
    { assert (Hqp : q ∈ partners 0 (CInt (Employee.department_id e'))
                              (rows ddf)) by (by rewrite Hps).
      unfold partners in Hqp. by apply list_elem_of_filter in Hqp as [_ ?]. }
    rewrite Hddf in Hq'. apply list_elem_of_fmap in Hq' as (d0 & -> & _).
    exists (Department.department_name d0).
    unfold cell_at. rewrite lookup_app_r by (rewrite length_resize; lia).
    rewrite length_resize. reflexivity. }
  (* the casts leave the column alone *)
  assert (Hidx : index_of "department_name" view_columns = Some 14%nat)
    by reflexivity.
  assert (Hrows3 : Forall (fun r => exists s, cell_at 14 r = CStr s) (rows v3)).
  { apply (update_column_keeps_named (fun c => exists s, c = CStr s)
             _ "department_name" _ _ _ 14%nat Hv3);
      [discriminate | by rewrite <- Hc7 | exact Hrows2]. }
  assert (Hrows4 : Forall (fun r => exists s, cell_at 14 r = CStr s) (rows v4)).
  { apply (update_column_keeps_named (fun c => exists s, c = CStr s)
             _ "department_name" _ _ _ 14%nat Hv4);
      [discriminate | by rewrite Hc3 | exact Hrows3]. }
  assert (Hrows5 : Forall (fun r => exists s, cell_at 14 r = CStr s) (rows v5)).
  { apply (update_column_keeps_named (fun c => exists s, c = CStr s)
             _ "department_name" _ _ _ 14%nat Hv5);
      [discriminate | by rewrite Hc4 | exact Hrows4]. }
  assert (Hrows6 : Forall (fun r => exists s, cell_at 14 r = CStr s) (rows v6)).
  { apply (update_column_keeps_named (fun c => exists s, c = CStr s)
             _ "department_name" _ _ _ 14%nat Hv6);
      [discriminate | by rewrite Hc5 | exact Hrows5]. }
  apply (update_column_keeps_named (fun c => exists s, c = CStr s)
           _ "department_name" _ _ _ 14%nat Hv7);
    [discriminate | by rewrite Hc6 | exact Hrows6].
Qed.

End FactoryView.

Lemma filter_all {A} (P : A -> Prop) `{forall x, Decision (P x)} (l : list A) :
  (forall x, P x) -> filter P l = l.
Proof.
  intros HP. induction l as [|x l IH]; [reflexivity|].
  rewrite filter_cons_True by apply HP. by rewrite IH.
Qed.

Lemma NoDup_all_equal {A} (a : A) (l : list A) :
  NoDup l -> l <> [] -> (forall x, x ∈ l -> x = a) -> l = [a].
Proof.
  intros Hnd Hne Hall. destruct l as [|x l]; [done|].
  rewrite (Hall x) by left. f_equal.
  destruct l as [|y l]; [reflexivity|]. exfalso.
  apply NoDup_cons in Hnd as [Hx _]. apply Hx.
  rewrite (Hall x) by left. rewrite (Hall y) by (right; left). left.
Qed.

Section FactoryViewSpec.
Context `{Float64} `{!Parsing} `{!Sorting} `{!Validation}.

Lemma filter_if_present_absent {V} (col : string) (v : option V)
    (test : V -> cell -> bool) (df : DataFrame) :
  col ∉ columns df -> filter_if_present col v test df = df.
Proof.
  intros Hcol. apply index_of_None in Hcol. unfold filter_if_present.
  rewrite Hcol. by destruct v.
Qed.

(** The optional text fields of a record are read with [row.get]. *)
(** Every row of the view built from generated tables gives a record:
    the age is an integer, the department name a text, and there is no
    title and no level to validate. *)
Lemma factory_view_record_ok (view : DataFrame) :
  columns view = view_columns ->
  Forall (fun r => employee_cells r = true) (rows view) ->
  Forall (fun r => exists s, cell_at 14 r = CStr s) (rows view) ->
  Forall (fun r => record_ok (columns view) r = true) (rows view).
Proof.
  intros Hcols Hcells Hnames. rewrite Hcols.
  apply Forall_forall. intros r Hr.
  pose proof (proj1 (Forall_forall _ _) Hcells r Hr) as Hc.
  destruct (proj1 (Forall_forall _ _) Hnames r Hr) as (s & Hs).
  unfold employee_cells in Hc. rewrite !andb_true_iff in Hc.
  destruct Hc as (((((_ & _) & _) & Hc8) & _) & _).
  unfold record_ok.
  change (row_get view_columns r "age") with (Some (cell_at 8 r)).
  change (row_get view_columns r "department_name")
    with (Some (cell_at 14 r)).
  change (row_get view_columns r "job_title") with (@None cell).
  change (row_get view_columns r "job_level") with (@None cell).
  rewrite Hs, optional_str_text, optional_str_None.
  destruct (cell_at 8 r); try discriminate. reflexivity.
Qed.

(** C10. The view built from the tables the three factories produce has
    the columns [view_columns]: the position's name and level arrive as
    [position_name] and [seniority_level_job], and there is no
    [job_title] and no [job_level] column.  So on that view a
    [job_level] filter of [list_employees] changes nothing, every record
    it returns has [job_title] and [job_level] null, and
    [salary_summary] reports the single group "N/A" holding all
    employees. *)
Theorem factory_view_has_no_job_level (n_employees : nat) (w w' : World)
    (employees : list Employee.t) :
  generate_employees generate_departments
    (generate_job_positions generate_departments) n_employees w
    = Ok (employees, w') ->
  (0 < n_employees)%nat ->
  exists org_view,
    _build_org_view (departments_frame generate_departments)
      (job_positions_frame (generate_job_positions generate_departments))
      (employees_frame employees) = Ok org_view
    /\ columns org_view = view_columns
    /\ ("job_title" ∉ columns org_view)
    /\ ("job_level" ∉ columns org_view)
    /\ ("position_name" ∈ columns org_view)
    /\ ("seniority_level_job" ∈ columns org_view)
    /\ length (rows org_view) = n_employees
    /\ (forall department_id job_level limit offset,
          list_employees org_view department_id (Some job_level) limit offset
          = list_employees org_view department_id None limit offset)
    /\ (forall department_id job_level limit offset,
          exists items,
            list_employees org_view department_id job_level limit offset
            = Ok items
            /\ Forall (fun item => EmployeeItem.job_title item = None
                                   /\ EmployeeItem.job_level item = None)
                      items)
    /\ exists resp level,
         salary_summary org_view = Ok resp
         /\ SalarySummaryResponse.levels resp = [level]
         /\ SalaryLevelSummary.job_level level = CStr "N/A"
         /\ SalaryLevelSummary.count level = Z.of_nat n_employees.
Proof.
  intros Hrun Hn.
  apply generate_employees_Ok in Hrun as [Hlen Hgen].
  destruct (build_factory_view generate_departments
              (generate_job_positions generate_departments) employees)
    as (view & Hbuild & Hcols & Hcells).
  { intros Heq. vm_compute in Heq. discriminate. }
  { intros Heq. vm_compute in Heq. discriminate. }
  { intros ->. cbn in Hlen. lia. }
  assert (Hf9 : Forall (fun r => is_float (cell_at 9 r) = true) (rows view)).
  { destruct (build_org_view_casts _ _ _ _ Hbuild 9%nat) as [_ Hf].
    apply Hf. right. by rewrite Hcols. }
  assert (Hf10 : Forall (fun r => is_float (cell_at 10 r) = true) (rows view)).
  { destruct (build_org_view_casts _ _ _ _ Hbuild 10%nat) as [_ Hf].
    apply Hf. left. by rewrite Hcols. }
  assert (Hid : "employee_id" ∈ columns view)
    by (rewrite Hcols; repeat constructor).
  pose proof (built_view_typed _ _ _ _ Hbuild Hid) as Htyped.
  assert (Hnames : Forall (fun r => exists s, cell_at 14 r = CStr s)
                          (rows view)).
  { apply (factory_view_department_name _ _ _ _ Hbuild); [|exact Hcols].
    apply Forall_lookup_2. intros i e He.
    destruct (Hgen i e He) as (_ & Hdept & _). exact Hdept. }
  pose proof (factory_view_record_ok view Hcols Hcells Hnames) as Hrecords.
  assert (Htitle : "job_title" ∉ columns view)
    by (rewrite Hcols; by apply index_of_None).
  assert (Hlevel : "job_level" ∉ columns view)
    by (rewrite Hcols; by apply index_of_None).
  assert (Hrows : length (rows view) = n_employees).
  { rewrite (build_org_view_row_count _ _ _ _ Hbuild).
    - rewrite <- Hlen. destruct employees; [reflexivity|].
      cbn. by rewrite length_map.
    - unfold unique_key. apply (bool_decide_unpack _). vm_compute. exact I.
    - unfold unique_key. apply (bool_decide_unpack _). vm_compute. exact I. }
  exists view. split; [exact Hbuild|]. split; [exact Hcols|].
  split; [exact Htitle|]. split; [exact Hlevel|].
  split; [rewrite Hcols; repeat constructor|].
  split; [rewrite Hcols; repeat constructor|].
  split; [exact Hrows|].
  split.
  { intros d lvl limit offset. unfold list_employees.
    rewrite (filter_if_present_absent "job_level" (Some lvl)).
    - rewrite (filter_if_present_absent "job_level" None); [reflexivity|].
      by rewrite (proj1 (filter_if_present_spec "department_id" d eq_int view)).
    - by rewrite (proj1 (filter_if_present_spec "department_id" d eq_int view)). }
  split.
  { intros d lvl limit offset.
    destruct (list_employees_sorted view d lvl limit offset Hid Htyped)
      as (sorted & Hperm & _ & Hresp).
    assert (Hwindow : Forall (fun r => record_ok (columns view) r = true)
                             (take limit (drop offset sorted))).
    { apply Forall_take, Forall_drop.
      eapply Permutation_Forall; [symmetry; exact Hperm|].
      apply Forall_forall. intros r Hr.
      apply list_elem_of_In, filter_In in Hr as [Hr _].
      apply (proj1 (Forall_forall _ _) Hrecords), list_elem_of_In, Hr. }
    assert (Hwindow_typed :
      Forall (fun r => typed_row (columns view) r = true)
             (take limit (drop offset sorted))).
    { apply Forall_take, Forall_drop.
      eapply Permutation_Forall; [symmetry; exact Hperm|].
      apply Forall_forall. intros r Hr.
      apply list_elem_of_In, filter_In in Hr as [Hr _].
      apply (proj1 (Forall_forall _ _) Htyped), list_elem_of_In, Hr. }
    destruct (proj2 (mapM_result_is_ok (employee_item (columns view))
                       (take limit (drop offset sorted)))) as (items & Hitems).
    { apply Forall_forall. intros r Hr.
      apply employee_item_typed;
        [exact (proj1 (Forall_forall _ _) Hwindow_typed r Hr)|].
      exact (proj1 (Forall_forall _ _) Hwindow r Hr). }
    exists items. split; [by rewrite Hresp|].
    apply mapM_result_Ok in Hitems.
    apply Forall_lookup_2. intros k item Hk.
    destruct (Forall2_lookup_r _ _ _ _ _ Hitems Hk) as (r & _ & Hitem).
    apply employee_item_fields in Hitem as (_ & _ & _ & Ht & Hl).
    unfold row_get in Ht, Hl. apply index_of_None in Htitle, Hlevel.
    rewrite Htitle in Ht. rewrite Hlevel in Hl. cbn in Ht, Hl.
    rewrite optional_str_None in Ht, Hl. split; congruence. }
  assert (Hisal : index_of "salary" (columns view) = Some 10%nat)
    by (by rewrite Hcols).
  assert (Hkey : forall r, job_level_of (columns view) r = Some (CStr "N/A")).
  { intros r. unfold job_level_of. apply index_of_None in Hlevel.
    by rewrite Hlevel. }
  assert (Hdistinct :
    remove_dups (omap (job_level_of (columns view)) (rows view))
    = [CStr "N/A"]).
  { apply NoDup_all_equal.
    - apply NoDup_remove_dups.
    - destruct (rows view) as [|r rs] eqn:Hr; [cbn in Hrows; lia|].
      cbn [omap list_omap]. rewrite Hkey. intros Heq.
      assert (Hin : CStr "N/A" ∈ remove_dups
                      (CStr "N/A" :: omap (job_level_of (columns view)) rs))
        by (apply elem_of_remove_dups; left).
      rewrite Heq in Hin. by apply elem_of_nil in Hin.
    - intros x Hx. apply elem_of_remove_dups, list_elem_of_omap in Hx
        as (r & _ & Hx). rewrite Hkey in Hx. congruence. }
  assert (Hlabels :
    sort_labels (fun k : cell => [k])
      (remove_dups (omap (job_level_of (columns view)) (rows view)))
    = [CStr "N/A"]).
  { rewrite Hdistinct. apply Permutation_singleton_r, sort_labels_perm. }
  eexists _, (level_summary (columns view) (rows view) (CStr "N/A")).
  split; [exact (salary_summary_Ok view 10 Hisal Hf10)|].
  cbn [SalarySummaryResponse.levels]. rewrite Hlabels.
  split; [reflexivity|]. split; [reflexivity|].
  cbn. rewrite filter_all by exact Hkey. by rewrite Hrows.
Qed.

End FactoryViewSpec.

Lemma factory_run_Ok :
  generate_employees generate_departments
    (generate_job_positions generate_departments) 2 sample_world
  = Ok (factory_employees, factory_world_after).
Proof.
  unfold factory_employees, factory_world_after, factory_run.
  assert (Hok : is_ok (generate_employees generate_departments
    (generate_job_positions generate_departments) 2 sample_world) = true)
    by (vm_compute; reflexivity).
  destruct (generate_employees _ _ _ _) as [[es w]|e];
    [reflexivity | discriminate].
Qed.

Lemma factory_view_has_no_job_level_witness :
  exists org_view,
    _build_org_view (departments_frame generate_departments)
      (job_positions_frame (generate_job_positions generate_departments))
      (employees_frame factory_employees) = Ok org_view
    /\ columns org_view = view_columns
    /\ ("job_title" ∉ columns org_view)
    /\ ("job_level" ∉ columns org_view)
    /\ ("position_name" ∈ columns org_view)
    /\ ("seniority_level_job" ∈ columns org_view)
    /\ length (rows org_view) = 2%nat
    /\ (forall department_id job_level limit offset,
          list_employees org_view department_id (Some job_level) limit offset
          = list_employees org_view department_id None limit offset)
    /\ (forall department_id job_level limit offset,
          exists items,
            list_employees org_view department_id job_level limit offset
            = Ok items
            /\ Forall (fun item => EmployeeItem.job_title item = None
                                   /\ EmployeeItem.job_level item = None)
                      items)
    /\ exists resp level,
         salary_summary org_view = Ok resp
         /\ SalarySummaryResponse.levels resp = [level]
         /\ SalaryLevelSummary.job_level level = CStr "N/A"
         /\ SalaryLevelSummary.count level = Z.of_nat 2.
Proof.
  apply (factory_view_has_no_job_level 2 sample_world factory_world_after
           factory_employees).
  - exact factory_run_Ok.
  - lia.
Defined.

(** ** Further properties of the generator *)

Lemma days_in_month_bounds (year month : Z) :
  1 <= month <= 12 -> 28 <= _days_in_month year month <= 31.
Proof.
  intros Hm. unfold _days_in_month.
  destruct (bool_decide (month = 2) && _is_leap year); [lia|].
  assert (Hcases : month = 1 \/ month = 2 \/ month = 3 \/ month = 4
                   \/ month = 5 \/ month = 6 \/ month = 7 \/ month = 8
                   \/ month = 9 \/ month = 10 \/ month = 11 \/ month = 12)
    by lia.
  repeat (destruct Hcases as [-> | Hcases];
          [vm_compute; split; discriminate|]).
  subst. vm_compute. split; discriminate.
Qed.

(** In another year a month keeps its length, February apart. *)
Lemma days_in_month_year (year year' month : Z) :
  month <> 2 -> _days_in_month year' month = _days_in_month year month.
Proof.
  intros Hm. unfold _days_in_month.
  by rewrite (bool_decide_eq_false_2 _ Hm).
Qed.

Lemma days_in_february (year : Z) :
  _days_in_month year 2 = if _is_leap year then 29 else 28.
Proof. unfold _days_in_month. by destruct (_is_leap year). Qed.

(** [safe_add_years] on a date of the calendar.  When the target year
    lies within the years a date can have, it returns the same month
    and day in that year, except that 29 February becomes 28 February
    when the target year is not a leap year; the result is again a date
    of the calendar.  A target year outside those years raises
    [ValueError] (the fallback of the [except] branch fails the same
    way), and [OverflowError] when it does not even fit a C [int]. *)
Theorem safe_add_years_spec (d : Date.t) (years : Z) :
  valid_date d ->
  (MINYEAR <= Date.year d + years <= MAXYEAR ->
   exists r,
     safe_add_years d years = Ok r
     /\ valid_date r
     /\ Date.year r = Date.year d + years
     /\ Date.month r = Date.month d
     /\ Date.day r
        = (if bool_decide (Date.month d = 2 /\ Date.day d = 29)
              && negb (_is_leap (Date.year d + years))
           then 28 else Date.day d))
  /\ (~ MINYEAR <= Date.year d + years <= MAXYEAR ->
      safe_add_years d years
      = Raise (if bool_decide (- 2 ^ 31 <= Date.year d + years < 2 ^ 31)
               then ValueError else OverflowError)).
Proof.
  intros (Hy & Hm & Hd).
  pose proof (days_in_month_bounds (Date.year d) (Date.month d) Hm) as Hdim.
  unfold MINYEAR, MAXYEAR in *.
  assert (Hfits : forall y, - 2 ^ 31 <= y < 2 ^ 31 ->
            forallb (fun n => bool_decide (- 2 ^ 31 <= n < 2 ^ 31))
                    [y; Date.month d; Date.day d] = true).
  { intros y Hfit. cbn. rewrite !bool_decide_eq_true_2 by lia. reflexivity. }
  split.
  - intros Hty. unfold safe_add_years, date_replace. cbn [default from_option id].
    rewrite Hfits by lia. cbn [negb].
    rewrite (bool_decide_eq_true_2 (MINYEAR <= _ <= MAXYEAR))
      by (unfold MINYEAR, MAXYEAR; lia).
    rewrite (bool_decide_eq_true_2 (1 <= Date.month d <= 12)) by lia.
    cbn [andb].
    destruct (decide (Date.month d = 2 /\ Date.day d = 29)) as [[Hfeb H29]|Hnot].
    + rewrite Hfeb, H29, days_in_february.
      rewrite (bool_decide_eq_true_2 (2 = 2 /\ 29 = 29)) by done. cbn [andb].
      destruct (_is_leap (Date.year d + years)) eqn:Hleap; cbn [negb].
      * rewrite bool_decide_eq_true_2 by lia.
        eexists. split; [reflexivity|].
        unfold valid_date, MINYEAR, MAXYEAR.
        cbn [Date.year Date.month Date.day].
        rewrite ?days_in_february, ?Hleap. repeat split; lia.
      * rewrite bool_decide_eq_false_2 by lia.
        cbn [forallb andb negb]. rewrite ?days_in_february, ?Hleap.
        repeat (rewrite bool_decide_eq_true_2 by lia). cbn [andb negb].
        eexists. split; [reflexivity|].
        unfold valid_date, MINYEAR, MAXYEAR.
        cbn [Date.year Date.month Date.day].
        rewrite ?days_in_february, ?Hleap. repeat split; lia.
    + rewrite (bool_decide_eq_false_2 (Date.month d = 2 /\ Date.day d = 29))
        by exact Hnot.
      cbn [andb].
      assert (Hkeep : 1 <= Date.day d
                      <= _days_in_month (Date.year d + years) (Date.month d)).
      { destruct (decide (Date.month d = 2)) as [Hfeb|Hne].
        - rewrite Hfeb in Hd |- *. rewrite days_in_february in Hd |- *.
          destruct (_is_leap (Date.year d)), (_is_leap (Date.year d + years));
            lia.
        - by rewrite (days_in_month_year (Date.year d)). }
      rewrite bool_decide_eq_true_2 by exact Hkeep.
      eexists. split; [reflexivity|].
      unfold valid_date, MINYEAR, MAXYEAR.
      cbn [Date.year Date.month Date.day]. repeat split; lia.
  - intros Hty. unfold safe_add_years, date_replace. cbn [default from_option id].
    destruct (decide (- 2 ^ 31 <= Date.year d + years < 2 ^ 31))
      as [Hfit|Hfit].
    + rewrite (bool_decide_eq_true_2 _ Hfit).
      rewrite !Hfits by exact Hfit. cbn [negb].
      rewrite (bool_decide_eq_false_2 (MINYEAR <= _ <= MAXYEAR))
        by (unfold MINYEAR, MAXYEAR; lia).
      cbn [andb forallb].
      repeat (rewrite bool_decide_eq_true_2 by lia). reflexivity.
    + cbn [forallb]. rewrite !(bool_decide_eq_false_2 _ Hfit). reflexivity.
Qed.

Lemma safe_add_years_spec_witness :
  (MINYEAR <= 2024 + 1 <= MAXYEAR ->
   exists r,
     safe_add_years (Date.mk 2024 2 29) 1 = Ok r
     /\ valid_date r
     /\ Date.year r = 2024 + 1
     /\ Date.month r = 2
     /\ Date.day r
        = (if bool_decide (2 = 2 /\ 29 = 29) && negb (_is_leap (2024 + 1))
           then 28 else 29))
  /\ (~ MINYEAR <= 2024 + 1 <= MAXYEAR ->
      safe_add_years (Date.mk 2024 2 29) 1
      = Raise (if bool_decide (- 2 ^ 31 <= 2024 + 1 < 2 ^ 31)
               then ValueError else OverflowError)).
Proof.
  apply (safe_add_years_spec (Date.mk 2024 2 29) 1).
  unfold valid_date. cbn. vm_compute. intuition discriminate.
Defined.

(** 29 February 2024 plus one year is 28 February 2025, plus four years
    29 February 2028; ten thousand years later there is no date. *)
Example safe_add_years_leap_day :
  safe_add_years (Date.mk 2024 2 29) 1 = Ok (Date.mk 2025 2 28)
  /\ safe_add_years (Date.mk 2024 2 29) 4 = Ok (Date.mk 2028 2 29)
  /\ safe_add_years (Date.mk 2024 2 29) 10000 = Raise ValueError.
Proof. repeat split; vm_compute; reflexivity. Qed.

(** The loop of [generate_dates_from_age_and_tenure] raises nothing when
    every year it builds a date in is a year of the calendar, whatever
    the state of [np.random]. *)
Lemma dates_loop_returns (today : Z) (ages tenure_years : list Z)
    (r : Generator) (idx : list nat) :
  Forall
    (fun i =>
       exists age tenure b0 h0,
         ages !! i = Some age /\ tenure_years !! i = Some tenure
         /\ date_jan1 (today - age) = Ok b0
         /\ date_jan1 (today - tenure) = Ok h0
         /\ today - age + 19 <= MAXYEAR)
    idx ->
  forall g : Generator,
    exists dates w1,
      for_each
        (fun i =>
           age ← lift (getitem ages i);
           tenure ← lift (getitem tenure_years i);
           birth_day_of_year ← with_np_random (np_random_randint 1 365);
           hire_day_of_year ← with_np_random (np_random_randint 1 365);
           lift (dates_of_days today age tenure
                   birth_day_of_year hire_day_of_year))
        idx {| rng := r; np_random := g; today_year := today |}
      = Ok (dates, w1)
      /\ length dates = length idx
      /\ rng w1 = r /\ today_year w1 = today.
Proof.
  induction 1 as [|i idx Hi _ IH]; intros g.
  - eexists [], _. split; [reflexivity|]. auto.
  - destruct Hi as (age & tenure & b0 & h0 & Hage & Hten & Hb0 & Hh0 & Hroom).
    destruct (np_random_randint_returns 1 365 g) as (bd & g1 & Hbd); [lia|].
    destruct (np_random_randint_returns 1 365 g1) as (hd & g2 & Hhd); [lia|].
    pose proof (np_random_randint_Ok _ _ _ _ _ Hbd) as Hbd_range.
    pose proof (np_random_randint_Ok _ _ _ _ _ Hhd) as Hhd_range.
    destruct (IH g2) as (dates & w1 & Hrun & Hlen & Hrng & Htoday).
    eexists (_ :: dates), w1. split; [|cbn; auto].
    cbn [for_each]. unfold mbind at 1, M_bind at 1.
    unfold mbind at 1, M_bind at 1. unfold lift at 1, getitem at 1.
    rewrite Hage.
    unfold mbind at 1, M_bind at 1. unfold lift at 1, getitem at 1.
    rewrite Hten.
    unfold mbind at 1, M_bind at 1. unfold with_np_random at 1.
    cbn [np_random rng today_year]. rewrite Hbd. cbn [mbind result_bind].
    unfold mbind at 1, M_bind at 1. unfold with_np_random at 1.
    cbn [np_random rng today_year]. rewrite Hhd. cbn [mbind result_bind].
    rewrite (dates_of_days_returns today age tenure bd hd b0 h0)
      by (assumption || lia).
    unfold lift at 1.
    unfold mbind at 1, M_bind at 1. rewrite Hrun. reflexivity.
Qed.

(** [generate_dates_from_age_and_tenure] returns when there is a tenure
    for every age and the years are years of the calendar: every birth
    year at least [MINYEAR] and, for the 18 years added to the birth
    date, at most [MAXYEAR - 19], every hire year between [MINYEAR] and
    [MAXYEAR].  It returns one birth date and one hire date for every
    age and leaves the seeded generator and the current year alone. *)
Theorem generate_dates_returns (ages tenure_years : list Z) (w : World) :
  (length ages <= length tenure_years)%nat ->
  Forall (fun age => MINYEAR <= today_year w - age
                     /\ today_year w - age + 19 <= MAXYEAR) ages ->
  Forall (fun tenure => MINYEAR <= today_year w - tenure <= MAXYEAR)
         (take (length ages) tenure_years) ->
  exists birth_dates hire_dates w',
    generate_dates_from_age_and_tenure ages tenure_years w
    = Ok ((birth_dates, hire_dates), w')
    /\ length birth_dates = length ages
    /\ length hire_dates = length ages
    /\ rng w' = rng w /\ today_year w' = today_year w.
Proof.
  intros Hlen Hages Htenures.
  destruct (dates_loop_returns (today_year w) ages tenure_years (rng w)
              (seq 0 (length ages))) with (g := np_random w)
    as (dates & w1 & Hrun & Hdlen & Hrng & Htoday).
  { apply Forall_forall. intros i Hi.
    apply elem_of_seq in Hi as [_ Hi]. cbn in Hi.
    destruct (lookup_lt_is_Some_2 ages i Hi) as [age Hage].
    destruct (lookup_lt_is_Some_2 tenure_years i) as [tenure Hten]; [lia|].
    pose proof (Forall_lookup_1 _ _ _ _ Hages Hage) as [Ha1 Ha2].
    assert (Hten' : take (length ages) tenure_years !! i = Some tenure)
      by (by rewrite lookup_take_lt).
    pose proof (Forall_lookup_1 _ _ _ _ Htenures Hten') as Ht. cbn in Ht.
    exists age, tenure, (_days_before_year (today_year w - age) + 1),
      (_days_before_year (today_year w - tenure) + 1).
    unfold date_jan1. rewrite !bool_decide_eq_true_2 by (unfold MAXYEAR in *; lia).
    auto. }
  exists (map fst dates), (map snd dates), w1.
  split.
  - unfold generate_dates_from_age_and_tenure.
    unfold mbind at 1, M_bind at 1. unfold date_today_year at 1.
    destruct w as [r g t]. cbn [today_year rng np_random] in *.
    unfold mbind at 1, M_bind at 1. rewrite Hrun. reflexivity.
  - rewrite !length_map, Hdlen, length_seq. auto.
Qed.

Lemma generate_dates_returns_witness :
  exists birth_dates hire_dates w',
    generate_dates_from_age_and_tenure [30; 22] [5; 10] sample_world
    = Ok ((birth_dates, hire_dates), w')
    /\ length birth_dates = length [30; 22]
    /\ length hire_dates = length [30; 22]
    /\ rng w' = rng sample_world /\ today_year w' = today_year sample_world.
Proof.
  apply (generate_dates_returns [30; 22] [5; 10] sample_world).
  - cbn. lia.
  - repeat constructor; vm_compute; discriminate.
  - repeat constructor; vm_compute; discriminate.
Defined.

(** The employees of [generate_employees] are numbered 1, 2, ... in the
    order they are generated, so no two share an [employee_id]; each
    belongs to one of the departments given and has one of the five
    seniority levels. *)
Theorem generate_employees_ids (departments_df : list Department.t)
    (job_positions_df : list JobPosition.t) (n_employees : nat)
    (w w' : World) (employees : list Employee.t) :
  generate_employees departments_df job_positions_df n_employees w
    = Ok (employees, w') ->
  length employees = n_employees
  /\ map Employee.employee_id employees
     = map (fun i => Z.of_nat i + 1) (seq 0 n_employees)
  /\ NoDup (map Employee.employee_id employees)
  /\ Forall
       (fun e =>
          Employee.department_id e
            ∈ map Department.department_id departments_df
          /\ Employee.seniority_level e
             ∈ ["Junior"; "SemiSenior"; "Senior"; "Lead"; "Manager"])
       employees.
Proof.
  intros Hrun. apply generate_employees_Ok in Hrun as [Hlen Hall].
  assert (Hids : map Employee.employee_id employees
                 = map (fun i => Z.of_nat i + 1) (seq 0 n_employees)).
  { apply list_eq. intros i.
    change (map Employee.employee_id employees)
      with (Employee.employee_id <$> employees).
    change (map (fun i => Z.of_nat i + 1) (seq 0 n_employees))
      with ((fun i => Z.of_nat i + 1) <$> seq 0 n_employees).
    rewrite !list_lookup_fmap.
    destruct (employees !! i) as [e|] eqn:He.
    - destruct (Hall i e He) as (Hid & _).
      rewrite (proj2 (lookup_seq 0 n_employees i i)).
      + cbn. by rewrite Hid.
      + split; [reflexivity|]. apply lookup_lt_Some in He. lia.
    - apply lookup_ge_None in He. rewrite lookup_seq_ge by lia. reflexivity. }
  split; [exact Hlen|]. split; [exact Hids|]. split.
  - rewrite Hids.
    assert (Hinj : Inj eq eq (fun i : nat => Z.of_nat i + 1))
      by (intros a b Hab; lia).
    apply (NoDup_fmap_2 _), NoDup_seq.
  - apply Forall_lookup_2. intros i e He.
    destruct (Hall i e He) as (_ & Hdept & Hlevel & _). auto.
Qed.

Lemma generate_employees_ids_witness :
  length sample_employees = 3%nat
  /\ map Employee.employee_id sample_employees
     = map (fun i => Z.of_nat i + 1) (seq 0 3)
  /\ NoDup (map Employee.employee_id sample_employees)
  /\ Forall
       (fun e =>
          Employee.department_id e
            ∈ map Department.department_id sample_departments
          /\ Employee.seniority_level e
             ∈ ["Junior"; "SemiSenior"; "Senior"; "Lead"; "Manager"])
       sample_employees.
Proof.
  apply (generate_employees_ids sample_departments sample_positions 3
           sample_world sample_world_after).
  exact sample_run_Ok.
Defined.

(** When the table has a position for a department and level, the
    candidates are exactly the positions of that department and level:
    the fallback to the whole department is not taken. *)
Lemma candidates_for_exact (ps : list JobPosition.t) (dept_id : Z)
    (level : string) :
  filter (fun p => (JobPosition.department_id p,
                    JobPosition.seniority_level p) = (dept_id, level)) ps
    <> [] ->
  candidates_for ps (grouped_positions_of ps) dept_id level
  = map JobPosition.job_position_id
      (filter (fun p => (JobPosition.department_id p,
                         JobPosition.seniority_level p) = (dept_id, level)) ps).
Proof.
  intros Hsome. unfold candidates_for.
  pose proof (grouped_positions_of_lookup ps (dept_id, level)) as Hgroup.
  destruct (filter _ ps) as [|p0 rest] eqn:Hfilter; [done|].
  destruct (grouped_positions_of ps !! (dept_id, level)) as [[|c cs]|];
    cbn in Hgroup; [discriminate | exact Hgroup | discriminate].
Qed.

Lemma employee_position_exact (departments_df : list Department.t)
    (job_positions_df : list JobPosition.t) (n_employees : nat)
    (w w' : World) (employees : list Employee.t) (e : Employee.t) :
  generate_employees departments_df job_positions_df n_employees w
    = Ok (employees, w') ->
  e ∈ employees ->
  (exists p, p ∈ job_positions_df
             /\ JobPosition.department_id p = Employee.department_id e
             /\ JobPosition.seniority_level p = Employee.seniority_level e) ->
  exists p, p ∈ job_positions_df
            /\ JobPosition.job_position_id p = Employee.job_position_id e
            /\ JobPosition.department_id p = Employee.department_id e
            /\ JobPosition.seniority_level p = Employee.seniority_level e.
Proof.
  intros Hrun He (p0 & Hp0 & Hd0 & Hl0).
  apply generate_employees_Ok in Hrun as [_ Hall].
  apply list_elem_of_lookup in He as [i He].
  destruct (Hall i e He) as (_ & _ & _ & Hcand & _).
  rewrite candidates_for_exact in Hcand.
  - apply list_elem_of_fmap in Hcand as (p & Hid & Hp).
    apply list_elem_of_filter in Hp as [[= Hd Hl] Hp].
    exists p. auto.
  - intros Hnone.
    assert (Hin : p0 ∈ filter
              (fun p => (JobPosition.department_id p,
                         JobPosition.seniority_level p)
                        = (Employee.department_id e,
                           Employee.seniority_level e)) job_positions_df).
    { apply list_elem_of_filter. split; [congruence | exact Hp0]. }
    rewrite Hnone in Hin. by apply elem_of_nil in Hin.
Qed.

(** Whenever the positions table has a position for the department and
    seniority level sampled for an employee, the employee gets a
    position of that department and that level: the fallback to any
    position of the department is taken only when there is none. *)
Theorem employee_position_has_own_level (departments_df : list Department.t)
    (job_positions_df : list JobPosition.t) (n_employees : nat)
    (w w' : World) (employees : list Employee.t) :
  generate_employees departments_df job_positions_df n_employees w
    = Ok (employees, w') ->
  Forall
    (fun e =>
       (exists p, p ∈ job_positions_df
                  /\ JobPosition.department_id p = Employee.department_id e
                  /\ JobPosition.seniority_level p
                     = Employee.seniority_level e) ->
       exists p, p ∈ job_positions_df
                 /\ JobPosition.job_position_id p = Employee.job_position_id e
                 /\ JobPosition.department_id p = Employee.department_id e
                 /\ JobPosition.seniority_level p
                    = Employee.seniority_level e)
    employees.
Proof.
  intros Hrun. apply Forall_forall. intros e He.
  by apply (employee_position_exact _ _ _ _ _ _ _ Hrun).
Qed.

Lemma employee_position_has_own_level_witness :
  Forall
    (fun e =>
       (exists p, p ∈ sample_positions
                  /\ JobPosition.department_id p = Employee.department_id e
                  /\ JobPosition.seniority_level p
                     = Employee.seniority_level e) ->
       exists p, p ∈ sample_positions
                 /\ JobPosition.job_position_id p = Employee.job_position_id e
                 /\ JobPosition.department_id p = Employee.department_id e
                 /\ JobPosition.seniority_level p
                    = Employee.seniority_level e)
    sample_employees.
Proof.
  apply (employee_position_has_own_level sample_departments sample_positions
           3 sample_world sample_world_after).
  exact sample_run_Ok.
Defined.

(** With the positions [generate_job_positions] makes for the same
    departments there always is such a position: every employee holds a
    position of the own department and the own seniority level, named
    after both. *)
Theorem factory_employee_position (departments_df : list Department.t)
    (n_employees : nat) (w w' : World) (employees : list Employee.t) :
  generate_employees departments_df (generate_job_positions departments_df)
    n_employees w = Ok (employees, w') ->
  Forall
    (fun e =>
       exists p d,
         p ∈ generate_job_positions departments_df
         /\ d ∈ departments_df
         /\ JobPosition.job_position_id p = Employee.job_position_id e
         /\ JobPosition.department_id p = Employee.department_id e
         /\ JobPosition.seniority_level p = Employee.seniority_level e
         /\ Department.department_id d = Employee.department_id e)
    employees.
Proof.
  intros Hrun. apply Forall_forall. intros e He.
  pose proof (generate_employees_Ok _ _ _ _ _ _ Hrun) as [_ Hall].
  pose proof He as He'. apply list_elem_of_lookup in He' as [k Hk].
  destruct (Hall k e Hk) as (_ & Hdept & Hlevel & _).
  apply list_elem_of_fmap in Hdept as (d & Hd & Hdin).
  apply list_elem_of_lookup in Hdin as [i Hi].
  apply list_elem_of_lookup in Hlevel as [j Hj].
  pose proof (cross_product_from_lookup 1 departments_df i j d _ Hi Hj) as Hp0.
  rewrite <- generate_job_positions_cross_product in Hp0.
  destruct (employee_position_exact _ _ _ _ _ _ e Hrun He)
    as (p & Hp & Hid & Hpd & Hpl).
  { eexists. split; [eapply list_elem_of_lookup_2, Hp0|]. cbn. auto. }
  exists p, d. repeat split; try assumption; try congruence.
  eapply list_elem_of_lookup_2, Hi.
Qed.

Lemma factory_employee_position_witness :
  Forall
    (fun e =>
       exists p d,
         p ∈ generate_job_positions generate_departments
         /\ d ∈ generate_departments
         /\ JobPosition.job_position_id p = Employee.job_position_id e
         /\ JobPosition.department_id p = Employee.department_id e
         /\ JobPosition.seniority_level p = Employee.seniority_level e
         /\ Department.department_id d = Employee.department_id e)
    factory_employees.
Proof.
  apply (factory_employee_position generate_departments 2 sample_world
           factory_world_after).
  exact factory_run_Ok.
Defined.

(** ** Further properties of the endpoints *)

Lemma mapM_result_app {A B} (f : A -> result B) (l1 l2 : list A) :
  mapM f (l1 ++ l2)
  = (ys1 ← mapM f l1; ys2 ← mapM f l2; Ok (ys1 ++ ys2)).
Proof.
  induction l1 as [|x l1 IH]; cbn.
  - by destruct (mapM f l2).
  - destruct (f x) as [y|e]; cbn; [|reflexivity].
    rewrite IH. destruct (mapM f l1) as [ys1|e]; cbn; [|reflexivity].
    by destruct (mapM f l2).
Qed.

Lemma take_add_drop {A} (a b : nat) (l : list A) :
  take (a + b) l = take a l ++ take b (drop a l).
Proof.
  revert l. induction a as [|a IH]; intros l; [reflexivity|].
  destruct l as [|x l]; cbn; [by rewrite take_nil|]. by rewrite IH.
Qed.

Section Pages.
Context `{Float64} `{!Parsing} `{!Sorting} `{!Validation}.

(** Two consecutive pages of [list_employees] make up the page that
    spans both: on any view and for any filters, asking for [a + b]
    records from [offset] gives what asking for [a] records from
    [offset] and then for [b] records from [offset + a] gives, one
    after the other, the first error included. *)
Theorem list_employees_pages (view : DataFrame)
    (department_id : option Z) (job_level : option string)
    (a b offset : nat) :
  list_employees view department_id job_level (a + b) offset
  = (page1 ← list_employees view department_id job_level a offset;
     page2 ← list_employees view department_id job_level b (offset + a);
     Ok (page1 ++ page2)).
Proof.
  unfold list_employees.
  destruct (sort_values "employee_id" _) as [df|e]; [|reflexivity].
  cbn [mbind result_bind iloc columns rows].
  rewrite take_add_drop, drop_drop, mapM_result_app. reflexivity.
Qed.

(** The exceptions building a record can raise. *)
Lemma employee_item_Raise (cols : list string) (r : list cell) (e : exn) :
  employee_item cols r = Raise e ->
  (exists key, e = KeyError key) \/ e = ValueError \/ e = TypeError
  \/ e = ValidationError.
Proof.
  assert (Hint : forall v e, py_int v = Raise e -> e = ValueError \/ e = TypeError).
  { intros [z|x|s|d|] e'; cbn;
      [discriminate
      | destruct (to_int x); [discriminate | intros [= <-]; auto]
      | destruct (int_of_str s); [discriminate | intros [= <-]; auto]
      | intros [= <-]; auto
      | intros [= <-]; auto]. }
  assert (Hfloat : forall v e, py_round2 <$> py_float v = Raise e ->
                               e = ValueError \/ e = TypeError).
  { intros [z|x|s|d|] e'; cbn;
      [discriminate
      | discriminate
      | destruct (float_of_str s); [discriminate | intros [= <-]; auto]
      | intros [= <-]; auto
      | intros [= <-]; auto]. }
  assert (Hget : forall c e, row_getitem cols r c ≫= py_int = Raise e ->
            (exists key, e = KeyError key) \/ e = ValueError \/ e = TypeError).
  { intros c e'. unfold row_getitem.
    destruct (row_get cols r c) as [v|]; cbn.
    - intros Hv. right. by apply (Hint v).
    - intros [= <-]. left. eauto. }
  unfold employee_item, new_EmployeeItem. intros Hrun.
  apply bind_result_Raise in Hrun as [Hrun | (x1 & _ & Hrun)];
    [apply Hget in Hrun; tauto|].
  apply bind_result_Raise in Hrun as [Hrun | (x2 & _ & Hrun)];
    [apply Hget in Hrun; tauto|].
  apply bind_result_Raise in Hrun as [Hrun | (x3 & _ & Hrun)];
    [apply Hget in Hrun; tauto|].
  apply bind_result_Raise in Hrun as [Hrun | (x4 & _ & Hrun)].
  { destruct (row_get cols r "salary") as [v|]; [|discriminate].
    apply Hfloat in Hrun. tauto. }
  apply bind_result_Raise in Hrun as [Hrun | (x5 & _ & Hrun)].
  { destruct (row_get cols r "tenure_years") as [v|]; [|discriminate].
    apply Hfloat in Hrun. tauto. }
  apply bind_result_Raise in Hrun as [Hrun | (x6 & _ & Hrun)].
  { destruct (row_get cols r "age") as [v|]; [|discriminate].
    destruct (isna v); [discriminate|].
    destruct (py_int v) as [z|e'] eqn:Hv; [discriminate|].
    cbn in Hrun. injection Hrun as <-. apply Hint in Hv. tauto. }
  apply bind_result_Raise in Hrun as [Hrun | (n1 & _ & Hrun)];
    [apply optional_str_error in Hrun; tauto|].
  apply bind_result_Raise in Hrun as [Hrun | (n2 & _ & Hrun)];
    [apply optional_str_error in Hrun; tauto|].
  apply bind_result_Raise in Hrun as [Hrun | (n3 & _ & Hrun)];
    [apply optional_str_error in Hrun; tauto | discriminate].
Qed.

(** [get_employee] on a view built by [_build_org_view].  It answers
    500 exactly when the view has no [employee_id] column and 404
    exactly when the view has the column and no row with the requested
    id.  Otherwise it builds the record of the first row with that id
    (as [list_employees] builds it, with the errors that may raise), and
    the record it returns carries the requested id. *)
Theorem get_employee_spec
    (departments_df job_positions_df employees_df org_view : DataFrame)
    (employee_id : Z) :
  _build_org_view departments_df job_positions_df employees_df = Ok org_view ->
  (get_employee org_view employee_id = Raise (HTTPException 500)
   <-> "employee_id" ∉ columns org_view)
  /\ (get_employee org_view employee_id = Raise (HTTPException 404)
      <-> "employee_id" ∈ columns org_view
          /\ Forall (fun r => employee_id_of (columns org_view) r
                              <> employee_id) (rows org_view))
  /\ (forall r rest,
        "employee_id" ∈ columns org_view ->
        List.filter
          (fun r => bool_decide (employee_id_of (columns org_view) r
                                 = employee_id)) (rows org_view)
        = r :: rest ->
        get_employee org_view employee_id
        = employee_item (columns org_view) r)
  /\ (forall item,
        get_employee org_view employee_id = Ok item ->
        EmployeeItem.employee_id item = employee_id).
Proof.
  intros Hbuild.
  destruct (index_of "employee_id" (columns org_view)) as [ie|] eqn:Hie.
  2: { apply index_of_None in Hie as Hnone.
       unfold get_employee. rewrite Hie.
       repeat split; try done.
       intros [Hin _]. done. }
  assert (Hcol : "employee_id" ∈ columns org_view).
  { eapply list_elem_of_lookup_2, index_of_Some_elem, Hie. }
  pose proof (built_view_typed _ _ _ _ Hbuild Hcol) as Htyped.
  set (cols := columns org_view) in *.
  assert (Hmatch : forall r, r ∈ rows org_view ->
            eq_int employee_id (cell_at ie r)
            = bool_decide (employee_id_of cols r = employee_id)).
  { intros r Hr.
    pose proof (proj1 (Forall_forall _ _) Htyped r Hr) as Hrt.
    unfold typed_row in Hrt. rewrite !andb_true_iff in Hrt.
    destruct Hrt as ((((Hid & _) & _) & _) & _).
    unfold employee_id_of, row_get in *. rewrite Hie in *. cbn in *.
    destruct (cell_at ie r); try discriminate. reflexivity. }
  assert (Hfilter :
    List.filter (fun r => eq_int employee_id (cell_at ie r)) (rows org_view)
    = List.filter (fun r => bool_decide (employee_id_of cols r = employee_id))
                  (rows org_view)).
  { apply filter_ext_in. intros r Hr. apply Hmatch, list_elem_of_In, Hr. }
  assert (Hrun : get_employee org_view employee_id
            = match List.filter
                      (fun r => bool_decide (employee_id_of cols r
                                             = employee_id)) (rows org_view)
              with
              | [] => Raise (HTTPException 404)
              | r :: _ => employee_item cols r
              end).
  { unfold get_employee. fold cols. by rewrite Hie, Hfilter. }
  assert (Hno500 : forall r c, employee_item cols r <> Raise (HTTPException c)).
  { intros r c Hraise. apply employee_item_Raise in Hraise.
    destruct Hraise as [[key Hk] | [Hk | [Hk | Hk]]]; discriminate. }
  rewrite Hrun. clear Hrun Hfilter.
  set (matching := List.filter
         (fun r => bool_decide (employee_id_of cols r = employee_id))
         (rows org_view)).
  destruct matching as [|r rest] eqn:Hrows; subst matching.
  - cbv beta iota.
    split; [split; [intros Hraise; discriminate Hraise
                  | intros Hn; destruct (Hn Hcol)]|].
    split; [|split; [intros r rest _ Heq; discriminate
                    | intros item Hitem; discriminate]].
    split; [|done]. intros _. split; [exact Hcol|].
    apply Forall_forall. intros r Hr Heq.
    assert (Hin : In r (List.filter
              (fun r => bool_decide (employee_id_of cols r = employee_id))
              (rows org_view))).
    { apply filter_In. split; [by apply list_elem_of_In|].
      by apply bool_decide_eq_true_2. }
    by rewrite Hrows in Hin.
  - assert (Hr : r ∈ rows org_view
                 /\ employee_id_of cols r = employee_id).
    { assert (Hin : In r (r :: rest)) by (by left).
      rewrite <- Hrows in Hin. apply filter_In in Hin as [Hin Heq].
      split; [by apply list_elem_of_In|].
      by apply bool_decide_eq_true_1 in Heq. }
    destruct Hr as [Hr Hid]. cbv beta iota.
    split.
    { split; [intros Hraise; by apply Hno500 in Hraise
             | intros Hn; destruct (Hn Hcol)]. }
    split.
    { split; [intros Hraise; by apply Hno500 in Hraise|].
      intros [_ Hall]. exfalso.
      by apply (proj1 (Forall_forall _ _) Hall r Hr). }
    split.
    { intros r' rest' _ [= <- <-]. reflexivity. }
    intros item Hitem.
    destruct (employee_item_ids cols r item) as [Heq _];
      [exact (proj1 (Forall_forall _ _) Htyped r Hr) | exact Hitem|].
    congruence.
Qed.

End Pages.

Lemma get_employee_spec_witness :
  (get_employee sample_view 2 = Raise (HTTPException 500)
   <-> "employee_id" ∉ columns sample_view)
  /\ (get_employee sample_view 2 = Raise (HTTPException 404)
      <-> "employee_id" ∈ columns sample_view
          /\ Forall (fun r => employee_id_of (columns sample_view) r <> 2)
                    (rows sample_view))
  /\ (forall r rest,
        "employee_id" ∈ columns sample_view ->
        List.filter
          (fun r => bool_decide (employee_id_of (columns sample_view) r = 2))
          (rows sample_view)
        = r :: rest ->
        get_employee sample_view 2 = employee_item (columns sample_view) r)
  /\ (forall item,
        get_employee sample_view 2 = Ok item ->
        EmployeeItem.employee_id item = 2).
Proof.
  apply (get_employee_spec (departments_frame sample_departments)
           (job_positions_frame sample_positions)
           (employees_frame sample_employees) sample_view 2).
  exact sample_view_run_Ok.
Defined.

(** On the sample view employee 2 is found, employee 9 is not, and a
    view without the column answers 500. *)
Example get_employee_answers :
  EmployeeItem.employee_id <$> get_employee sample_view 2 = Ok 2
  /\ error_of (get_employee sample_view 9) = Some (HTTPException 404)
  /\ error_of (keyless_view_run ≫= fun view => get_employee view 2)
     = Some (HTTPException 500).
Proof. repeat split; vm_compute; reflexivity. Qed.

(** ** The department listing *)

Lemma sumZ_Permutation (l k : list Z) : Permutation l k -> sumZ l = sumZ k.
Proof. unfold sumZ. induction 1; cbn; lia. Qed.

Lemma StronglySorted_snoc {A} (R : A -> A -> Prop) (l : list A) (x : A) :
  StronglySorted R l -> Forall (fun y => R y x) l ->
  StronglySorted R (l ++ [x]).
Proof.
  induction 1 as [|y l Hl IH Hall]; intros Hx; cbn.
  - repeat constructor.
  - apply Forall_cons in Hx as [Hyx Hx]. constructor; [by apply IH|].
    apply Forall_app. split; [exact Hall | by constructor].
Qed.

Lemma StronglySorted_reverse {A} (R : A -> A -> Prop) (l : list A) :
  StronglySorted R l -> StronglySorted (fun a b => R b a) (reverse l).
Proof.
  induction 1 as [|x l _ IH Hall]; [constructor|].
  rewrite reverse_cons. apply StronglySorted_snoc; [exact IH|].
  apply Forall_reverse. exact Hall.
Qed.

(** Every row with a group is counted in exactly one of the groups. *)
Lemma group_sizes_sum {K} `{EqDecision K} {R} (key : R -> option K)
    (rws : list R) (ks : list K) :
  NoDup ks ->
  (forall r k, r ∈ rws -> key r = Some k -> k ∈ ks) ->
  sumZ (map (fun k => Z.of_nat (length (filter (fun r => key r = Some k) rws)))
            ks)
  = Z.of_nat (length (omap key rws)).
Proof.
  intros Hnodup. induction rws as [|r rws IH]; intros Hin.
  - clear Hnodup Hin. induction ks as [|k ks IHks]; [reflexivity|].
    unfold sumZ in *. cbn [map foldr]. rewrite IHks, filter_nil. reflexivity.
  - specialize (IH (fun r' k Hr' => Hin r' k (list_elem_of_further _ _ _ Hr'))).
    destruct (key r) as [k0|] eqn:Hk0.
    + cbn [omap list_omap]. rewrite Hk0. cbn [length].
      rewrite Nat2Z.inj_succ, <- IH.
      pose proof (Hin r k0 (list_elem_of_here _ _) Hk0) as Hk0in.
      clear IH Hin. induction ks as [|k ks IHks];
        [by apply elem_of_nil in Hk0in|].
      apply NoDup_cons in Hnodup as [Hk Hnodup]. cbn [map sumZ foldr].
      fold (sumZ (map (fun k => Z.of_nat (length (filter (fun r => key r = Some k) (r :: rws)))) ks)).
      fold (sumZ (map (fun k => Z.of_nat (length (filter (fun r => key r = Some k) rws))) ks)).
      destruct (decide (k = k0)) as [->|Hne].
      * rewrite filter_cons_True by exact Hk0. cbn [length].
        assert (Hrest :
          sumZ (map (fun k => Z.of_nat (length (filter (fun r => key r = Some k) (r :: rws)))) ks)
          = sumZ (map (fun k => Z.of_nat (length (filter (fun r => key r = Some k) rws))) ks)).
        { f_equal. apply map_ext_in. intros k Hkin.
          rewrite filter_cons_False; [reflexivity|].
          rewrite Hk0. intros [= <-]. apply Hk, list_elem_of_In, Hkin. }
        rewrite Hrest. lia.
      * rewrite filter_cons_False by (rewrite Hk0; congruence).
        apply elem_of_cons in Hk0in as [Heq | Hk0in]; [congruence|].
        rewrite (IHks Hnodup Hk0in). lia.
    + cbn [omap list_omap]. rewrite Hk0. rewrite <- IH.
      f_equal. apply map_ext. intros k.
      rewrite filter_cons_False; [reflexivity|]. by rewrite Hk0.
Qed.

Section Departments.
Context `{Float64} `{!Parsing} `{!Sorting} `{!Validation}.

(** [list_departments] on any view.  It answers 500 exactly when the
    view lacks [department_id] or [department_name].  What it returns
    is one entry for every distinct pair of a department id and name
    found in the rows (rows where either is missing are in no group):
    the entry has the id as an integer, the validated name and, as
    headcount, the number of rows with that pair, which is at least 1.
    The entries are in descending order of headcount, and the
    headcounts add up to the number of rows that have both values. *)
Theorem list_departments_spec (view : DataFrame) :
  (list_departments view = Raise (HTTPException 500)
   <-> ~ ("department_id" ∈ columns view
          /\ "department_name" ∈ columns view))
  /\ forall items,
       list_departments view = Ok items ->
       exists groups,
         Permutation groups
           (remove_dups (omap (department_of (columns view)) (rows view)))
         /\ Forall2
              (fun g item =>
                 py_int g.1 = Ok (DepartmentSummary.department_id item)
                 /\ optional_str (Some g.2)
                    = Ok (DepartmentSummary.department_name item)
                 /\ DepartmentSummary.headcount item
                    = Z.of_nat
                        (length (filter
                           (fun r => department_of (columns view) r = Some g)
                           (rows view)))
                 /\ 1 <= DepartmentSummary.headcount item)
              groups items
         /\ StronglySorted (fun a b => b <= a)
              (map DepartmentSummary.headcount items)
         /\ sumZ (map DepartmentSummary.headcount items)
            = Z.of_nat (length (omap (department_of (columns view))
                                     (rows view))).
Proof.
  unfold list_departments, department_of.
  destruct (index_of "department_id" (columns view)) as [i|] eqn:Hi.
  2: { split; [|discriminate]. split; [|reflexivity].
       intros _ [Hin _]. by apply index_of_None in Hi. }
  destruct (index_of "department_name" (columns view)) as [j|] eqn:Hj.
  2: { split; [|discriminate]. split; [|reflexivity].
       intros _ [_ Hin]. by apply index_of_None in Hj. }
  set (key := fun r : list cell =>
                if isna (cell_at i r) || isna (cell_at j r) then None
                else Some (cell_at i r, cell_at j r)).
  set (count := fun k : cell * cell =>
                  Z.of_nat (length (filter (fun r => key r = Some k)
                                           (rows view)))).
  set (distinct := remove_dups (omap key (rows view))).
  unfold groupby. fold key. fold distinct.
  set (labels := sort_labels (fun k : cell * cell => [k.1; k.2]) distinct).
  assert (Hlabels : Permutation labels distinct) by apply sort_labels_perm.
  rewrite map_map. cbn [fst snd].
  set (hc0 := map (fun k => (k, count k)) labels).
  set (hc := sort_descending snd hc0).
  assert (Hhc : Permutation hc hc0).
  { unfold hc, sort_descending. rewrite reverse_Permutation, sort_by_perm.
    apply reverse_Permutation. }
  assert (Hsorted : StronglySorted (fun a b => snd b <= snd a) hc).
  { unfold hc, sort_descending.
    apply (StronglySorted_reverse (fun a b => snd a <= snd b)).
    apply sort_by_sorted. }
  assert (Hcounts : Forall (fun h => h.2 = count h.1) hc).
  { eapply Permutation_Forall; [symmetry; exact Hhc|].
    unfold hc0. apply Forall_fmap, Forall_true. reflexivity. }
  set (build := fun '((a, b), n) =>
                  department_id ← py_int a;
                  new_DepartmentSummary department_id (Some b) n).
  split.
  { split.
    - intros Hraise. exfalso.
      apply mapM_result_Raise in Hraise as ([[a b] n] & _ & Hraise).
      unfold new_DepartmentSummary in Hraise.
      apply bind_result_Raise in Hraise as [Hraise | (z & _ & Hraise)].
      + destruct a as [z|x|s|d|]; cbn in Hraise; try discriminate.
        * destruct (to_int x); discriminate.
        * destruct (int_of_str s); discriminate.
      + apply bind_result_Raise in Hraise as [Hraise | (s & _ & Hraise)];
          [|discriminate].
        apply optional_str_error in Hraise. discriminate.
    - intros Hnot. exfalso. apply Hnot. split.
      + eapply list_elem_of_lookup_2, index_of_Some_elem, Hi.
      + eapply list_elem_of_lookup_2, index_of_Some_elem, Hj. }
  intros items Hitems. apply mapM_result_Ok in Hitems.
  assert (Hfields : Forall2
            (fun h item =>
               py_int h.1.1 = Ok (DepartmentSummary.department_id item)
               /\ optional_str (Some h.1.2)
                  = Ok (DepartmentSummary.department_name item)
               /\ DepartmentSummary.headcount item = h.2)
            hc items).
  { eapply Forall2_impl; [exact Hitems|]. cbn.
    intros [[a b] n] item Hitem. unfold new_DepartmentSummary in Hitem.
    apply bind_result_Ok in Hitem as (z & Hz & Hitem).
    apply bind_result_Ok in Hitem as (s & Hs & [= <-]). cbn. auto. }
  assert (Hheads : map DepartmentSummary.headcount items = map snd hc).
  { clear -Hfields. induction Hfields as [|h item hc items (_ & _ & Hh) _ IH];
      [reflexivity|]. cbn. by rewrite Hh, IH. }
  assert (Hmember : forall k, k ∈ distinct -> 1 <= count k).
  { intros k Hk. unfold distinct in Hk.
    apply elem_of_remove_dups, list_elem_of_omap in Hk as (r & Hr & Hkr).
    unfold count.
    assert (Hin : r ∈ filter (fun r => key r = Some k) (rows view))
      by (apply list_elem_of_filter; auto).
    destruct (filter (fun r => key r = Some k) (rows view));
      [by apply elem_of_nil in Hin | cbn; lia]. }
  exists (map fst hc). split.
  { etransitivity; [apply Permutation_map, Hhc|].
    unfold hc0. rewrite map_map. cbn. rewrite map_id. exact Hlabels. }
  split.
  { assert (Hall : Forall (fun h => h.2 = count h.1 /\ h.1 ∈ distinct) hc).
    { eapply Permutation_Forall; [symmetry; exact Hhc|].
      unfold hc0. apply Forall_fmap, Forall_forall. intros k Hk. cbn.
      split; [reflexivity|]. by rewrite <- Hlabels. }
    apply Forall2_fmap_l. clear -Hfields Hall Hmember.
    induction Hfields as [|h item hc items (Hid & Hname & Hcount) _ IH];
      [constructor|].
    apply Forall_cons in Hall as [[Hc Hin] Hall].
    constructor; [|by apply IH].
    cbn. repeat split; try assumption.
    - rewrite Hcount, Hc. reflexivity.
    - rewrite Hcount, Hc. by apply Hmember. }
  split.
  { rewrite Hheads. clear -Hsorted.
    induction Hsorted as [|h hc _ IH Hall]; cbn; constructor; [exact IH|].
    apply Forall_fmap. exact Hall. }
  rewrite Hheads.
  rewrite (sumZ_Permutation _ _ (Permutation_map snd Hhc)).
  unfold hc0. rewrite map_map. cbn [snd].
  etransitivity;
    [apply sumZ_Permutation, (Permutation_map count), Hlabels|].
  apply group_sizes_sum.
  - apply NoDup_remove_dups.
  - intros r k Hr Hk. apply elem_of_remove_dups, list_elem_of_omap. eauto.
Qed.

End Departments.

(** The sample view has one department, with all three employees. *)
Example list_departments_sample :
  map (fun item => (DepartmentSummary.department_id item,
                    DepartmentSummary.department_name item,
                    DepartmentSummary.headcount item))
    <$> list_departments sample_view
  = Ok [(1, Some "Ops", 3)].
Proof. vm_compute. reflexivity. Qed.

Section SalaryCounts.
Context `{Float64} `{!Parsing} `{!Sorting}.


End SalaryCounts.


(** ** What the view builder guarantees *)

Section ViewBuilder.
Context `{Float64} `{!Parsing}.

Lemma merge_left_Raise (left right : DataFrame) (on rsuffix : string)
    (e : exn) :
  merge_left left right on rsuffix = Raise e ->
  e = KeyError on /\ (on ∉ columns left \/ on ∉ columns right).
Proof.
  unfold merge_left.
  destruct (index_of on (columns left)) as [il|] eqn:Hil.
  - destruct (index_of on (columns right)) as [ir|] eqn:Hir; [discriminate|].
    intros [= <-]. split; [reflexivity|]. right. by apply index_of_None.
  - intros Hraise. split; [|left; by apply index_of_None].
    destruct (index_of on (columns right)); congruence.
Qed.

Lemma merge_left_keeps_rows (left right df : DataFrame)
    (on rsuffix : string) :
  merge_left left right on rsuffix = Ok df ->
  (length (rows left) <= length (rows df))%nat.
Proof.
  unfold merge_left.
  destruct (index_of on (columns left)) as [il|]; [|discriminate].
  destruct (index_of on (columns right)) as [ir|]; [|discriminate].
  intros [= <-]. cbn.
  induction (rows left) as [|l ls IH]; cbn; [lia|].
  rewrite length_app, join_row_length. lia.
Qed.

Lemma update_column_Raise (col : string) (f : cell -> result cell)
    (df : DataFrame) (e : exn) :
  update_column col f df = Raise e ->
  exists c, f c = Raise e.
Proof.
  unfold update_column.
  destruct (index_of col (columns df)) as [i|]; [|discriminate]. intros Hrun.
  apply bind_result_Raise in Hrun as [Hrun | (rows' & _ & Hrun)];
    [|discriminate].
  apply mapM_result_Raise in Hrun as (r & _ & Hrun).
  apply bind_result_Raise in Hrun as [Hrun | (v & _ & Hrun)];
    [eauto | discriminate].
Qed.

Lemma astype_int_Raise (c : cell) (e : exn) :
  astype_int c = Raise e -> e = ValueError \/ e = TypeError.
Proof.
  destruct c as [z|x|s|d|]; cbn;
    [discriminate
    | destruct (to_int x); [discriminate | intros [= <-]; auto]
    | destruct (int_of_str s); [discriminate | intros [= <-]; auto]
    | intros [= <-]; auto
    | intros [= <-]; auto].
Qed.

Lemma astype_float_round2_Raise (c : cell) (e : exn) :
  astype_float_round2 c = Raise e -> e = ValueError \/ e = TypeError.
Proof.
  destruct c as [z|x|s|d|]; cbn;
    [discriminate
    | discriminate
    | destruct (float_of_str s); [discriminate | intros [= <-]; auto]
    | intros [= <-]; auto
    | discriminate].
Qed.

(** [_build_org_view] on any three frames.  Without a [job_position_id]
    column in the employees or in the positions it raises that
    [KeyError]; the only other errors are the [KeyError] of a missing
    [department_id] and the [ValueError] or [TypeError] of a cast.  The
    view it returns starts with the employee columns, has both join
    keys, loses no employee row, holds integers in the three id columns
    and floats in [salary] and [tenure_years] where it has them. *)
Theorem build_org_view_spec
    (departments_df job_positions_df employees_df : DataFrame) :
  ("job_position_id" ∉ columns employees_df
   \/ "job_position_id" ∉ columns job_positions_df ->
   _build_org_view departments_df job_positions_df employees_df
   = Raise (KeyError "job_position_id"))
  /\ (forall e,
        _build_org_view departments_df job_positions_df employees_df
        = Raise e ->
        e = KeyError "job_position_id" \/ e = KeyError "department_id"
        \/ e = ValueError \/ e = TypeError)
  /\ (forall org_view,
        _build_org_view departments_df job_positions_df employees_df
        = Ok org_view ->
        (exists joined, columns org_view = columns employees_df ++ joined)
        /\ "job_position_id" ∈ columns org_view
        /\ "department_id" ∈ columns org_view
        /\ (length (rows employees_df) <= length (rows org_view))%nat
        /\ Forall
             (fun r =>
                Forall (fun col => if_present is_int
                                     (row_get (columns org_view) r col) = true)
                       ["employee_id"; "department_id"; "job_position_id"]
                /\ Forall (fun col => if_present is_float
                                        (row_get (columns org_view) r col)
                                      = true)
                          ["salary"; "tenure_years"])
             (rows org_view)).
Proof.
  split.
  { intros Hnone. unfold _build_org_view, merge_left.
    destruct Hnone as [Hnone | Hnone]; apply index_of_None in Hnone;
      rewrite Hnone; [|destruct (index_of _ (columns employees_df))];
      reflexivity. }
  split.
  { unfold _build_org_view. intros e Hrun.
    apply bind_result_Raise in Hrun as [Hrun | (v1 & _ & Hrun)];
      [apply merge_left_Raise in Hrun as [-> _]; auto|].
    apply bind_result_Raise in Hrun as [Hrun | (v2 & _ & Hrun)];
      [apply merge_left_Raise in Hrun as [-> _]; auto|].
    apply bind_result_Raise in Hrun as [Hrun | (v3 & _ & Hrun)];
      [apply update_column_Raise in Hrun as (c & Hc);
       apply astype_int_Raise in Hc; tauto|].
    apply bind_result_Raise in Hrun as [Hrun | (v4 & _ & Hrun)];
      [apply update_column_Raise in Hrun as (c & Hc);
       apply astype_int_Raise in Hc; tauto|].
    apply bind_result_Raise in Hrun as [Hrun | (v5 & _ & Hrun)];
      [apply update_column_Raise in Hrun as (c & Hc);
       apply astype_int_Raise in Hc; tauto|].
    apply bind_result_Raise in Hrun as [Hrun | (v6 & _ & Hrun)];
      [apply update_column_Raise in Hrun as (c & Hc);
       apply astype_float_round2_Raise in Hc; tauto|].
    apply update_column_Raise in Hrun as (c & Hc).
    apply astype_float_round2_Raise in Hc. tauto. }
  intros org_view Hbuild.
  destruct (build_org_view_stages _ _ _ _ Hbuild)
    as (v1 & v2 & v3 & v4 & v5 & v6 & Hv1 & Hv2 & Hv3 & Hv4 & Hv5 & Hv6 & Hv7
        & _ & _ & _ & _ & Hcols).
  destruct (merge_left_columns _ _ _ _ _ Hv1) as (il1 & ir1 & Hil1 & _ & Hc1).
  destruct (merge_left_columns _ _ _ _ _ Hv2) as (il2 & ir2 & Hil2 & _ & Hc2).
  split.
  { eexists. by rewrite Hcols, Hc2, Hc1, <- app_assoc. }
  split.
  { rewrite Hcols, Hc2, Hc1. apply elem_of_app. left. apply elem_of_app. left.
    eapply list_elem_of_lookup_2, index_of_Some_elem, Hil1. }
  split.
  { rewrite Hcols, Hc2. apply elem_of_app. left.
    eapply list_elem_of_lookup_2, index_of_Some_elem, Hil2. }
  split.
  { pose proof (merge_left_keeps_rows _ _ _ _ _ Hv1).
    pose proof (merge_left_keeps_rows _ _ _ _ _ Hv2).
    apply update_column_Ok in Hv3 as [_ Hl3].
    apply update_column_Ok in Hv4 as [_ Hl4].
    apply update_column_Ok in Hv5 as [_ Hl5].
    apply update_column_Ok in Hv6 as [_ Hl6].
    apply update_column_Ok in Hv7 as [_ Hl7]. lia. }
  pose proof (build_org_view_casts _ _ _ _ Hbuild) as Hcasts.
  apply Forall_forall. intros r Hr.
  assert (Hint : forall col,
            col = "employee_id" \/ col = "department_id"
            \/ col = "job_position_id" ->
            if_present is_int (row_get (columns org_view) r col) = true).
  { intros col Hcol. unfold row_get.
    destruct (index_of col (columns org_view)) as [i|] eqn:Hi; [|reflexivity].
    cbn. apply (proj1 (Forall_forall _ _) (proj1 (Hcasts i)
                  ltac:(destruct Hcol as [-> | [-> | ->]]; auto)) r Hr). }
  assert (Hfloat : forall col,
            col = "salary" \/ col = "tenure_years" ->
            if_present is_float (row_get (columns org_view) r col) = true).
  { intros col Hcol. unfold row_get.
    destruct (index_of col (columns org_view)) as [i|] eqn:Hi; [|reflexivity].
    cbn. apply (proj1 (Forall_forall _ _) (proj2 (Hcasts i)
                  ltac:(destruct Hcol as [-> | ->]; auto)) r Hr). }
  split; repeat constructor; (apply Hint || apply Hfloat); auto.
Qed.

End ViewBuilder.

(** An empty list of employees makes a frame without columns, which the
    builder refuses; a department id that is no number fails the cast. *)
Example build_org_view_refuses :
  error_of (_build_org_view (departments_frame sample_departments)
              (job_positions_frame sample_positions)
              (employees_frame ([] : list (@Employee.t exact_float))))
  = Some (KeyError "job_position_id")
  /\ error_of (_build_org_view (departments_frame sample_departments)
                 (job_positions_frame sample_positions)
                 ({| columns := ["job_position_id"; "department_id"];
                     rows := [[CInt 7; CStr "one"]] |}
                    : @DataFrame exact_float))
     = Some ValueError.
Proof. split; vm_compute; reflexivity. Qed.
